(** * synapscribe-backend: the five serverless handlers, embedded in Rocq

    Go strings are byte sequences, so they are modelled by [string]
    (a list of 8-bit [ascii]); string literals are their UTF-8 bytes.
    Go's [int] and [rune] are modelled by [Z]. *)

From Stdlib Require Import ZArith Ascii String List Bool Lia ZifyBool.
From stdpp Require Import gmap strings.
Import ListNotations.

Local Open Scope Z_scope.
#[local] Arguments String.append !_ _ : simpl nomatch.

(** ** Byte-level helpers: indexing and slicing of Go strings *)

Definition byte := ascii.

Definition byteZ (c : byte) : Z := Z.of_N (N_of_ascii c).
Definition Zbyte (z : Z) : byte := ascii_of_N (Z.to_N z).

(** [len(s)] *)
Definition len (s : string) : Z := Z.of_nat (String.length s).

(** [s[i:]] and [s[:j]], for indices within bounds (Go panics otherwise;
    every use below is guarded as in the source). *)
Fixpoint sdrop (n : nat) (s : string) : string :=
  match n, s with
  | O, _ => s
  | S n', String _ s' => sdrop n' s'
  | S _, EmptyString => EmptyString
  end.

Fixpoint stake (n : nat) (s : string) : string :=
  match n, s with
  | O, _ => EmptyString
  | S n', String c s' => String c (stake n' s')
  | S _, EmptyString => EmptyString
  end.

Definition slice_from (s : string) (i : Z) : string := sdrop (Z.to_nat i) s.
Definition slice_to (s : string) (j : Z) : string := stake (Z.to_nat j) s.

Definition bytes (s : string) : list byte := list_ascii_of_string s.

(** ** Package [unicode/utf8] *)

Module utf8.

Definition RuneError : Z := 0xFFFD.
Definition RuneSelf : Z := 0x80.
Definition MaxRune : Z := 0x10FFFF.
Definition UTFMax : Z := 4.
Definition surrogateMin : Z := 0xD800.
Definition surrogateMax : Z := 0xDFFF.
Definition rune1Max : Z := 0x7F.
Definition rune2Max : Z := 0x7FF.
Definition rune3Max : Z := 0xFFFF.

Definition tx : Z := 0x80.
Definition t2 : Z := 0xC0.
Definition t3 : Z := 0xE0.
Definition t4 : Z := 0xF0.
Definition maskx : Z := 0x3F.
Definition mask2 : Z := 0x1F.
Definition mask3 : Z := 0x0F.
Definition mask4 : Z := 0x07.
Definition locb : Z := 0x80.
Definition hicb : Z := 0xBF.

(** Information about the first byte of an encoding: [xx] invalid,
    [as_] ASCII, otherwise the size in the low bits and the index of the
    accept range for the second byte in the high bits. *)
Definition xx : Z := 0xF1.
Definition as_ : Z := 0xF0.

Definition first (b : Z) : Z :=
  if b <? 0x80 then as_
  else if b <? 0xC2 then xx
  else if b <? 0xE0 then 0x02
  else if b =? 0xE0 then 0x13
  else if b <? 0xED then 0x03
  else if b =? 0xED then 0x23
  else if b <? 0xF0 then 0x03
  else if b =? 0xF0 then 0x34
  else if b <? 0xF4 then 0x04
  else if b =? 0xF4 then 0x44
  else xx.

Definition acceptRanges (i : Z) : Z * Z :=
  if i =? 0 then (locb, hicb)
  else if i =? 1 then (0xA0, hicb)
  else if i =? 2 then (locb, 0x9F)
  else if i =? 3 then (0x90, hicb)
  else (locb, 0x8F).

(** [DecodeRuneInString]: the first rune of [s] and its width in bytes;
    [(RuneError, 0)] on the empty string, [(RuneError, 1)] on an
    invalid encoding. *)
Definition DecodeRuneInString (s : string) : Z * Z :=
  match s with
  | EmptyString => (RuneError, 0)
  | String c0 q1 =>
      let s0 := byteZ c0 in
      let x := first s0 in
      if as_ <=? x then ((if x =? xx then RuneError else s0), 1)
      else
        let sz := Z.land x 7 in
        let '(lo, hi) := acceptRanges (Z.shiftr x 4) in
        if len s <? sz then (RuneError, 1)
        else match q1 with
        | EmptyString => (RuneError, 1)
        | String c1 q2 =>
            let s1 := byteZ c1 in
            if (s1 <? lo) || (hi <? s1) then (RuneError, 1)
            else if sz <=? 2 then
              (Z.lor (Z.shiftl (Z.land s0 mask2) 6) (Z.land s1 maskx), 2)
            else match q2 with
            | EmptyString => (RuneError, 1)
            | String c2 q3 =>
                let s2 := byteZ c2 in
                if (s2 <? locb) || (hicb <? s2) then (RuneError, 1)
                else if sz <=? 3 then
                  (Z.lor (Z.lor (Z.shiftl (Z.land s0 mask3) 12)
                                (Z.shiftl (Z.land s1 maskx) 6))
                         (Z.land s2 maskx), 3)
                else match q3 with
                | EmptyString => (RuneError, 1)
                | String c3 _ =>
                    let s3 := byteZ c3 in
                    if (s3 <? locb) || (hicb <? s3) then (RuneError, 1)
                    else
                      (Z.lor (Z.lor (Z.lor (Z.shiftl (Z.land s0 mask4) 18)
                                           (Z.shiftl (Z.land s1 maskx) 12))
                                    (Z.shiftl (Z.land s2 maskx) 6))
                             (Z.land s3 maskx), 4)
                end
            end
        end
  end.

(** [RuneStart]: the byte is not a continuation byte. *)
Definition RuneStart (b : Z) : bool := negb (Z.land b 0xC0 =? 0x80).

Definition str1 (b : Z) : string := String (Zbyte b) EmptyString.

(** [AppendRune] on an empty buffer: the UTF-8 encoding of [r];
    surrogates and values out of range are encoded as [RuneError]. *)
Definition EncodeRune (r : Z) : string :=
  if (0 <=? r) && (r <=? rune1Max) then str1 r
  else if (0 <=? r) && (r <=? rune2Max) then
    str1 (Z.lor t2 (Z.shiftr r 6)) +:+ str1 (Z.lor tx (Z.land r maskx))
  else
    let r3 := if (r <? 0) || (MaxRune <? r)
                 || ((surrogateMin <=? r) && (r <=? surrogateMax))
              then RuneError else r in
    if r3 <=? rune3Max then
      str1 (Z.lor t3 (Z.shiftr r3 12))
      +:+ str1 (Z.lor tx (Z.land (Z.shiftr r3 6) maskx))
      +:+ str1 (Z.lor tx (Z.land r3 maskx))
    else
      str1 (Z.lor t4 (Z.shiftr r3 18))
      +:+ str1 (Z.lor tx (Z.land (Z.shiftr r3 12) maskx))
      +:+ str1 (Z.lor tx (Z.land (Z.shiftr r3 6) maskx))
      +:+ str1 (Z.lor tx (Z.land r3 maskx)).

(** [RuneLen]: bytes needed to encode the rune, -1 if it is not valid. *)
Definition RuneLen (r : Z) : Z :=
  if r <? 0 then -1
  else if r <=? rune1Max then 1
  else if r <=? rune2Max then 2
  else if (surrogateMin <=? r) && (r <=? surrogateMax) then -1
  else if r <=? rune3Max then 3
  else if r <=? MaxRune then 4
  else -1.

(** [s[i]], for an index within bounds. *)
Definition byte_at (s : string) (i : Z) : Z :=
  match String.get (Z.to_nat i) s with
  | Some c => byteZ c
  | None => 0
  end.

(** The backward scan of [DecodeLastRuneInString]:
    [for start--; start >= lim; start-- { if RuneStart(s[start]) { break } }] *)
Fixpoint back_to_start (fuel : nat) (s : string) (start lim : Z) : Z :=
  match fuel with
  | O => start
  | S fuel' =>
      if start <? lim then start
      else if RuneStart (byte_at s start) then start
      else back_to_start fuel' s (start - 1) lim
  end.

(** [DecodeLastRuneInString]: the last rune of [s] and its width. *)
Definition DecodeLastRuneInString (s : string) : Z * Z :=
  let end_ := len s in
  if end_ =? 0 then (RuneError, 0)
  else
    let start := end_ - 1 in
    let r := byte_at s start in
    if r <? RuneSelf then (r, 1)
    else
      let lim := Z.max 0 (end_ - UTFMax) in
      let start := back_to_start 4 s (start - 1) lim in
      let start := Z.max 0 start in
      let '(r, size) := DecodeRuneInString (slice_to (slice_from s start) (end_ - start)) in
      if start + size =? end_ then (r, size) else (RuneError, 1).

End utf8.

(** ** Package [unicode] *)

Module unicode.

Definition MaxRune : Z := 0x10FFFF.
Definition MaxASCII : Z := 0x7F.
Definition MaxLatin1 : Z := 0xFF.
Definition ReplacementChar : Z := 0xFFFD.

Definition UpperCase : Z := 0.
Definition LowerCase : Z := 1.
Definition TitleCase : Z := 2.
Definition MaxCase : Z := 3.

(** A delta of [UpperLower] marks an alternating upper/lower sequence. *)
Definition UpperLower : Z := MaxRune + 1.

Record CaseRange := CR { Lo : Z; Hi : Z; dUpper : Z; dLower : Z; dTitle : Z }.

Definition Delta (cr : CaseRange) (_case : Z) : Z :=
  if _case =? UpperCase then dUpper cr
  else if _case =? LowerCase then dLower cr
  else dTitle cr.

(** [CaseRanges]: the simple case mappings of the Unicode Character
    Database, as sorted disjoint ranges with their deltas to upper,
    lower and title case. *)
Definition CaseRanges : list CaseRange :=
  [
    CR 0x0041 0x005A 0 32 0;
    CR 0x0061 0x007A (-32) 0 (-32);
    CR 0x00B5 0x00B5 743 0 743;
    CR 0x00C0 0x00D6 0 32 0;
    CR 0x00D8 0x00DE 0 32 0;
    CR 0x00E0 0x00F6 (-32) 0 (-32);
    CR 0x00F8 0x00FE (-32) 0 (-32);
    CR 0x00FF 0x00FF 121 0 121;
    CR 0x0100 0x012F UpperLower UpperLower UpperLower;
    CR 0x0130 0x0130 0 (-199) 0;
    CR 0x0131 0x0131 (-232) 0 (-232);
    CR 0x0132 0x0137 UpperLower UpperLower UpperLower;
    CR 0x0139 0x0148 UpperLower UpperLower UpperLower;
    CR 0x014A 0x0177 UpperLower UpperLower UpperLower;
    CR 0x0178 0x0178 0 (-121) 0;
    CR 0x0179 0x017E UpperLower UpperLower UpperLower;
    CR 0x017F 0x017F (-300) 0 (-300);
    CR 0x0180 0x0180 195 0 195;
    CR 0x0181 0x0181 0 210 0;
    CR 0x0182 0x0185 UpperLower UpperLower UpperLower;
    CR 0x0186 0x0186 0 206 0;
    CR 0x0187 0x0188 UpperLower UpperLower UpperLower;
    CR 0x0189 0x018A 0 205 0;
    CR 0x018B 0x018C UpperLower UpperLower UpperLower;
    CR 0x018E 0x018E 0 79 0;
    CR 0x018F 0x018F 0 202 0;
    CR 0x0190 0x0190 0 203 0;
    CR 0x0191 0x0192 UpperLower UpperLower UpperLower;
    CR 0x0193 0x0193 0 205 0;
    CR 0x0194 0x0194 0 207 0;
    CR 0x0195 0x0195 97 0 97;
    CR 0x0196 0x0196 0 211 0;
    CR 0x0197 0x0197 0 209 0;
    CR 0x0198 0x0199 UpperLower UpperLower UpperLower;
    CR 0x019A 0x019A 163 0 163;
    CR 0x019C 0x019C 0 211 0;
    CR 0x019D 0x019D 0 213 0;
    CR 0x019E 0x019E 130 0 130;
    CR 0x019F 0x019F 0 214 0;
    CR 0x01A0 0x01A5 UpperLower UpperLower UpperLower;
    CR 0x01A6 0x01A6 0 218 0;
    CR 0x01A7 0x01A8 UpperLower UpperLower UpperLower;
    CR 0x01A9 0x01A9 0 218 0;
    CR 0x01AC 0x01AD UpperLower UpperLower UpperLower;
    CR 0x01AE 0x01AE 0 218 0;
    CR 0x01AF 0x01B0 UpperLower UpperLower UpperLower;
    CR 0x01B1 0x01B2 0 217 0;
    CR 0x01B3 0x01B6 UpperLower UpperLower UpperLower;
    CR 0x01B7 0x01B7 0 219 0;
    CR 0x01B8 0x01B9 UpperLower UpperLower UpperLower;
    CR 0x01BC 0x01BD UpperLower UpperLower UpperLower;
    CR 0x01BF 0x01BF 56 0 56;
    CR 0x01C4 0x01C4 0 2 1;
    CR 0x01C5 0x01C5 (-1) 1 0;
    CR 0x01C6 0x01C6 (-2) 0 (-1);
    CR 0x01C7 0x01C7 0 2 1;
    CR 0x01C8 0x01C8 (-1) 1 0;
    CR 0x01C9 0x01C9 (-2) 0 (-1);
    CR 0x01CA 0x01CA 0 2 1;
    CR 0x01CB 0x01CB (-1) 1 0;
    CR 0x01CC 0x01CC (-2) 0 (-1);
    CR 0x01CD 0x01DC UpperLower UpperLower UpperLower;
    CR 0x01DD 0x01DD (-79) 0 (-79);
    CR 0x01DE 0x01EF UpperLower UpperLower UpperLower;
    CR 0x01F1 0x01F1 0 2 1;
    CR 0x01F2 0x01F2 (-1) 1 0;
    CR 0x01F3 0x01F3 (-2) 0 (-1);
    CR 0x01F4 0x01F5 UpperLower UpperLower UpperLower;
    CR 0x01F6 0x01F6 0 (-97) 0;
    CR 0x01F7 0x01F7 0 (-56) 0;
    CR 0x01F8 0x021F UpperLower UpperLower UpperLower;
    CR 0x0220 0x0220 0 (-130) 0;
    CR 0x0222 0x0233 UpperLower UpperLower UpperLower;
    CR 0x023A 0x023A 0 10795 0;
    CR 0x023B 0x023C UpperLower UpperLower UpperLower;
    CR 0x023D 0x023D 0 (-163) 0;
    CR 0x023E 0x023E 0 10792 0;
    CR 0x023F 0x0240 10815 0 10815;
    CR 0x0241 0x0242 UpperLower UpperLower UpperLower;
    CR 0x0243 0x0243 0 (-195) 0;
    CR 0x0244 0x0244 0 69 0;
    CR 0x0245 0x0245 0 71 0;
    CR 0x0246 0x024F UpperLower UpperLower UpperLower;
    CR 0x0250 0x0250 10783 0 10783;
    CR 0x0251 0x0251 10780 0 10780;
    CR 0x0252 0x0252 10782 0 10782;
    CR 0x0253 0x0253 (-210) 0 (-210);
    CR 0x0254 0x0254 (-206) 0 (-206);
    CR 0x0256 0x0257 (-205) 0 (-205);
    CR 0x0259 0x0259 (-202) 0 (-202);
    CR 0x025B 0x025B (-203) 0 (-203);
    CR 0x025C 0x025C 42319 0 42319;
    CR 0x0260 0x0260 (-205) 0 (-205);
    CR 0x0261 0x0261 42315 0 42315;
    CR 0x0263 0x0263 (-207) 0 (-207);
    CR 0x0265 0x0265 42280 0 42280;
    CR 0x0266 0x0266 42308 0 42308;
    CR 0x0268 0x0268 (-209) 0 (-209);
    CR 0x0269 0x0269 (-211) 0 (-211);
    CR 0x026A 0x026A 42308 0 42308;
    CR 0x026B 0x026B 10743 0 10743;
    CR 0x026C 0x026C 42305 0 42305;
    CR 0x026F 0x026F (-211) 0 (-211);
    CR 0x0271 0x0271 10749 0 10749;
    CR 0x0272 0x0272 (-213) 0 (-213);
    CR 0x0275 0x0275 (-214) 0 (-214);
    CR 0x027D 0x027D 10727 0 10727;
    CR 0x0280 0x0280 (-218) 0 (-218);
    CR 0x0282 0x0282 42307 0 42307;
    CR 0x0283 0x0283 (-218) 0 (-218);
    CR 0x0287 0x0287 42282 0 42282;
    CR 0x0288 0x0288 (-218) 0 (-218);
    CR 0x0289 0x0289 (-69) 0 (-69);
    CR 0x028A 0x028B (-217) 0 (-217);
    CR 0x028C 0x028C (-71) 0 (-71);
    CR 0x0292 0x0292 (-219) 0 (-219);
    CR 0x029D 0x029D 42261 0 42261;
    CR 0x029E 0x029E 42258 0 42258;
    CR 0x0345 0x0345 84 0 84;
    CR 0x0370 0x0373 UpperLower UpperLower UpperLower;
    CR 0x0376 0x0377 UpperLower UpperLower UpperLower;
    CR 0x037B 0x037D 130 0 130;
    CR 0x037F 0x037F 0 116 0;
    CR 0x0386 0x0386 0 38 0;
    CR 0x0388 0x038A 0 37 0;
    CR 0x038C 0x038C 0 64 0;
    CR 0x038E 0x038F 0 63 0;
    CR 0x0391 0x03A1 0 32 0;
    CR 0x03A3 0x03AB 0 32 0;
    CR 0x03AC 0x03AC (-38) 0 (-38);
    CR 0x03AD 0x03AF (-37) 0 (-37);
    CR 0x03B1 0x03C1 (-32) 0 (-32);
    CR 0x03C2 0x03C2 (-31) 0 (-31);
    CR 0x03C3 0x03CB (-32) 0 (-32);
    CR 0x03CC 0x03CC (-64) 0 (-64);
    CR 0x03CD 0x03CE (-63) 0 (-63);
    CR 0x03CF 0x03CF 0 8 0;
    CR 0x03D0 0x03D0 (-62) 0 (-62);
    CR 0x03D1 0x03D1 (-57) 0 (-57);
    CR 0x03D5 0x03D5 (-47) 0 (-47);
    CR 0x03D6 0x03D6 (-54) 0 (-54);
    CR 0x03D7 0x03D7 (-8) 0 (-8);
    CR 0x03D8 0x03EF UpperLower UpperLower UpperLower;
    CR 0x03F0 0x03F0 (-86) 0 (-86);
    CR 0x03F1 0x03F1 (-80) 0 (-80);
    CR 0x03F2 0x03F2 7 0 7;
    CR 0x03F3 0x03F3 (-116) 0 (-116);
    CR 0x03F4 0x03F4 0 (-60) 0;
    CR 0x03F5 0x03F5 (-96) 0 (-96);
    CR 0x03F7 0x03F8 UpperLower UpperLower UpperLower;
    CR 0x03F9 0x03F9 0 (-7) 0;
    CR 0x03FA 0x03FB UpperLower UpperLower UpperLower;
    CR 0x03FD 0x03FF 0 (-130) 0;
    CR 0x0400 0x040F 0 80 0;
    CR 0x0410 0x042F 0 32 0;
    CR 0x0430 0x044F (-32) 0 (-32);
    CR 0x0450 0x045F (-80) 0 (-80);
    CR 0x0460 0x0481 UpperLower UpperLower UpperLower;
    CR 0x048A 0x04BF UpperLower UpperLower UpperLower;
    CR 0x04C0 0x04C0 0 15 0;
    CR 0x04C1 0x04CE UpperLower UpperLower UpperLower;
    CR 0x04CF 0x04CF (-15) 0 (-15);
    CR 0x04D0 0x052F UpperLower UpperLower UpperLower;
    CR 0x0531 0x0556 0 48 0;
    CR 0x0561 0x0586 (-48) 0 (-48);
    CR 0x10A0 0x10C5 0 7264 0;
    CR 0x10C7 0x10C7 0 7264 0;
    CR 0x10CD 0x10CD 0 7264 0;
    CR 0x10D0 0x10FA 3008 0 0;
    CR 0x10FD 0x10FF 3008 0 0;
    CR 0x13A0 0x13EF 0 38864 0;
    CR 0x13F0 0x13F5 0 8 0;
    CR 0x13F8 0x13FD (-8) 0 (-8);
    CR 0x1C80 0x1C80 (-6254) 0 (-6254);
    CR 0x1C81 0x1C81 (-6253) 0 (-6253);
    CR 0x1C82 0x1C82 (-6244) 0 (-6244);
    CR 0x1C83 0x1C84 (-6242) 0 (-6242);
    CR 0x1C85 0x1C85 (-6243) 0 (-6243);
    CR 0x1C86 0x1C86 (-6236) 0 (-6236);
    CR 0x1C87 0x1C87 (-6181) 0 (-6181);
    CR 0x1C88 0x1C88 35266 0 35266;
    CR 0x1C90 0x1CBA 0 (-3008) 0;
    CR 0x1CBD 0x1CBF 0 (-3008) 0;
    CR 0x1D79 0x1D79 35332 0 35332;
    CR 0x1D7D 0x1D7D 3814 0 3814;
    CR 0x1D8E 0x1D8E 35384 0 35384;
    CR 0x1E00 0x1E95 UpperLower UpperLower UpperLower;
    CR 0x1E9B 0x1E9B (-59) 0 (-59);
    CR 0x1E9E 0x1E9E 0 (-7615) 0;
    CR 0x1EA0 0x1EFF UpperLower UpperLower UpperLower;
    CR 0x1F00 0x1F07 8 0 8;
    CR 0x1F08 0x1F0F 0 (-8) 0;
    CR 0x1F10 0x1F15 8 0 8;
    CR 0x1F18 0x1F1D 0 (-8) 0;
    CR 0x1F20 0x1F27 8 0 8;
    CR 0x1F28 0x1F2F 0 (-8) 0;
    CR 0x1F30 0x1F37 8 0 8;
    CR 0x1F38 0x1F3F 0 (-8) 0;
    CR 0x1F40 0x1F45 8 0 8;
    CR 0x1F48 0x1F4D 0 (-8) 0;
    CR 0x1F51 0x1F51 8 0 8;
    CR 0x1F53 0x1F53 8 0 8;
    CR 0x1F55 0x1F55 8 0 8;
    CR 0x1F57 0x1F57 8 0 8;
    CR 0x1F59 0x1F59 0 (-8) 0;
    CR 0x1F5B 0x1F5B 0 (-8) 0;
    CR 0x1F5D 0x1F5D 0 (-8) 0;
    CR 0x1F5F 0x1F5F 0 (-8) 0;
    CR 0x1F60 0x1F67 8 0 8;
    CR 0x1F68 0x1F6F 0 (-8) 0;
    CR 0x1F70 0x1F71 74 0 74;
    CR 0x1F72 0x1F75 86 0 86;
    CR 0x1F76 0x1F77 100 0 100;
    CR 0x1F78 0x1F79 128 0 128;
    CR 0x1F7A 0x1F7B 112 0 112;
    CR 0x1F7C 0x1F7D 126 0 126;
    CR 0x1F80 0x1F87 8 0 8;
    CR 0x1F88 0x1F8F 0 (-8) 0;
    CR 0x1F90 0x1F97 8 0 8;
    CR 0x1F98 0x1F9F 0 (-8) 0;
    CR 0x1FA0 0x1FA7 8 0 8;
    CR 0x1FA8 0x1FAF 0 (-8) 0;
    CR 0x1FB0 0x1FB1 8 0 8;
    CR 0x1FB3 0x1FB3 9 0 9;
    CR 0x1FB8 0x1FB9 0 (-8) 0;
    CR 0x1FBA 0x1FBB 0 (-74) 0;
    CR 0x1FBC 0x1FBC 0 (-9) 0;
    CR 0x1FBE 0x1FBE (-7205) 0 (-7205);
    CR 0x1FC3 0x1FC3 9 0 9;
    CR 0x1FC8 0x1FCB 0 (-86) 0;
    CR 0x1FCC 0x1FCC 0 (-9) 0;
    CR 0x1FD0 0x1FD1 8 0 8;
    CR 0x1FD8 0x1FD9 0 (-8) 0;
    CR 0x1FDA 0x1FDB 0 (-100) 0;
    CR 0x1FE0 0x1FE1 8 0 8;
    CR 0x1FE5 0x1FE5 7 0 7;
    CR 0x1FE8 0x1FE9 0 (-8) 0;
    CR 0x1FEA 0x1FEB 0 (-112) 0;
    CR 0x1FEC 0x1FEC 0 (-7) 0;
    CR 0x1FF3 0x1FF3 9 0 9;
    CR 0x1FF8 0x1FF9 0 (-128) 0;
    CR 0x1FFA 0x1FFB 0 (-126) 0;
    CR 0x1FFC 0x1FFC 0 (-9) 0;
    CR 0x2126 0x2126 0 (-7517) 0;
    CR 0x212A 0x212A 0 (-8383) 0;
    CR 0x212B 0x212B 0 (-8262) 0;
    CR 0x2132 0x2132 0 28 0;
    CR 0x214E 0x214E (-28) 0 (-28);
    CR 0x2160 0x216F 0 16 0;
    CR 0x2170 0x217F (-16) 0 (-16);
    CR 0x2183 0x2184 UpperLower UpperLower UpperLower;
    CR 0x24B6 0x24CF 0 26 0;
    CR 0x24D0 0x24E9 (-26) 0 (-26);
    CR 0x2C00 0x2C2F 0 48 0;
    CR 0x2C30 0x2C5F (-48) 0 (-48);
    CR 0x2C60 0x2C61 UpperLower UpperLower UpperLower;
    CR 0x2C62 0x2C62 0 (-10743) 0;
    CR 0x2C63 0x2C63 0 (-3814) 0;
    CR 0x2C64 0x2C64 0 (-10727) 0;
    CR 0x2C65 0x2C65 (-10795) 0 (-10795);
    CR 0x2C66 0x2C66 (-10792) 0 (-10792);
    CR 0x2C67 0x2C6C UpperLower UpperLower UpperLower;
    CR 0x2C6D 0x2C6D 0 (-10780) 0;
    CR 0x2C6E 0x2C6E 0 (-10749) 0;
    CR 0x2C6F 0x2C6F 0 (-10783) 0;
    CR 0x2C70 0x2C70 0 (-10782) 0;
    CR 0x2C72 0x2C73 UpperLower UpperLower UpperLower;
    CR 0x2C75 0x2C76 UpperLower UpperLower UpperLower;
    CR 0x2C7E 0x2C7F 0 (-10815) 0;
    CR 0x2C80 0x2CE3 UpperLower UpperLower UpperLower;
    CR 0x2CEB 0x2CEE UpperLower UpperLower UpperLower;
    CR 0x2CF2 0x2CF3 UpperLower UpperLower UpperLower;
    CR 0x2D00 0x2D25 (-7264) 0 (-7264);
    CR 0x2D27 0x2D27 (-7264) 0 (-7264);
    CR 0x2D2D 0x2D2D (-7264) 0 (-7264);
    CR 0xA640 0xA66D UpperLower UpperLower UpperLower;
    CR 0xA680 0xA69B UpperLower UpperLower UpperLower;
    CR 0xA722 0xA72F UpperLower UpperLower UpperLower;
    CR 0xA732 0xA76F UpperLower UpperLower UpperLower;
    CR 0xA779 0xA77C UpperLower UpperLower UpperLower;
    CR 0xA77D 0xA77D 0 (-35332) 0;
    CR 0xA77E 0xA787 UpperLower UpperLower UpperLower;
    CR 0xA78B 0xA78C UpperLower UpperLower UpperLower;
    CR 0xA78D 0xA78D 0 (-42280) 0;
    CR 0xA790 0xA793 UpperLower UpperLower UpperLower;
    CR 0xA794 0xA794 48 0 48;
    CR 0xA796 0xA7A9 UpperLower UpperLower UpperLower;
    CR 0xA7AA 0xA7AA 0 (-42308) 0;
    CR 0xA7AB 0xA7AB 0 (-42319) 0;
    CR 0xA7AC 0xA7AC 0 (-42315) 0;
    CR 0xA7AD 0xA7AD 0 (-42305) 0;
    CR 0xA7AE 0xA7AE 0 (-42308) 0;
    CR 0xA7B0 0xA7B0 0 (-42258) 0;
    CR 0xA7B1 0xA7B1 0 (-42282) 0;
    CR 0xA7B2 0xA7B2 0 (-42261) 0;
    CR 0xA7B3 0xA7B3 0 928 0;
    CR 0xA7B4 0xA7C3 UpperLower UpperLower UpperLower;
    CR 0xA7C4 0xA7C4 0 (-48) 0;
    CR 0xA7C5 0xA7C5 0 (-42307) 0;
    CR 0xA7C6 0xA7C6 0 (-35384) 0;
    CR 0xA7C7 0xA7CA UpperLower UpperLower UpperLower;
    CR 0xA7D0 0xA7D1 UpperLower UpperLower UpperLower;
    CR 0xA7D6 0xA7D9 UpperLower UpperLower UpperLower;
    CR 0xA7F5 0xA7F6 UpperLower UpperLower UpperLower;
    CR 0xAB53 0xAB53 (-928) 0 (-928);
    CR 0xAB70 0xABBF (-38864) 0 (-38864);
    CR 0xFF21 0xFF3A 0 32 0;
    CR 0xFF41 0xFF5A (-32) 0 (-32);
    CR 0x10400 0x10427 0 40 0;
    CR 0x10428 0x1044F (-40) 0 (-40);
    CR 0x104B0 0x104D3 0 40 0;
    CR 0x104D8 0x104FB (-40) 0 (-40);
    CR 0x10570 0x1057A 0 39 0;
    CR 0x1057C 0x1058A 0 39 0;
    CR 0x1058C 0x10592 0 39 0;
    CR 0x10594 0x10595 0 39 0;
    CR 0x10597 0x105A1 (-39) 0 (-39);
    CR 0x105A3 0x105B1 (-39) 0 (-39);
    CR 0x105B3 0x105B9 (-39) 0 (-39);
    CR 0x105BB 0x105BC (-39) 0 (-39);
    CR 0x10C80 0x10CB2 0 64 0;
    CR 0x10CC0 0x10CF2 (-64) 0 (-64);
    CR 0x118A0 0x118BF 0 32 0;
    CR 0x118C0 0x118DF (-32) 0 (-32);
    CR 0x16E40 0x16E5F 0 32 0;
    CR 0x16E60 0x16E7F (-32) 0 (-32);
    CR 0x1E900 0x1E921 0 34 0;
    CR 0x1E922 0x1E943 (-34) 0 (-34)
  ].

(** [to]: map the rune with the given table.  The table is sorted and
    its ranges are disjoint, so the range Go's binary search finds is
    the first range that contains the rune. *)
Fixpoint to (_case : Z) (r : Z) (caseRange : list CaseRange) : Z * bool :=
  match caseRange with
  | [] => (r, false)
  | cr :: rest =>
      if (Lo cr <=? r) && (r <=? Hi cr) then
        let delta := Delta cr _case in
        if MaxRune <? delta then
          (Lo cr + Z.lor (Z.land (r - Lo cr) (Z.lnot 1)) (Z.land _case 1), true)
        else (r + delta, true)
      else if r <? Lo cr then (r, false)
      else to _case r rest
  end.

Definition To (_case : Z) (r : Z) : Z :=
  if (_case <? 0) || (MaxCase <=? _case) then ReplacementChar
  else fst (to _case r CaseRanges).

Definition ToUpper (r : Z) : Z :=
  if r <=? MaxASCII then
    (if (97 <=? r) && (r <=? 122) then r - 32 else r)
  else To UpperCase r.

Definition ToLower (r : Z) : Z :=
  if r <=? MaxASCII then
    (if (65 <=? r) && (r <=? 90) then r + 32 else r)
  else To LowerCase r.

(** [White_Space] outside Latin-1. *)
Definition White_Space_R16 : list (Z * Z) :=
  [(0x1680, 0x1680); (0x2000, 0x200a); (0x2028, 0x2029);
   (0x202f, 0x202f); (0x205f, 0x205f); (0x3000, 0x3000)].

Definition IsSpace (r : Z) : bool :=
  if (0 <=? r) && (r <=? MaxLatin1) then
    (r =? 9) || (r =? 10) || (r =? 11) || (r =? 12) || (r =? 13)
    || (r =? 32) || (r =? 0x85) || (r =? 0xA0)
  else existsb (fun '(lo, hi) => (lo <=? r) && (r <=? hi)) White_Space_R16.

End unicode.

(** ** Package [strings] *)

Module strings.

(** [HasPrefix]: [len(s) >= len(prefix) && s[:len(prefix)] == prefix] *)
Definition HasPrefix (s prefix : string) : bool :=
  (len prefix <=? len s) && String.eqb (slice_to s (len prefix)) prefix.

(** [TrimPrefix]: [s[len(prefix):]] when [s] has the prefix, else [s] *)
Definition TrimPrefix (s prefix : string) : string :=
  if HasPrefix s prefix then slice_from s (len prefix) else s.

(** [Index]: the index of the first instance of [substr] in [s], or -1 *)
Fixpoint Index (s substr : string) : Z :=
  if HasPrefix s substr then 0
  else match s with
       | EmptyString => -1
       | String _ s' => let i := Index s' substr in
                        if i <? 0 then -1 else i + 1
       end.

(** [Count], for a non-empty separator: the number of non-overlapping
    instances; the fuel is the length of [s]. *)
Fixpoint Count_loop (fuel : nat) (s substr : string) : Z :=
  match fuel with
  | O => 0
  | S fuel' =>
      let i := Index s substr in
      if i <? 0 then 0
      else 1 + Count_loop fuel' (slice_from s (i + len substr)) substr
  end.

(** The loop of [genSplit]: at most [k] cuts, the rest in the last cell. *)
Fixpoint genSplit_loop (k : nat) (s sep : string) (sepSave : Z) : list string :=
  match k with
  | O => [s]
  | S k' =>
      let m := Index s sep in
      if m <? 0 then [s]
      else slice_to s (m + sepSave)
             :: genSplit_loop k' (slice_from s (m + len sep)) sep sepSave
  end.

(** [utf8.RuneCountInString], by decoding rune after rune. *)
Fixpoint RuneCount_loop (fuel : nat) (s : string) : Z :=
  match fuel with
  | O => 0
  | S fuel' =>
      match s with
      | EmptyString => 0
      | _ => let '(_, size) := utf8.DecodeRuneInString s in
             1 + RuneCount_loop fuel' (slice_from s size)
      end
  end.

Definition RuneCountInString (s : string) : Z :=
  RuneCount_loop (String.length s) s.

Definition Count (s substr : string) : Z :=
  if len substr =? 0 then RuneCountInString s + 1
  else Count_loop (String.length s) s substr.

(** [explode]: split [s] into UTF-8 sequences, at most [n] of them. *)
Fixpoint explode_loop (k : nat) (s : string) : list string :=
  match k with
  | O => [s]
  | S k' => let '(_, size) := utf8.DecodeRuneInString s in
            slice_to s size :: explode_loop k' (slice_from s size)
  end.

Definition explode (s : string) (n : Z) : list string :=
  let l := RuneCountInString s in
  let n := if (n <? 0) || (l <? n) then l else n in
  if 0 <? n then explode_loop (Z.to_nat (n - 1)) s else [].

(** [genSplit]: split [s] at the instances of [sep], keeping [sepSave]
    bytes of it, into at most [n] strings. *)
Definition genSplit (s sep : string) (sepSave n : Z) : list string :=
  if n =? 0 then []
  else if String.eqb sep "" then explode s n
  else
    let n := if n <? 0 then Count s sep + 1 else n in
    let n := if len s + 1 <? n then len s + 1 else n in
    genSplit_loop (Z.to_nat (n - 1)) s sep sepSave.

Definition SplitN (s sep : string) (n : Z) : list string := genSplit s sep 0 n.

(** [Map]: the string with every rune replaced by its image; a negative
    image drops the rune.  Invalid UTF-8 is read as [RuneError] of width 1
    and written as the encoding of its image.  [Map_rest] is the loop
    after the first rune that changed, [Map] the scan for it. *)
Fixpoint Map_rest (fuel : nat) (mapping : Z -> Z) (s : string) : string :=
  match fuel with
  | O => EmptyString
  | S fuel' =>
      match s with
      | EmptyString => EmptyString
      | _ =>
          let '(c, width) := utf8.DecodeRuneInString s in
          let r := mapping c in
          (if 0 <=? r then
             (if r <? utf8.RuneSelf then utf8.str1 r else utf8.EncodeRune r)
           else EmptyString)
          +:+ Map_rest fuel' mapping (slice_from s width)
      end
  end.

Fixpoint Map_scan (fuel : nat) (mapping : Z -> Z) (s : string) : string :=
  match fuel with
  | O => s
  | S fuel' =>
      match s with
      | EmptyString => EmptyString
      | _ =>
          let '(c, width) := utf8.DecodeRuneInString s in
          let r := mapping c in
          if ((r =? c) && negb (c =? utf8.RuneError))
             || ((c =? utf8.RuneError) && negb (width =? 1) && (r =? c))
          then slice_to s width +:+ Map_scan fuel' mapping (slice_from s width)
          else
            let width := if c =? utf8.RuneError then width else utf8.RuneLen c in
            (if 0 <=? r then utf8.EncodeRune r else EmptyString)
            +:+ Map_rest fuel' mapping (slice_from s width)
      end
  end.

Definition Map (mapping : Z -> Z) (s : string) : string :=
  Map_scan (String.length s) mapping s.

Fixpoint map_bytes (f : Z -> Z) (s : string) : string :=
  match s with
  | EmptyString => EmptyString
  | String c s' => String (Zbyte (f (byteZ c))) (map_bytes f s')
  end.

Definition isASCII (s : string) : bool :=
  forallb (fun c => byteZ c <? utf8.RuneSelf) (bytes s).

Definition is_upper_byte (c : Z) : bool := (65 <=? c) && (c <=? 90).
Definition is_lower_byte (c : Z) : bool := (97 <=? c) && (c <=? 122).

(** [ToLower]: ASCII-only strings are handled byte by byte, the others
    by [Map(unicode.ToLower, s)]. *)
Definition ToLower (s : string) : string :=
  if isASCII s then
    if negb (existsb (fun c => is_upper_byte (byteZ c)) (bytes s)) then s
    else map_bytes (fun c => if is_upper_byte c then c + 32 else c) s
  else Map unicode.ToLower s.

Definition ToUpper (s : string) : string :=
  if isASCII s then
    if negb (existsb (fun c => is_lower_byte (byteZ c)) (bytes s)) then s
    else map_bytes (fun c => if is_lower_byte c then c - 32 else c) s
  else Map unicode.ToUpper s.

(** [indexFunc]: the index of the first rune with [f(r) == truth], or -1. *)
Fixpoint indexFunc_loop (fuel : nat) (s : string) (i : Z)
    (f : Z -> bool) (truth : bool) : Z :=
  match fuel with
  | O => -1
  | S fuel' =>
      match s with
      | EmptyString => -1
      | _ => let '(r, size) := utf8.DecodeRuneInString s in
             if Bool.eqb (f r) truth then i
             else indexFunc_loop fuel' (slice_from s size) (i + size) f truth
      end
  end.

Definition indexFunc (s : string) (f : Z -> bool) (truth : bool) : Z :=
  indexFunc_loop (String.length s) s 0 f truth.

(** [lastIndexFunc]: the same from the end of the string. *)
Fixpoint lastIndexFunc_loop (fuel : nat) (s : string) (i : Z)
    (f : Z -> bool) (truth : bool) : Z :=
  match fuel with
  | O => -1
  | S fuel' =>
      if 0 <? i then
        let '(r, size) := utf8.DecodeLastRuneInString (slice_to s i) in
        let i := i - size in
        if Bool.eqb (f r) truth then i
        else lastIndexFunc_loop fuel' s i f truth
      else -1
  end.

Definition lastIndexFunc (s : string) (f : Z -> bool) (truth : bool) : Z :=
  lastIndexFunc_loop (S (String.length s)) s (len s) f truth.

Definition TrimLeftFunc (s : string) (f : Z -> bool) : string :=
  let i := indexFunc s f false in
  if i =? -1 then EmptyString else slice_from s i.

Definition TrimRightFunc (s : string) (f : Z -> bool) : string :=
  let i := lastIndexFunc s f false in
  let i := if (0 <=? i) && (utf8.RuneSelf <=? utf8.byte_at s i)
           then i + snd (utf8.DecodeRuneInString (slice_from s i))
           else i + 1 in
  slice_to s i.

Definition TrimFunc (s : string) (f : Z -> bool) : string :=
  TrimRightFunc (TrimLeftFunc s f) f.

Definition asciiSpace (c : Z) : bool :=
  (c =? 9) || (c =? 10) || (c =? 11) || (c =? 12) || (c =? 13) || (c =? 32).

(** [TrimSpace].  [TrimSpace_start] is the forward scan: [inl rest] when a
    non-ASCII byte sends the rest to [TrimFunc], [inr rest] when the scan
    stopped at an ASCII byte that is not a space (or at the end). *)
Fixpoint TrimSpace_start (s : string) : string + string :=
  match s with
  | EmptyString => inr EmptyString
  | String c s' =>
      if utf8.RuneSelf <=? byteZ c then inl s
      else if asciiSpace (byteZ c) then TrimSpace_start s'
      else inr s
  end.

Fixpoint TrimSpace_stop (fuel : nat) (s : string) (stop : Z) : string :=
  match fuel with
  | O => slice_to s stop
  | S fuel' =>
      if 0 <? stop then
        let c := utf8.byte_at s (stop - 1) in
        if utf8.RuneSelf <=? c then TrimRightFunc (slice_to s stop) unicode.IsSpace
        else if asciiSpace c then TrimSpace_stop fuel' s (stop - 1)
        else slice_to s stop
      else slice_to s stop
  end.

Definition TrimSpace (s : string) : string :=
  match TrimSpace_start s with
  | inl rest => TrimFunc rest unicode.IsSpace
  | inr rest => TrimSpace_stop (String.length rest) rest (len rest)
  end.

End strings.

(** ** Package [path/filepath] (Unix) *)

Module filepath.

Definition IsPathSeparator (c : Z) : bool := c =? 47.

(** [Ext]: the suffix beginning at the final dot in the final element of
    the path; empty if there is no dot:
    [for i := len(path) - 1; i >= 0 && !IsPathSeparator(path[i]); i--
       { if path[i] == '.' { return path[i:] } }; return ""] *)
Fixpoint Ext_loop (fuel : nat) (path : string) (i : Z) : string :=
  match fuel with
  | O => EmptyString
  | S fuel' =>
      if (0 <=? i) && negb (IsPathSeparator (utf8.byte_at path i)) then
        if utf8.byte_at path i =? 46 then slice_from path i
        else Ext_loop fuel' path (i - 1)
      else EmptyString
  end.

Definition Ext (path : string) : string :=
  Ext_loop (String.length path) path (len path - 1).

End filepath.

(** ** Package [regexp], for patterns of the form [^body$]

    Without flags [^] and [$] match at the beginning and at the end of the
    text only, so [MatchString] holds when the whole text matches the body.
    The classes and literals of the pattern below are ASCII: a byte of a
    multi-byte or invalid encoding belongs to none of them, and matching
    byte by byte agrees with matching rune by rune. *)

Module regexp.

Inductive Regexp : Type :=
| OpNoMatch
| OpEmptyMatch
| OpCharClass (ranges : list (Z * Z))
| OpConcat (a b : Regexp)
| OpAlternate (a b : Regexp)
| OpStar (a : Regexp).

Definition OpLiteral (c : Z) : Regexp := OpCharClass [(c, c)].
Definition OpPlus (a : Regexp) : Regexp := OpConcat a (OpStar a).
Definition OpQuest (a : Regexp) : Regexp := OpAlternate a OpEmptyMatch.

(** [a{0,extra}] and [a{min,min+extra}] *)
Fixpoint OpRepeat0 (a : Regexp) (extra : nat) : Regexp :=
  match extra with
  | O => OpEmptyMatch
  | S extra' => OpQuest (OpConcat a (OpRepeat0 a extra'))
  end.

Fixpoint OpRepeat (a : Regexp) (min extra : nat) : Regexp :=
  match min with
  | O => OpRepeat0 a extra
  | S min' => OpConcat a (OpRepeat a min' extra)
  end.

Definition in_class (ranges : list (Z * Z)) (c : Z) : bool :=
  existsb (fun '(lo, hi) => (lo <=? c) && (c <=? hi)) ranges.

Fixpoint nullable (r : Regexp) : bool :=
  match r with
  | OpNoMatch => false
  | OpEmptyMatch => true
  | OpCharClass _ => false
  | OpConcat a b => nullable a && nullable b
  | OpAlternate a b => nullable a || nullable b
  | OpStar _ => true
  end.

(** The residual of [r] after reading the byte [c]. *)
Fixpoint deriv (c : Z) (r : Regexp) : Regexp :=
  match r with
  | OpNoMatch => OpNoMatch
  | OpEmptyMatch => OpNoMatch
  | OpCharClass ranges => if in_class ranges c then OpEmptyMatch else OpNoMatch
  | OpConcat a b =>
      if nullable a then OpAlternate (OpConcat (deriv c a) b) (deriv c b)
      else OpConcat (deriv c a) b
  | OpAlternate a b => OpAlternate (deriv c a) (deriv c b)
  | OpStar a => OpConcat (deriv c a) (OpStar a)
  end.

Fixpoint matchb (r : Regexp) (s : string) : bool :=
  match s with
  | EmptyString => nullable r
  | String c s' => matchb (deriv (byteZ c) r) s'
  end.

Definition MatchString (body : Regexp) (s : string) : bool := matchb body s.

(** What it means for a text to match a pattern. *)
Inductive Matches : Regexp -> string -> Prop :=
| MEmpty : Matches OpEmptyMatch EmptyString
| MClass ranges c :
    in_class ranges (byteZ c) = true ->
    Matches (OpCharClass ranges) (String c EmptyString)
| MConcat a b s t : Matches a s -> Matches b t -> Matches (OpConcat a b) (s +:+ t)
| MAltL a b s : Matches a s -> Matches (OpAlternate a b) s
| MAltR a b s : Matches b s -> Matches (OpAlternate a b) s
| MStar0 a : Matches (OpStar a) EmptyString
| MStarS a s t : Matches a s -> Matches (OpStar a) t -> Matches (OpStar a) (s +:+ t).

End regexp.

(** ** Go values shared by the handlers *)

(** An [error] is nil or carries its message. *)
Definition error := option string.
Abbreviation nil := (@None string) (only parsing).

Module errors.
Definition New (text : string) : error := Some text.
End errors.

(** A function body in state-passing style: it either executes a
    [return] with a value of type [R], or goes on with a value of type
    [A]; [St] is the state of the outside world it acts upon. *)
Definition M (St R A : Type) : Type := St -> (R + A) * St.

Definition ret {St R A} (a : A) : M St R A := fun s => (inr a, s).

Definition bind {St R A B} (m : M St R A) (k : A -> M St R B) : M St R B :=
  fun s => match m s with
           | (inl r, s') => (inl r, s')
           | (inr a, s') => k a s'
           end.

Definition return_ {St R A} (r : R) : M St R A := fun s => (inl r, s).

Definition modify {St R} (f : St -> St) : M St R unit := fun s => (inr tt, f s).

(** Calling a function: its body runs to its [return]. *)
Definition call {St R R'} (body : M St R R) : M St R' R :=
  fun s => match body s with
           | (inl r, s') => (inr r, s')
           | (inr r, s') => (inr r, s')
           end.

Definition run {St R} (body : M St R R) (s : St) : R * St :=
  match body s with
  | (inl r, s') => (r, s')
  | (inr r, s') => (r, s')
  end.

Notation "'let*' x ':=' m 'in' k" := (bind m (fun x => k))
  (at level 10, x pattern, m at level 100, k at level 200).
Notation "m ';;' k" := (bind m (fun _ => k))
  (at level 100, k at level 200, right associativity).

(** ** Package [net/http] and [encoding/json], as far as the handlers use them *)

Module json.

(** An encoded value; a struct is encoded as an object whose keys are
    the names in its field tags, in the order of its fields. *)
#[warnings="-register-all"]
Inductive Value : Type :=
| String_ (s : string)
| Number (n : Z)
| Bool (b : bool)
| Time (unix : Z)
| Object (fields : list (string * Value)).

End json.

Module http.

Definition StatusOK : Z := 200.
Definition StatusCreated : Z := 201.
Definition StatusBadRequest : Z := 400.
Definition StatusUnauthorized : Z := 401.
Definition StatusMethodNotAllowed : Z := 405.
Definition StatusInternalServerError : Z := 500.

Definition MethodGet : string := "GET".
Definition MethodPut : string := "PUT".

Inductive Chunk : Type :=
| Text (s : string)
| JSON (v : json.Value).

(** A [ResponseWriter]: the header map, the status once it is written,
    and what was written to the body. *)
Record ResponseWriter : Type := {
  Header : gmap string string;
  status : option Z;
  body : list Chunk
}.

Definition NewResponseWriter : ResponseWriter :=
  {| Header := ∅; status := None; body := [] |}.

Definition Header_Set (key value : string) (w : ResponseWriter) : ResponseWriter :=
  {| Header := <[key := value]> (Header w); status := status w; body := body w |}.

(** [WriteHeader]: only the first call counts. *)
Definition WriteHeader (code : Z) (w : ResponseWriter) : ResponseWriter :=
  match status w with
  | Some _ => w
  | None => {| Header := Header w; status := Some code; body := body w |}
  end.

(** [Write]: writes the status 200 first when none was written. *)
Definition Write (c : Chunk) (w : ResponseWriter) : ResponseWriter :=
  let w := WriteHeader StatusOK w in
  {| Header := Header w; status := status w; body := body w ++ [c] |}.

(** [http.Error]: plain-text headers, the status, and the message on a
    line of its own. *)
Definition Error (msg : string) (code : Z) (w : ResponseWriter) : ResponseWriter :=
  let w := Header_Set "Content-Type" "text/plain; charset=utf-8" w in
  let w := Header_Set "X-Content-Type-Options" "nosniff" w in
  let w := WriteHeader code w in
  Write (Text (msg +:+ String "010" EmptyString)) w.

(** The status the client receives: 200 when the handler wrote none. *)
Definition StatusCode (w : ResponseWriter) : Z :=
  match status w with
  | Some c => c
  | None => StatusOK
  end.

(** A request: method, headers, and the body as the handler's decoder
    reads it, [inl err] when decoding it fails. *)
Record Request (B : Type) : Type := {
  Method : string;
  ReqHeader : gmap string (list string);
  Body : string + B
}.
Arguments Method {B} _.
Arguments ReqHeader {B} _.
Arguments Body {B} _.

(** [Header.Get], for a key in canonical form: the first value, or "". *)
Definition Header_Get (h : gmap string (list string)) (key : string) : string :=
  match h !! key with
  | Some (v :: _) => v
  | _ => ""
  end.

End http.

(** The state a handler acts upon: the response under construction and
    the calls made to the external services, in order. *)
Section Handler.
Context {Call R : Type}.

Record HState : Type := { resp : http.ResponseWriter; calls : list Call }.

Definition respond (f : http.ResponseWriter -> http.ResponseWriter) : M HState R unit :=
  modify (fun s => {| resp := f (resp s); calls := calls s |}).

Definition record (c : Call) : M HState R unit :=
  modify (fun s => {| resp := resp s; calls := calls s ++ [c] |}).

Definition start : HState := {| resp := http.NewResponseWriter; calls := [] |}.

End Handler.
Arguments HState : clear implicits.

(** ** Package [user]: the registration handler *)

Module user.

Module User.
Record t : Type := { ID : string; Email : string; Password : string; Name : string }.
End User.

Module UserResponse.
Record t : Type := { ID : string; Email : string; Name : string }.
Definition encode (r : t) : json.Value :=
  json.Object [("id", json.String_ (ID r)); ("email", json.String_ (Email r));
               ("name", json.String_ (Name r))].
End UserResponse.

Import regexp.

(** [[a-z0-9._%+\-]]: % is 37, + is 43, - is 45, . is 46, _ is 95. *)
Definition local_class : Regexp :=
  OpCharClass [(97, 122); (48, 57); (46, 46); (95, 95); (37, 37); (43, 43); (45, 45)].
(** [[a-z0-9.\-]] *)
Definition domain_class : Regexp :=
  OpCharClass [(97, 122); (48, 57); (46, 46); (45, 45)].
(** [[a-z]] *)
Definition alpha_class : Regexp := OpCharClass [(97, 122)].

(** [^[a-z0-9._%+\-]+@[a-z0-9.\-]+\.[a-z]{2,4}$] *)
Definition emailRegex : Regexp :=
  OpConcat (OpPlus local_class)
    (OpConcat (OpLiteral 64)
       (OpConcat (OpPlus domain_class)
          (OpConcat (OpLiteral 46) (OpRepeat alpha_class 2 2)))).

Definition containsUppercase (s : string) : bool :=
  negb (String.eqb (strings.ToLower s) s).

Definition containsLowercase (s : string) : bool :=
  negb (String.eqb (strings.ToUpper s) s).

(** [for _, char := range s]: rune after rune. *)
Fixpoint containsNumber_loop (fuel : nat) (s : string) : bool :=
  match fuel with
  | O => false
  | S fuel' =>
      match s with
      | EmptyString => false
      | _ => let '(char, size) := utf8.DecodeRuneInString s in
             if (48 <=? char) && (char <=? 57) then true
             else containsNumber_loop fuel' (slice_from s size)
      end
  end.

Definition containsNumber (s : string) : bool :=
  containsNumber_loop (String.length s) s.

Definition Validate (u : User.t) : error :=
  if negb (MatchString emailRegex (User.Email u)) then
    errors.New "invalid email format"
  else if len (User.Password u) <? 8 then
    errors.New "password must be at least 8 characters long"
  else if negb (containsUppercase (User.Password u))
          || negb (containsLowercase (User.Password u))
          || negb (containsNumber (User.Password u)) then
    errors.New "password must contain at least one uppercase letter, one lowercase letter, and one number"
  else if String.eqb (strings.TrimSpace (User.Name u)) "" then
    errors.New "name cannot be empty"
  else nil.

(** The identity provider, as this handler sees it. *)
Record UserToCreate : Type := { pEmail : string; pPassword : string; pDisplayName : string }.

Record Firebase : Type := {
  NewApp : error;                               (* firebase.NewApp(ctx, nil) *)
  Auth : error;                                 (* app.Auth(ctx) *)
  CreateUser : UserToCreate -> string + string  (* error, or the UID of the new user *)
}.

Inductive Call : Type :=
| CallCreateUser (params : UserToCreate).

Definition RegisterUser (fb : Firebase) (user : User.t)
  : M (HState Call) (string * error) (string * error) :=
  match NewApp fb with Some err => return_ ("", Some err) | None => ret tt end ;;
  match Auth fb with Some err => return_ ("", Some err) | None => ret tt end ;;
  let params := {| pEmail := User.Email user; pPassword := User.Password user;
                   pDisplayName := User.Name user |} in
  record (CallCreateUser params) ;;
  match CreateUser fb params with
  | inl err => return_ ("", Some err)
  | inr uid => return_ (uid, nil)
  end.

Definition UserRegistration (fb : Firebase) (r : http.Request User.t)
  : M (HState Call) unit unit :=
  let* user := match http.Body r with
               | inl _ => respond (http.Error "Invalid request body" http.StatusBadRequest) ;;
                          return_ tt
               | inr u => ret u
               end in
  match Validate user with
  | Some err => respond (http.Error err http.StatusBadRequest) ;; return_ tt
  | None => ret tt
  end ;;
  let* (userID, err) := call (RegisterUser fb user) in
  match err with
  | Some _ => respond (http.Error "Failed to register user" http.StatusInternalServerError) ;;
              return_ tt
  | None => ret tt
  end ;;
  let response := {| UserResponse.ID := userID; UserResponse.Email := User.Email user;
                     UserResponse.Name := User.Name user |} in
  respond (http.Header_Set "Content-Type" "application/json") ;;
  respond (http.WriteHeader http.StatusCreated) ;;
  respond (http.Write (http.JSON (UserResponse.encode response))).

End user.

(** ** Package [os]: the environment of the process *)

Module os.
Definition Getenv (env : gmap string string) (key : string) : string :=
  default "" (env !! key).
End os.

(** ** Package [userauthentication] *)

Module userauthentication.

Module LoginRequest.
Record t : Type := { Email : string; Password : string }.
End LoginRequest.

Module User.
Record t : Type := { ID : string; Email : string; Name : string }.
Definition encode (u : t) : json.Value :=
  json.Object [("id", json.String_ (ID u)); ("email", json.String_ (Email u));
               ("name", json.String_ (Name u))].
End User.

Module LoginResponse.
Record t : Type := { IDToken : string; User : User.t }.
Definition encode (r : t) : json.Value :=
  json.Object [("idToken", json.String_ (IDToken r)); ("user", User.encode (User r))].
End LoginResponse.

Module FirebaseSignInResponse.
Record t : Type := {
  IDToken : string;
  Email : string;
  RefreshToken : string;
  ExpiresIn : string;
  LocalID : string;
  DisplayName : string
}.
End FirebaseSignInResponse.

(** What [http.Post] gives back: a transport error, or a response with
    its status and what [io.ReadAll] reads from its body. *)
Inductive PostResult : Type :=
| PostError (err : string)
| PostResponse (StatusCode : Z) (ReadAll : string + string).

(** The outside world of this handler. *)
Record World : Type := {
  environ : gmap string string;
  Post : string -> string -> json.Value -> PostResult;    (* url, content type, body *)
  Unmarshal : string -> string + FirebaseSignInResponse.t; (* json.Unmarshal of a body *)
  NewApp : error;                                          (* firebase.NewApp(ctx, nil) *)
  Auth : error;                                            (* app.Auth(ctx) *)
  VerifyIDToken : string -> string + string                (* error, or the UID of the token *)
}.

Inductive Call : Type :=
| CallPost (url : string) (body : json.Value) (res : PostResult)
| CallVerifyIDToken (idToken : string) (res : string + string).

Definition signInURL (apiKey : string) : string :=
  "https://identitytoolkit.googleapis.com/v1/accounts:signInWithPassword?key=" +:+ apiKey.

Definition authenticateWithFirebase (W : World) (email password : string)
  : M (HState Call) (option FirebaseSignInResponse.t * error)
      (option FirebaseSignInResponse.t * error) :=
  let apiKey := os.Getenv (environ W) "FIREBASE_API_KEY" in
  (if String.eqb apiKey "" then
     return_ (None, Some "FIREBASE_API_KEY environment variable is not set")
   else ret tt) ;;
  let url := signInURL apiKey in
  let requestBody := json.Object [("email", json.String_ email);
                                  ("password", json.String_ password);
                                  ("returnSecureToken", json.Bool true)] in
  let resp := Post W url "application/json" requestBody in
  record (CallPost url requestBody resp) ;;
  match resp with
  | PostError err => return_ (None, Some ("failed to send request: " +:+ err))
  | PostResponse StatusCode ReadAll =>
      let* body := match ReadAll with
                   | inl err => return_ (None, Some ("failed to read response body: " +:+ err))
                   | inr body => ret body
                   end in
      (if negb (StatusCode =? http.StatusOK) then
         return_ (None, Some ("authentication failed: " +:+ body))
       else ret tt) ;;
      match Unmarshal W body with
      | inl err => return_ (None, Some ("failed to unmarshal response: " +:+ err))
      | inr firebaseResp => return_ (Some firebaseResp, nil)
      end
  end.

Definition UserAuthentication (W : World) (r : http.Request LoginRequest.t)
  : M (HState Call) unit unit :=
  let* loginReq := match http.Body r with
                   | inl _ => respond (http.Error "Invalid request body" http.StatusBadRequest) ;;
                              return_ tt
                   | inr q => ret q
                   end in
  (* Step 1: Authenticate with Firebase *)
  let* res := call (authenticateWithFirebase W (LoginRequest.Email loginReq)
                      (LoginRequest.Password loginReq)) in
  let* firebaseResp :=
    match res with
    | (Some fr, None) => ret fr
    | (_, Some err) =>
        respond (http.Error ("Authentication failed: " +:+ err) http.StatusUnauthorized) ;;
        return_ tt
    | (None, None) => return_ tt  (* not returned by authenticateWithFirebase *)
    end in
  (* Step 2: Verify the ID token *)
  match NewApp W with
  | Some _ => respond (http.Error "Failed to initialize Firebase app"
                         http.StatusInternalServerError) ;; return_ tt
  | None => ret tt
  end ;;
  match Auth W with
  | Some _ => respond (http.Error "Failed to get Firebase Auth client"
                         http.StatusInternalServerError) ;; return_ tt
  | None => ret tt
  end ;;
  let verified := VerifyIDToken W (FirebaseSignInResponse.IDToken firebaseResp) in
  record (CallVerifyIDToken (FirebaseSignInResponse.IDToken firebaseResp) verified) ;;
  let* uid := match verified with
              | inl _ => respond (http.Error "Invalid ID token" http.StatusUnauthorized) ;;
                         return_ tt
              | inr uid => ret uid
              end in
  let response :=
    {| LoginResponse.IDToken := FirebaseSignInResponse.IDToken firebaseResp;
       LoginResponse.User :=
         {| User.ID := uid;
            User.Email := FirebaseSignInResponse.Email firebaseResp;
            User.Name := FirebaseSignInResponse.DisplayName firebaseResp |} |} in
  respond (http.Header_Set "Content-Type" "application/json") ;;
  respond (http.Write (http.JSON (LoginResponse.encode response))).

End userauthentication.

(** ** Package [userprofilemanagement]

    The handler also prints the token it received; printing is left out. *)

Module userprofilemanagement.

Module UserProfile.
Record t : Type := { ID : string; Email : string; Name : string; CreatedAt : string }.
Definition encode (p : t) : json.Value :=
  json.Object [("id", json.String_ (ID p)); ("email", json.String_ (Email p));
               ("name", json.String_ (Name p)); ("createdAt", json.String_ (CreatedAt p))].
End UserProfile.

Module UserProfileUpdate.
Record t : Type := { Name : string }.
End UserProfileUpdate.

(** [auth.UserRecord], the fields the handler reads. *)
Record UserRecord : Type := {
  UID : string;
  Email : string;
  DisplayName : string;
  CreationTimestamp : Z        (* milliseconds since the epoch *)
}.

Record World : Type := {
  NewApp : error;                                             (* firebase.NewApp(ctx, config) *)
  Auth : error;                                               (* app.Auth(ctx) *)
  VerifyIDTokenAndCheckRevoked : string -> string + string;   (* error, or the UID *)
  GetUser : string -> string + UserRecord;
  UpdateUser : string -> string -> string + UserRecord;       (* uid, new display name *)
  FormatRFC3339 : Z -> string                                 (* time.Unix(sec, 0).Format(time.RFC3339) *)
}.

Inductive Call : Type :=
| CallVerify (idToken : string) (res : string + string)
| CallGetUser (uid : string)
| CallUpdateUser (uid : string) (displayName : string).

Definition extractToken {B} (r : http.Request B) : string :=
  let bearerToken := http.Header_Get (http.ReqHeader r) "X-Forwarded-Authorization" in
  if negb (String.eqb bearerToken "") && strings.HasPrefix bearerToken "Bearer " then
    strings.TrimPrefix bearerToken "Bearer "
  else "".

Definition profile_of (W : World) (user : UserRecord) : UserProfile.t :=
  {| UserProfile.ID := UID user;
     UserProfile.Email := Email user;
     UserProfile.Name := DisplayName user;
     UserProfile.CreatedAt := FormatRFC3339 W (Z.quot (CreationTimestamp user) 1000) |}.

Definition handleGetProfile (W : World) (r : http.Request UserProfileUpdate.t) (uid : string)
  : M (HState Call) unit unit :=
  record (CallGetUser uid) ;;
  let* user := match GetUser W uid with
               | inl err => respond (http.Error ("Error getting user: " +:+ err)
                                       http.StatusInternalServerError) ;; return_ tt
               | inr user => ret user
               end in
  let profile := profile_of W user in
  respond (http.Header_Set "Content-Type" "application/json") ;;
  respond (http.Write (http.JSON (UserProfile.encode profile))).

Definition handleUpdateProfile (W : World) (r : http.Request UserProfileUpdate.t) (uid : string)
  : M (HState Call) unit unit :=
  let* update := match http.Body r with
                 | inl err => respond (http.Error ("Invalid request body: " +:+ err)
                                         http.StatusBadRequest) ;; return_ tt
                 | inr u => ret u
                 end in
  record (CallUpdateUser uid (UserProfileUpdate.Name update)) ;;
  let* user := match UpdateUser W uid (UserProfileUpdate.Name update) with
               | inl err => respond (http.Error ("Error updating user: " +:+ err)
                                       http.StatusInternalServerError) ;; return_ tt
               | inr user => ret user
               end in
  let updatedProfile := profile_of W user in
  respond (http.Header_Set "Content-Type" "application/json") ;;
  respond (http.Write (http.JSON (UserProfile.encode updatedProfile))).

Definition UserProfileManagement (W : World) (r : http.Request UserProfileUpdate.t)
  : M (HState Call) unit unit :=
  (* Initialize Firebase app *)
  match NewApp W with
  | Some err => respond (http.Error ("Error initializing app: " +:+ err)
                           http.StatusInternalServerError) ;; return_ tt
  | None => ret tt
  end ;;
  (* Get Firebase Auth client *)
  match Auth W with
  | Some err => respond (http.Error ("Error getting Auth client: " +:+ err)
                           http.StatusInternalServerError) ;; return_ tt
  | None => ret tt
  end ;;
  (* Verify Firebase ID token *)
  let idToken := extractToken r in
  (if String.eqb idToken "" then
     respond (http.Error "No token provided" http.StatusUnauthorized) ;; return_ tt
   else ret tt) ;;
  let verified := VerifyIDTokenAndCheckRevoked W idToken in
  record (CallVerify idToken verified) ;;
  let* uid := match verified with
              | inl err => respond (http.Error ("Invalid token: " +:+ err)
                                      http.StatusUnauthorized) ;; return_ tt
              | inr uid => ret uid
              end in
  if String.eqb (http.Method r) http.MethodGet then call (handleGetProfile W r uid)
  else if String.eqb (http.Method r) http.MethodPut then call (handleUpdateProfile W r uid)
  else respond (http.Error "Method not allowed" http.StatusMethodNotAllowed).

End userprofilemanagement.

(** ** Package [mediaupload]

    The deferred [Close] of the uploaded file and of the storage client
    are left out. *)

Module mediaupload.

Definition bucketName : string := "synapscribe-media".
Definition maxFileSize : Z := 50 * 1024 * 1024. (* 50MB *)

Module MediaUploadResponse.
Record t : Type := { FileURL : string; FileName : string; FileType : string; UploadedAt : Z }.
Definition encode (r : t) : json.Value :=
  json.Object [("fileUrl", json.String_ (FileURL r)); ("fileName", json.String_ (FileName r));
               ("fileType", json.String_ (FileType r)); ("uploadedAt", json.Time (UploadedAt r))].
End MediaUploadResponse.

Module ErrorResponse.
Record t : Type := { Code : Z; Message : string }.
Definition encode (r : t) : json.Value :=
  json.Object [("code", json.Number (Code r)); ("message", json.String_ (Message r))].
End ErrorResponse.

(** A part of a multipart body: the form field it belongs to, the file
    name [Part.FileName] reports (empty for a plain value), and the
    number of bytes of its content.  The bytes themselves are not looked
    at by the handler. *)
Record Part : Type := { FormName : string; PartFileName : string; PartSize : Z }.

(** [multipart.FileHeader]; [tmpfile] says that the content was spilled
    to a temporary file instead of being kept in memory. *)
Record FileHeader : Type := { Filename : string; Size : Z; tmpfile : bool }.

(** [multipart.Reader.ReadForm(maxMemory)], the files of the form: the
    whole body is read; parts without a form name are skipped and parts
    without a file name are values; file parts are kept in memory as long
    as their total stays within [maxMemory], and every other file part is
    stored on disk in a temporary file.  No part is refused for its size. *)
Fixpoint ReadForm (parts : list Part) (maxMemory : Z)
    (form : gmap string (list FileHeader)) : gmap string (list FileHeader) :=
  match parts with
  | [] => form
  | p :: rest =>
      if String.eqb (FormName p) "" || String.eqb (PartFileName p) "" then
        ReadForm rest maxMemory form
      else
        let on_disk := maxMemory <? PartSize p in
        let fh := {| Filename := PartFileName p; Size := PartSize p; tmpfile := on_disk |} in
        let form := <[FormName p := default [] (form !! FormName p) ++ [fh]]> form in
        ReadForm rest (if on_disk then maxMemory else maxMemory - PartSize p) form
  end.

(** [Request.ParseMultipartForm(maxMemory)]: an error when the body is
    not a multipart form, otherwise the parsed form. *)
Definition ParseMultipartForm (r : http.Request (list Part)) (maxMemory : Z)
  : string + gmap string (list FileHeader) :=
  match http.Body r with
  | inl err => inl err
  | inr parts => inr (ReadForm parts maxMemory ∅)
  end.

(** [Request.FormFile(key)] on a parsed form: the first file under the key. *)
Definition FormFile (form : gmap string (list FileHeader)) (key : string)
  : string + FileHeader :=
  match form !! key with
  | Some (fh :: _) => inr fh
  | _ => inl "http: no such file"
  end.

Definition getFileType (filename : string) : string :=
  let ext := strings.ToLower (filepath.Ext filename) in
  if String.eqb ext ".mp3" || String.eqb ext ".wav" || String.eqb ext ".ogg" then "audio"
  else if String.eqb ext ".mp4" || String.eqb ext ".mov" || String.eqb ext ".avi" then "video"
  else if String.eqb ext ".jpg" || String.eqb ext ".jpeg" || String.eqb ext ".png"
          || String.eqb ext ".gif" then "image"
  else "".

Definition sendErrorResponse (statusCode : Z) (message : string)
    (w : http.ResponseWriter) : http.ResponseWriter :=
  let w := http.Header_Set "Content-Type" "application/json" w in
  let w := http.WriteHeader statusCode w in
  http.Write (http.JSON (ErrorResponse.encode
                {| ErrorResponse.Code := statusCode; ErrorResponse.Message := message |})) w.

(** The object store and the clock. *)
Record World : Type := {
  NewClient : error;                             (* storage.NewClient(ctx) *)
  Copy : string -> string -> FileHeader -> error; (* io.Copy into the writer of bucket/object *)
  Close : string -> string -> error;              (* writer.Close() *)
  Now : Z                                         (* time.Now() *)
}.

Inductive Call : Type :=
| CallNewWriter (bucket object : string)
| CallCopy (bucket object : string) (file : FileHeader)
| CallClose (bucket object : string).

Definition MediaUpload (W : World) (r : http.Request (list Part))
  : M (HState Call) unit unit :=
  (* Parse multipart form *)
  let* form := match ParseMultipartForm r maxFileSize with
               | inl _ => respond (sendErrorResponse http.StatusBadRequest "Failed to parse form") ;;
                          return_ tt
               | inr form => ret form
               end in
  let* header := match FormFile form "file" with
                 | inl _ => respond (sendErrorResponse http.StatusBadRequest "No file uploaded") ;;
                            return_ tt
                 | inr fh => ret fh
                 end in
  (* Validate file type *)
  let fileType := getFileType (Filename header) in
  (if String.eqb fileType "" then
     respond (sendErrorResponse http.StatusBadRequest "Unsupported file type") ;; return_ tt
   else ret tt) ;;
  (* Upload to GCS *)
  match NewClient W with
  | Some _ => respond (sendErrorResponse http.StatusInternalServerError
                         "Failed to create storage client") ;; return_ tt
  | None => ret tt
  end ;;
  let objectName := fileType +:+ "/" +:+ Filename header in
  record (CallNewWriter bucketName objectName) ;;
  record (CallCopy bucketName objectName header) ;;
  match Copy W bucketName objectName header with
  | Some _ => respond (sendErrorResponse http.StatusInternalServerError
                         "Failed to upload file") ;; return_ tt
  | None => ret tt
  end ;;
  record (CallClose bucketName objectName) ;;
  match Close W bucketName objectName with
  | Some _ => respond (sendErrorResponse http.StatusInternalServerError
                         "Failed to finalize upload") ;; return_ tt
  | None => ret tt
  end ;;
  (* Generate public URL for the uploaded file *)
  let fileURL := "https://storage.cloud.google.com/" +:+ bucketName +:+ "/" +:+ objectName in
  let response := {| MediaUploadResponse.FileURL := fileURL;
                     MediaUploadResponse.FileName := Filename header;
                     MediaUploadResponse.FileType := fileType;
                     MediaUploadResponse.UploadedAt := Now W |} in
  respond (http.Header_Set "Content-Type" "application/json") ;;
  respond (http.WriteHeader http.StatusOK) ;;
  respond (http.Write (http.JSON (MediaUploadResponse.encode response))).

End mediaupload.

(** ** Package [audiotranscription]

    [logJSON] only prints a line; the log lines are left out, and so are
    the deferred [Close] of the clients and of the reader.  The deferred
    [Close] of the destination writer is recorded. *)

(** A call either returns or panics. *)
Inductive Outcome (A : Type) : Type :=
| Returned (a : A)
| Panicked (msg : string).
Arguments Returned {A} _.
Arguments Panicked {A} _.

Module genai.

(** A [Part] of a content; [%v] prints a [Text] as its text, and any
    other part as the rendering it carries here. *)
Inductive Part : Type :=
| Text (s : string)
| Other (rendering : string).

Definition format_v (p : Part) : string :=
  match p with
  | Text s => s
  | Other rendering => rendering
  end.

Record Content : Type := { Parts : list Part; Role : string }.

(** [Candidate.Content] is a [*Content]: it may be nil. *)
Record Candidate : Type := { Content_ : option Content }.

Record GenerateContentResponse : Type := { Candidates : list Candidate }.

End genai.

Module audiotranscription.

(** [StorageObjectData] contains metadata of the Cloud Storage object. *)
Record StorageObjectData : Type := {
  Bucket : string;
  Name : string;
  Metageneration : Z;
  TimeCreated : Z;
  Updated : Z
}.

(** The event: its id, its type, and what [e.DataAs(&data)] gives. *)
Record Event : Type := { ID : string; Type_ : string; DataAs : string + StorageObjectData }.

Record World : Type := {
  environ : gmap string string;
  genai_NewClient : string -> error;                        (* API key *)
  storage_NewClient : bool -> error;                        (* read-only scope? *)
  NewReader : string -> string -> string + string;          (* bucket, object: error or a reader *)
  UploadFile : string -> string + string;                   (* reader: error or the URI of the file *)
  GenerateContent : string -> string -> string + genai.GenerateContentResponse; (* URI, prompt *)
  Write : string -> string -> string -> error               (* bucket, object, data *)
}.

Inductive Call : Type :=
| CallNewReader (bucket object : string)
| CallUploadFile (reader : string)
| CallGenerateContent (uri prompt : string)
| CallNewWriter (bucket object : string)
| CallWrite (bucket object data : string)
| CallWriterClose (bucket object : string).

Definition parseGCSURL (url : string) : string * string * error :=
  let prefix := "gs://" in
  if negb (strings.HasPrefix url prefix) then ("", "", Some "invalid GCS URL format")
  else
    let path := strings.TrimPrefix url prefix in
    let parts := strings.SplitN path "/" 2 in
    match parts with
    | [bucket; object] => (bucket, object, nil)
    | _ => ("", "", Some "invalid GCS URL format")
    end.

Definition prompt : string :=
  "Transcribe this audio file. Provide only the transcribed text without any additional formatting or speaker identification.".

Definition transcribeAudio (W : World) (gcsURL : string)
  : M (list Call) (Outcome (string * error)) (Outcome (string * error)) :=
  (* Parse the GCS URL to get bucket and object names *)
  let '(bucket, object, err) := parseGCSURL gcsURL in
  match err with
  | Some e => return_ (Returned ("", Some ("invalid GCS URL: " +:+ e)))
  | None => ret tt
  end ;;
  (* Create a new GCS client *)
  match storage_NewClient W true with
  | Some e => return_ (Returned ("", Some ("failed to create GCS client: " +:+ e)))
  | None => ret tt
  end ;;
  (* Get a handle to the GCS object *)
  modify (fun t => t ++ [CallNewReader bucket object]) ;;
  let* reader := match NewReader W bucket object with
                 | inl e => return_ (Returned ("", Some ("failed to create reader for GCS object: " +:+ e)))
                 | inr reader => ret reader
                 end in
  (* Upload the file to the Gemini service *)
  modify (fun t => t ++ [CallUploadFile reader]) ;;
  let* uri := match UploadFile W reader with
              | inl e => return_ (Returned ("", Some ("unable to upload file: " +:+ e)))
              | inr uri => ret uri
              end in
  modify (fun t => t ++ [CallGenerateContent uri prompt]) ;;
  let* res := match GenerateContent W uri prompt with
              | inl e => return_ (Returned ("", Some ("unable to generate contents: " +:+ e)))
              | inr res => ret res
              end in
  match genai.Candidates res with
  | [] => return_ (Returned ("", Some "empty response from model"))
  | c :: _ =>
      match genai.Content_ c with
      | None => return_ (Panicked "invalid memory address or nil pointer dereference")
      | Some content =>
          match genai.Parts content with
          | [] => return_ (Returned ("", Some "empty response from model"))
          | part :: _ => return_ (Returned (genai.format_v part, nil))
          end
      end
  end.

Definition AudioTranscription (W : World) (e : Event)
  : M (list Call) (Outcome error) (Outcome error) :=
  let* data := match DataAs e with
               | inl err => return_ (Returned (Some ("event.DataAs: " +:+ err)))
               | inr data => ret data
               end in
  let gcsURL := "gs://" +:+ Bucket data +:+ "/" +:+ Name data in
  match genai_NewClient W (os.Getenv (environ W) "GEMINI_API_KEY") with
  | Some err => return_ (Returned (Some ("failed to create Gemini client: " +:+ err)))
  | None => ret tt
  end ;;
  let* res := call (transcribeAudio W gcsURL) in
  let* transcription :=
    match res with
    | Panicked msg => return_ (Panicked msg)
    | Returned (_, Some err) => return_ (Returned (Some ("failed to transcribe audio: " +:+ err)))
    | Returned (transcription, None) => ret transcription
    end in
  match storage_NewClient W false with
  | Some err => return_ (Returned (Some ("failed to create GCS client: " +:+ err)))
  | None => ret tt
  end ;;
  (* Save the response to a file in a Cloud Storage bucket *)
  let bucket := os.Getenv (environ W) "TRANSCRIPTION_BUCKET" in
  let object := "transcription-" +:+ Name data +:+ ".txt" in
  modify (fun t => t ++ [CallNewWriter bucket object]) ;;
  modify (fun t => t ++ [CallWrite bucket object transcription]) ;;
  match Write W bucket object transcription with
  | Some err =>
      modify (fun t => t ++ [CallWriterClose bucket object]) ;;
      return_ (Returned (Some ("failed to write transcription to GCS: " +:+ err)))
  | None => ret tt
  end ;;
  modify (fun t => t ++ [CallWriterClose bucket object]) ;;
  return_ (Returned nil).

End audiotranscription.

(** * Vocabulary of the specification *)

(** The string starts with the prefix. *)
Definition starts_with (s prefix : string) : Prop := exists t, s = prefix +:+ t.

Definition slash : byte := "/"%char.

(** The string holds no "/". *)
Definition no_slash (s : string) : Prop := ~ In slash (bytes s).

(** The ranges are in increasing order and do not overlap. *)
Fixpoint ranges_sorted (prev : Z) (l : list unicode.CaseRange) : bool :=
  match l with
  | [] => true
  | cr :: rest =>
      (prev <? unicode.Lo cr) && (unicode.Lo cr <=? unicode.Hi cr)
      && ranges_sorted (unicode.Hi cr) rest
  end.

(** The runes of a string, as [for _, r := range s] yields them. *)
Fixpoint runes_loop (fuel : nat) (s : string) : list Z :=
  match fuel with
  | O => []
  | S fuel' =>
      match s with
      | EmptyString => []
      | _ => let '(r, size) := utf8.DecodeRuneInString s in
             r :: runes_loop fuel' (slice_from s size)
      end
  end.

Definition runes (s : string) : list Z := runes_loop (String.length s) s.

(** Letters and digits of ASCII. *)
Definition is_upper (c : byte) : bool := strings.is_upper_byte (byteZ c).
Definition is_lower (c : byte) : bool := strings.is_lower_byte (byteZ c).
Definition is_digit (c : byte) : bool := (48 <=? byteZ c) && (byteZ c <=? 57).

(** The email shape of the specification, as a property of the text. *)
Definition email_shape (s : string) : Prop := regexp.Matches user.emailRegex s.

(** The name is blank: it has only white space (of ASCII) in it. *)
Definition blank (s : string) : Prop :=
  forall c, In c (bytes s) -> strings.asciiSpace (byteZ c) = true.

(** Validation as the specification words it, for a password and a name
    of ASCII characters: pattern, length, one character of each class,
    and a name that is not blank. *)
Definition valid_account (u : user.User.t) : Prop :=
  email_shape (user.User.Email u)
  /\ 8 <= len (user.User.Password u)
  /\ (exists c, In c (bytes (user.User.Password u)) /\ is_upper c = true)
  /\ (exists c, In c (bytes (user.User.Password u)) /\ is_lower c = true)
  /\ (exists c, In c (bytes (user.User.Password u)) /\ is_digit c = true)
  /\ ~ blank (user.User.Name u).

(** An account whose password is "PASSW0RD" followed by U+0345, the
    combining mark COMBINING GREEK YPOGEGRAMMENI (bytes CD 85): upper-case
    letters, a digit and a mark, but no lower-case letter. *)
Definition marked_account : user.User.t :=
  {| user.User.ID := ""; user.User.Email := "user@example.com";
     user.User.Password := "PASSW0RD" +:+ String "205" (String "133" EmptyString);
     user.User.Name := "Ada" |}.

(** An account whose password holds seven digits and one letter, the
    titlecase letter U+01C5 (bytes C7 85). *)
Definition one_letter_account : user.User.t :=
  {| user.User.ID := ""; user.User.Email := "user@example.com";
     user.User.Password := "1234567" +:+ String "199" (String "133" EmptyString);
     user.User.Name := "Ada" |}.

(** A login request, an endpoint that refuses it and one that accepts it. *)
Definition login_request : http.Request userauthentication.LoginRequest.t :=
  {| http.Method := "POST"; http.ReqHeader := ∅;
     http.Body := inr {| userauthentication.LoginRequest.Email := "a@b.com";
                         userauthentication.LoginRequest.Password := "Passw0rd" |} |}.

Definition sign_in_refused : userauthentication.World :=
  {| userauthentication.environ := {["FIREBASE_API_KEY" := "k"]};
     userauthentication.Post := fun _ _ _ =>
       userauthentication.PostResponse 400 (inr "INVALID_PASSWORD");
     userauthentication.Unmarshal := fun _ => inl "unexpected end of JSON input";
     userauthentication.NewApp := None;
     userauthentication.Auth := None;
     userauthentication.VerifyIDToken := fun _ => inl "invalid" |}.

Definition sign_in_accepted : userauthentication.World :=
  {| userauthentication.environ := {["FIREBASE_API_KEY" := "k"]};
     userauthentication.Post := fun _ _ _ => userauthentication.PostResponse 200 (inr "{}");
     userauthentication.Unmarshal := fun _ =>
       inr {| userauthentication.FirebaseSignInResponse.IDToken := "tok";
              userauthentication.FirebaseSignInResponse.Email := "a@b.com";
              userauthentication.FirebaseSignInResponse.RefreshToken := "r";
              userauthentication.FirebaseSignInResponse.ExpiresIn := "3600";
              userauthentication.FirebaseSignInResponse.LocalID := "uid-1";
              userauthentication.FirebaseSignInResponse.DisplayName := "Ada" |};
     userauthentication.NewApp := None;
     userauthentication.Auth := None;
     userauthentication.VerifyIDToken := fun _ => inr "uid-1" |}.

(** The forwarded-authorization header of a request is absent, or its
    value does not start with "Bearer ". *)
Definition authorization (r : http.Request userprofilemanagement.UserProfileUpdate.t)
  : option (list string) := http.ReqHeader r !! "X-Forwarded-Authorization".

Definition no_bearer (r : http.Request userprofilemanagement.UserProfileUpdate.t) : Prop :=
  authorization r = None
  \/ authorization r = Some []
  \/ exists v vs, authorization r = Some (v :: vs) /\ ~ starts_with v "Bearer ".

(** The token of a request is missing, or the identity provider refuses it. *)
Definition missing_or_invalid_token (W : userprofilemanagement.World)
    (r : http.Request userprofilemanagement.UserProfileUpdate.t) : Prop :=
  userprofilemanagement.extractToken r = ""
  \/ exists err, userprofilemanagement.VerifyIDTokenAndCheckRevoked W
                   (userprofilemanagement.extractToken r) = inl err.

(** The identity-provider client of the profile handler can be set up. *)
Definition client_ready (W : userprofilemanagement.World) : Prop :=
  userprofilemanagement.NewApp W = None /\ userprofilemanagement.Auth W = None.

(** The status the profile handler answers with, and the calls it makes. *)
Definition profile_status (W : userprofilemanagement.World)
    (r : http.Request userprofilemanagement.UserProfileUpdate.t) : Z :=
  http.StatusCode (resp (snd (run (userprofilemanagement.UserProfileManagement W r) start))).

Definition profile_calls (W : userprofilemanagement.World)
    (r : http.Request userprofilemanagement.UserProfileUpdate.t)
  : list userprofilemanagement.Call :=
  calls (snd (run (userprofilemanagement.UserProfileManagement W r) start)).

(** A provider that cannot be set up, and one that refuses every token. *)
Definition provider_down : userprofilemanagement.World :=
  {| userprofilemanagement.NewApp := Some "no credentials";
     userprofilemanagement.Auth := None;
     userprofilemanagement.VerifyIDTokenAndCheckRevoked := fun _ => inl "invalid";
     userprofilemanagement.GetUser := fun _ => inl "not found";
     userprofilemanagement.UpdateUser := fun _ _ => inl "not found";
     userprofilemanagement.FormatRFC3339 := fun _ => "" |}.

Definition auth_client_down : userprofilemanagement.World :=
  {| userprofilemanagement.NewApp := None;
     userprofilemanagement.Auth := Some "no credentials";
     userprofilemanagement.VerifyIDTokenAndCheckRevoked := fun _ => inl "invalid";
     userprofilemanagement.GetUser := fun _ => inl "not found";
     userprofilemanagement.UpdateUser := fun _ _ => inl "not found";
     userprofilemanagement.FormatRFC3339 := fun _ => "" |}.

Definition provider_refusing : userprofilemanagement.World :=
  {| userprofilemanagement.NewApp := None;
     userprofilemanagement.Auth := None;
     userprofilemanagement.VerifyIDTokenAndCheckRevoked := fun _ => inl "invalid";
     userprofilemanagement.GetUser := fun _ => inl "not found";
     userprofilemanagement.UpdateUser := fun _ _ => inl "not found";
     userprofilemanagement.FormatRFC3339 := fun _ => "" |}.

Definition provider_accepting : userprofilemanagement.World :=
  {| userprofilemanagement.NewApp := None;
     userprofilemanagement.Auth := None;
     userprofilemanagement.VerifyIDTokenAndCheckRevoked := fun _ => inr "uid-1";
     userprofilemanagement.GetUser := fun _ => inl "not found";
     userprofilemanagement.UpdateUser := fun _ _ => inl "not found";
     userprofilemanagement.FormatRFC3339 := fun _ => "" |}.

(** A GET without any header, and a DELETE with a token. *)
Definition get_without_header : http.Request userprofilemanagement.UserProfileUpdate.t :=
  {| http.Method := "GET"; http.ReqHeader := ∅; http.Body := inl "EOF" |}.

Definition delete_with_token : http.Request userprofilemanagement.UserProfileUpdate.t :=
  {| http.Method := "DELETE";
     http.ReqHeader := {["X-Forwarded-Authorization" := ["Bearer forged"]]};
     http.Body := inl "EOF" |}.

(** The allow-list of the upload handler: extension and media type. *)
Definition allow_list : list (string * string) :=
  [(".mp3", "audio"); (".wav", "audio"); (".ogg", "audio");
   (".mp4", "video"); (".mov", "video"); (".avi", "video");
   (".jpg", "image"); (".jpeg", "image"); (".png", "image"); (".gif", "image")].

Definition classify (ext : string) : option string :=
  match find (fun p => String.eqb ext (fst p)) allow_list with
  | Some (_, ty) => Some ty
  | None => None
  end.

(** The request carries the file [header] in its form field "file". *)
Definition uploaded (r : http.Request (list mediaupload.Part))
    (header : mediaupload.FileHeader) : Prop :=
  exists form, mediaupload.ParseMultipartForm r mediaupload.maxFileSize = inr form
               /\ mediaupload.FormFile form "file" = inr header.

Definition upload_status (W : mediaupload.World) (r : http.Request (list mediaupload.Part)) : Z :=
  http.StatusCode (resp (snd (run (mediaupload.MediaUpload W r) start))).

Definition upload_calls (W : mediaupload.World) (r : http.Request (list mediaupload.Part))
  : list mediaupload.Call :=
  calls (snd (run (mediaupload.MediaUpload W r) start)).

(** An upload of one file of the given name and size, and an object
    store without failures. *)
Definition upload_of (name : string) (size : Z) : http.Request (list mediaupload.Part) :=
  {| http.Method := "POST"; http.ReqHeader := ∅;
     http.Body := inr [{| mediaupload.FormName := "file";
                          mediaupload.PartFileName := name;
                          mediaupload.PartSize := size |}] |}.

Definition store_ok : mediaupload.World :=
  {| mediaupload.NewClient := None; mediaupload.Copy := fun _ _ _ => None;
     mediaupload.Close := fun _ _ => None; mediaupload.Now := 0 |}.

(** The model answered with no candidates, or with a first candidate
    whose content has no parts. *)
Definition empty_response (res : genai.GenerateContentResponse) : Prop :=
  genai.Candidates res = []
  \/ exists c cs content, genai.Candidates res = c :: cs
                          /\ genai.Content_ c = Some content
                          /\ genai.Parts content = [].

(** The calls that touch the destination bucket. *)
Definition is_destination_call (c : audiotranscription.Call) : bool :=
  match c with
  | audiotranscription.CallNewWriter _ _
  | audiotranscription.CallWrite _ _ _
  | audiotranscription.CallWriterClose _ _ => true
  | _ => false
  end.

Definition destination_calls (t : list audiotranscription.Call) : list audiotranscription.Call :=
  filter is_destination_call t.

(** The URL and the destination of an event's object. *)
Definition gcsURL_of (data : audiotranscription.StorageObjectData) : string :=
  "gs://" +:+ audiotranscription.Bucket data +:+ "/" +:+ audiotranscription.Name data.

Definition destination_bucket (W : audiotranscription.World) : string :=
  os.Getenv (audiotranscription.environ W) "TRANSCRIPTION_BUCKET".

Definition destination_object (data : audiotranscription.StorageObjectData) : string :=
  "transcription-" +:+ audiotranscription.Name data +:+ ".txt".

(** An event for the object "interview.mp3" of bucket "b", a model that
    answers with no candidate, and one that answers with a text. *)
Definition interview_event : audiotranscription.Event :=
  {| audiotranscription.ID := "1"; audiotranscription.Type_ := "google.cloud.storage.object.v1.finalized";
     audiotranscription.DataAs :=
       inr {| audiotranscription.Bucket := "b"; audiotranscription.Name := "interview.mp3";
              audiotranscription.Metageneration := 1; audiotranscription.TimeCreated := 0;
              audiotranscription.Updated := 0 |} |}.

Definition world_answering (res : genai.GenerateContentResponse) : audiotranscription.World :=
  {| audiotranscription.environ := {["TRANSCRIPTION_BUCKET" := "transcripts"]};
     audiotranscription.genai_NewClient := fun _ => None;
     audiotranscription.storage_NewClient := fun _ => None;
     audiotranscription.NewReader := fun _ _ => inr "reader";
     audiotranscription.UploadFile := fun _ => inr "files/1";
     audiotranscription.GenerateContent := fun _ _ => inr res;
     audiotranscription.Write := fun _ _ _ => None |}.

Definition no_candidates : genai.GenerateContentResponse := {| genai.Candidates := [] |}.

Definition one_text (s : string) : genai.GenerateContentResponse :=
  {| genai.Candidates :=
       [{| genai.Content_ := Some {| genai.Parts := [genai.Text s]; genai.Role := "model" |} |}] |}.

(** ** Vocabulary for the further properties *)

Definition all_in (ranges : list (Z * Z)) (s : string) : bool :=
  forallb (fun c => regexp.in_class ranges (byteZ c)) (bytes s).

Definition local_chars : list (Z * Z) :=
  [(97, 122); (48, 57); (46, 46); (95, 95); (37, 37); (43, 43); (45, 45)].
Definition domain_chars : list (Z * Z) := [(97, 122); (48, 57); (46, 46); (45, 45)].
Definition alpha_chars : list (Z * Z) := [(97, 122)].

Definition email_parts (s : string) : Prop :=
  exists l d t,
    s = l +:+ "@" +:+ d +:+ "." +:+ t
    /\ l <> "" /\ all_in local_chars l = true
    /\ d <> "" /\ all_in domain_chars d = true
    /\ 2 <= len t <= 4 /\ all_in alpha_chars t = true.

Definition sign_in_request (q : userauthentication.LoginRequest.t) : json.Value :=
  json.Object [("email", json.String_ (userauthentication.LoginRequest.Email q));
               ("password", json.String_ (userauthentication.LoginRequest.Password q));
               ("returnSecureToken", json.Bool true)].

Definition api_key (W : userauthentication.World) : string :=
  os.Getenv (userauthentication.environ W) "FIREBASE_API_KEY".

Definition auth_state (W : userauthentication.World)
    (r : http.Request userauthentication.LoginRequest.t) : HState userauthentication.Call :=
  snd (run (userauthentication.UserAuthentication W r) start).

Definition forwarded_authorization
    (r : http.Request userprofilemanagement.UserProfileUpdate.t) : string :=
  http.Header_Get (http.ReqHeader r) "X-Forwarded-Authorization".

Definition verified_as (W : userprofilemanagement.World)
    (r : http.Request userprofilemanagement.UserProfileUpdate.t) (uid : string) : Prop :=
  client_ready W
  /\ userprofilemanagement.extractToken r <> ""
  /\ userprofilemanagement.VerifyIDTokenAndCheckRevoked W
       (userprofilemanagement.extractToken r) = inr uid.

Definition profile_body (W : userprofilemanagement.World)
    (r : http.Request userprofilemanagement.UserProfileUpdate.t) : list http.Chunk :=
  http.body (resp (snd (run (userprofilemanagement.UserProfileManagement W r) start))).

Definition profile_json (W : userprofilemanagement.World)
    (user : userprofilemanagement.UserRecord) : json.Value :=
  json.Object
    [("id", json.String_ (userprofilemanagement.UID user));
     ("email", json.String_ (userprofilemanagement.Email user));
     ("name", json.String_ (userprofilemanagement.DisplayName user));
     ("createdAt", json.String_
        (userprofilemanagement.FormatRFC3339 W
           (Z.quot (userprofilemanagement.CreationTimestamp user) 1000)))].

Definition upload_response (W : mediaupload.World)
    (r : http.Request (list mediaupload.Part)) : http.ResponseWriter :=
  resp (snd (run (mediaupload.MediaUpload W r) start)).

Definition error_json (code : Z) (message : string) : json.Value :=
  json.Object [("code", json.Number code); ("message", json.String_ message)].

Definition no_dot (s : string) : Prop := ~ In "."%char (bytes s).

(** The part is a file of the form field [key]. *)
Definition file_of (key : string) (p : mediaupload.Part) : bool :=
  String.eqb (mediaupload.FormName p) key
  && negb (String.eqb (mediaupload.FormName p) "")
  && negb (String.eqb (mediaupload.PartFileName p) "").

Definition read_calls (bucket object reader uri : string) : list audiotranscription.Call :=
  [audiotranscription.CallNewReader bucket object;
   audiotranscription.CallUploadFile reader;
   audiotranscription.CallGenerateContent uri audiotranscription.prompt].

Definition write_calls (bucket object text : string) : list audiotranscription.Call :=
  [audiotranscription.CallNewWriter bucket object;
   audiotranscription.CallWrite bucket object text;
   audiotranscription.CallWriterClose bucket object].

Definition transcription_trace (W : audiotranscription.World) (e : audiotranscription.Event)
  : list audiotranscription.Call :=
  snd (run (audiotranscription.AudioTranscription W e) []).

Definition nil_content : genai.GenerateContentResponse :=
  {| genai.Candidates := [{| genai.Content_ := None |}] |}.

(** Concrete accounts, requests and worlds used to exercise the handlers. *)
Definition ada_account : user.User.t :=
  {| user.User.ID := ""; user.User.Email := "a@b.com";
     user.User.Password := "Passw0rd"; user.User.Name := "Ada" |}.

Definition firebase_ok : user.Firebase :=
  {| user.NewApp := None; user.Auth := None; user.CreateUser := fun _ => inr "uid-1" |}.

Definition registration_of (body : string + user.User.t) : http.Request user.User.t :=
  {| http.Method := "POST"; http.ReqHeader := ∅; http.Body := body |}.

Definition short_password_account : user.User.t :=
  {| user.User.ID := ""; user.User.Email := "a@b.com";
     user.User.Password := "Pw0"; user.User.Name := "Ada" |}.

Definition sign_in_unconfigured : userauthentication.World :=
  {| userauthentication.environ := ∅;
     userauthentication.Post := fun _ _ _ => userauthentication.PostError "unreachable";
     userauthentication.Unmarshal := fun _ => inl "unexpected end of JSON input";
     userauthentication.NewApp := None;
     userauthentication.Auth := None;
     userauthentication.VerifyIDToken := fun _ => inl "invalid" |}.

Definition sign_in_unverified : userauthentication.World :=
  {| userauthentication.environ := {["FIREBASE_API_KEY" := "k"]};
     userauthentication.Post := fun _ _ _ => userauthentication.PostResponse 200 (inr "{}");
     userauthentication.Unmarshal := fun _ =>
       inr {| userauthentication.FirebaseSignInResponse.IDToken := "tok";
              userauthentication.FirebaseSignInResponse.Email := "a@b.com";
              userauthentication.FirebaseSignInResponse.RefreshToken := "r";
              userauthentication.FirebaseSignInResponse.ExpiresIn := "3600";
              userauthentication.FirebaseSignInResponse.LocalID := "uid-1";
              userauthentication.FirebaseSignInResponse.DisplayName := "Ada" |};
     userauthentication.NewApp := None;
     userauthentication.Auth := None;
     userauthentication.VerifyIDToken := fun _ => inl "expired" |}.

Definition ada_record (name : string) : userprofilemanagement.UserRecord :=
  {| userprofilemanagement.UID := "uid-1"; userprofilemanagement.Email := "a@b.com";
     userprofilemanagement.DisplayName := name;
     userprofilemanagement.CreationTimestamp := 1700000000999 |}.

Definition provider_with_user : userprofilemanagement.World :=
  {| userprofilemanagement.NewApp := None;
     userprofilemanagement.Auth := None;
     userprofilemanagement.VerifyIDTokenAndCheckRevoked := fun _ => inr "uid-1";
     userprofilemanagement.GetUser := fun _ => inr (ada_record "Ada");
     userprofilemanagement.UpdateUser := fun _ name => inr (ada_record name);
     userprofilemanagement.FormatRFC3339 := fun sec =>
       if sec =? 1700000000 then "2023-11-14T22:13:20Z" else "" |}.

Definition profile_request (method : string) (body : string + userprofilemanagement.UserProfileUpdate.t)
  : http.Request userprofilemanagement.UserProfileUpdate.t :=
  {| http.Method := method;
     http.ReqHeader := {["X-Forwarded-Authorization" := ["Bearer tok"]]};
     http.Body := body |}.

Definition store_down : mediaupload.World :=
  {| mediaupload.NewClient := Some "no credentials"; mediaupload.Copy := fun _ _ _ => None;
     mediaupload.Close := fun _ _ => None; mediaupload.Now := 0 |}.

(** A form with a plain value, a file in another field, and two files in
    the field "file". *)
Definition mixed_parts : list mediaupload.Part :=
  [{| mediaupload.FormName := "title"; mediaupload.PartFileName := "";
      mediaupload.PartSize := 5 |};
   {| mediaupload.FormName := "cover"; mediaupload.PartFileName := "cover.png";
      mediaupload.PartSize := 10 |};
   {| mediaupload.FormName := "file"; mediaupload.PartFileName := "first.mp3";
      mediaupload.PartSize := 20 |};
   {| mediaupload.FormName := "file"; mediaupload.PartFileName := "second.mp3";
      mediaupload.PartSize := 30 |}].

Definition upload_parts (parts : list mediaupload.Part) : http.Request (list mediaupload.Part) :=
  {| http.Method := "POST"; http.ReqHeader := ∅; http.Body := inr parts |}.

(** * Properties *)

(** ** Slices and prefixes *)

Lemma len_nonneg (s : string) : 0 <= len s.
Proof. unfold len. lia. Qed.

Lemma len_app (s t : string) : len (s +:+ t) = len s + len t.
Proof.
  unfold len. induction s as [|c s IH]; cbn [String.append String.length]; lia.
Qed.

Lemma len_String (c : byte) (s : string) : len (String c s) = 1 + len s.
Proof. unfold len. simpl String.length. lia. Qed.

Lemma stake_app (s t : string) : stake (String.length s) (s +:+ t) = s.
Proof. induction s as [|c s IH]; simpl; [now destruct t|now rewrite IH]. Qed.

Lemma sdrop_app (s t : string) : sdrop (String.length s) (s +:+ t) = t.
Proof. induction s as [|c s IH]; simpl; auto. Qed.

Lemma stake_sdrop (n : nat) (s : string) : stake n s +:+ sdrop n s = s.
Proof.
  revert s. induction n as [|n IH]; intros [|c s]; simpl; auto.
  now rewrite IH.
Qed.

Lemma stake_length (n : nat) (s : string) :
  (n <= String.length s)%nat -> String.length (stake n s) = n.
Proof.
  revert s. induction n as [|n IH]; intros [|c s]; simpl; intros H; auto; try lia.
  rewrite IH; lia.
Qed.

Lemma slice_to_app (s t : string) : slice_to (s +:+ t) (len s) = s.
Proof. unfold slice_to, len. rewrite Nat2Z.id. apply stake_app. Qed.

Lemma slice_from_app (s t : string) : slice_from (s +:+ t) (len s) = t.
Proof. unfold slice_from, len. rewrite Nat2Z.id. apply sdrop_app. Qed.

(** [HasPrefix] decides "starts with". *)
Lemma HasPrefix_app (p t : string) : strings.HasPrefix (p +:+ t) p = true.
Proof.
  unfold strings.HasPrefix. rewrite slice_to_app, String.eqb_refl, len_app.
  pose proof (len_nonneg t). apply andb_true_iff. split; [lia|reflexivity].
Qed.

Lemma HasPrefix_spec (s p : string) :
  strings.HasPrefix s p = true <-> starts_with s p.
Proof.
  split.
  - unfold strings.HasPrefix. intros H. apply andb_true_iff in H as [_ H].
    apply String.eqb_eq in H. exists (slice_from s (len p)).
    rewrite <- H at 1. unfold slice_to, slice_from. symmetry. apply stake_sdrop.
  - intros [t ->]. apply HasPrefix_app.
Qed.

Lemma TrimPrefix_app (p t : string) : strings.TrimPrefix (p +:+ t) p = t.
Proof. unfold strings.TrimPrefix. rewrite HasPrefix_app. apply slice_from_app. Qed.

(** ** [Index] and [SplitN] at the separator "/" *)

Lemma HasPrefix_slash (c : byte) (s : string) :
  strings.HasPrefix (String c s) "/" = Ascii.eqb c slash.
Proof.
  unfold strings.HasPrefix. change (len "/") with 1. rewrite len_String.
  change (slice_to (String c s) 1) with (String c EmptyString).
  pose proof (len_nonneg s).
  replace (1 <=? 1 + len s) with true by lia.
  change (String.eqb (String c EmptyString) "/")
    with (Ascii.eqb c slash && String.eqb EmptyString EmptyString).
  change (String.eqb EmptyString EmptyString) with true.
  now rewrite andb_true_r.
Qed.

Lemma Index_nonneg_or_none (s sep : string) : strings.Index s sep = -1 \/ 0 <= strings.Index s sep.
Proof.
  induction s as [|c s IH]; simpl.
  - destruct (strings.HasPrefix "" sep); lia.
  - destruct (strings.HasPrefix (String c s) sep); [lia|].
    destruct (strings.Index s sep <? 0) eqn:E; lia.
Qed.

Lemma Index_no_slash (s : string) : no_slash s -> strings.Index s "/" = -1.
Proof.
  unfold no_slash. induction s as [|c s IH]; intros H.
  - reflexivity.
  - simpl strings.Index. rewrite HasPrefix_slash.
    destruct (Ascii.eqb c slash) eqn:E.
    + apply Ascii.eqb_eq in E. subst c. exfalso. apply H. now left.
    + rewrite IH; [reflexivity|]. intros Hin. apply H. now right.
Qed.

Lemma Index_first_slash (b n : string) :
  no_slash b -> strings.Index (b +:+ String slash n) "/" = len b.
Proof.
  unfold no_slash. induction b as [|c b IH]; intros H.
  - simpl String.append. simpl strings.Index. rewrite HasPrefix_slash.
    unfold slash. now rewrite Ascii.eqb_refl.
  - simpl String.append. simpl strings.Index. rewrite HasPrefix_slash.
    destruct (Ascii.eqb c slash) eqn:E.
    + apply Ascii.eqb_eq in E. subst c. exfalso. apply H. now left.
    + rewrite IH by (intros Hin; apply H; now right).
      rewrite len_String. pose proof (len_nonneg b).
      replace (len b <? 0) with false by (symmetry; lia). lia.
Qed.

Lemma SplitN_slash_2_found (b n : string) :
  no_slash b -> strings.SplitN (b +:+ String slash n) "/" 2 = [b; n].
Proof.
  intros Hb. unfold strings.SplitN, strings.genSplit.
  change (2 =? 0) with false. change (String.eqb "/" "") with false.
  change (2 <? 0) with false. cbv iota.
  rewrite len_app, len_String.
  pose proof (len_nonneg b). pose proof (len_nonneg n).
  replace (len b + (1 + len n) + 1 <? 2) with false by (symmetry; lia).
  change (Z.to_nat (2 - 1)) with 1%nat. cbn [strings.genSplit_loop].
  rewrite Index_first_slash by assumption.
  replace (len b <? 0) with false by (symmetry; lia).
  rewrite Z.add_0_r, slice_to_app.
  change (len "/") with 1.
  replace (b +:+ String slash n) with ((b +:+ "/") +:+ n).
  2:{ clear. induction b; simpl; [reflexivity|now f_equal]. }
  replace (len b + 1) with (len (b +:+ "/")) by (rewrite len_app; reflexivity).
  now rewrite slice_from_app.
Qed.

Lemma SplitN_slash_2_missing (p : string) :
  no_slash p -> strings.SplitN p "/" 2 = [p].
Proof.
  intros Hp. unfold strings.SplitN, strings.genSplit.
  change (2 =? 0) with false. change (String.eqb "/" "") with false.
  change (2 <? 0) with false. cbv iota.
  destruct (len p + 1 <? 2) eqn:E.
  - destruct p as [|c p]; [reflexivity|].
    rewrite len_String in E. pose proof (len_nonneg p). lia.
  - change (Z.to_nat (2 - 1)) with 1%nat. cbn [strings.genSplit_loop].
    now rewrite Index_no_slash.
Qed.

(** C10: the URL built by the transcription handler parses back to its
    bucket and object, for every bucket without "/" and every non-empty
    object name; and a string that does not start with "gs://", or has no
    "/" after the bucket, is refused with an error. *)
Theorem parseGCSURL_roundtrip (B N url : string) :
  (no_slash B -> N <> "" ->
   audiotranscription.parseGCSURL ("gs://" +:+ B +:+ "/" +:+ N) = (B, N, nil))
  /\ ((~ starts_with url "gs://" \/ exists p, url = "gs://" +:+ p /\ no_slash p) ->
      exists e, audiotranscription.parseGCSURL url = ("", "", Some e)).
Proof.
  split.
  - intros HB _. unfold audiotranscription.parseGCSURL.
    rewrite HasPrefix_app, TrimPrefix_app. cbn [negb].
    change ("/" +:+ N) with (String slash N).
    now rewrite SplitN_slash_2_found.
  - intros [Hno | (p & -> & Hp)]; unfold audiotranscription.parseGCSURL.
    + destruct (strings.HasPrefix url "gs://") eqn:E.
      * apply HasPrefix_spec in E. contradiction.
      * eexists. reflexivity.
    + rewrite HasPrefix_app, TrimPrefix_app. cbn [negb].
      rewrite SplitN_slash_2_missing by assumption. eexists. reflexivity.
Qed.

Lemma parseGCSURL_roundtrip_witness :
  audiotranscription.parseGCSURL "gs://b/interview.mp3" = ("b", "interview.mp3", nil)
  /\ exists e, audiotranscription.parseGCSURL "gs://bucket-only" = ("", "", Some e).
Proof.
  split.
  - apply (proj1 (parseGCSURL_roundtrip "b" "interview.mp3" "")).
    + unfold no_slash. vm_compute. intros [H|[]]. discriminate H.
    + discriminate.
  - apply (proj2 (parseGCSURL_roundtrip "" "" "gs://bucket-only")).
    right. exists "bucket-only". split; [reflexivity|].
    unfold no_slash. vm_compute. intuition discriminate.
Defined.

(** ** The matcher decides [Matches] *)

Section RegexpFacts.
Import regexp.

Lemma nullable_spec (r : Regexp) : nullable r = true <-> Matches r EmptyString.
Proof.
  split.
  - induction r as [| | ranges | a IHa b IHb | a IHa b IHb | a IHa]; simpl; intros H;
      try discriminate.
    + constructor.
    + apply andb_true_iff in H as [Ha Hb].
      change EmptyString with (EmptyString +:+ EmptyString). constructor; auto.
    + apply orb_true_iff in H as [Ha | Hb]; [apply MAltL | apply MAltR]; auto.
    + constructor.
  - intros H. remember EmptyString as e eqn:He.
    induction H as [| ranges c Hc | a b s t Ha IHa Hb IHb | a b s Ha IHa
                    | a b s Hb IHb | a | a s t Ha IHa Hs IHs]; simpl; auto.
    + discriminate.
    + destruct s; [|discriminate]. simpl in He. subst t.
      rewrite IHa, IHb; auto.
    + rewrite IHa; auto.
    + rewrite IHb; auto. apply orb_true_r.
Qed.

Lemma Matches_NoMatch (s : string) : ~ Matches OpNoMatch s.
Proof. intros H. inversion H. Qed.

Lemma deriv_sound (c : byte) (r : Regexp) (s : string) :
  Matches (deriv (byteZ c) r) s -> Matches r (String c s).
Proof.
  revert s.
  induction r as [| | ranges | a IHa b IHb | a IHa b IHb | a IHa]; simpl; intros s H.
  - inversion H.
  - inversion H.
  - destruct (in_class ranges (byteZ c)) eqn:E; inversion H; subst.
    now constructor.
  - assert (Hcat : forall u, Matches (OpConcat (deriv (byteZ c) a) b) u ->
                             Matches (OpConcat a b) (String c u)).
    { intros u Hu. inversion Hu; subst.
      change (String c (s0 +:+ t)) with (String c s0 +:+ t). constructor; auto. }
    destruct (nullable a) eqn:Na.
    + inversion H; subst; [now apply Hcat|].
      change (String c s) with (EmptyString +:+ String c s).
      constructor; [now apply nullable_spec | auto].
    + now apply Hcat.
  - inversion H; subst; [apply MAltL | apply MAltR]; auto.
  - inversion H; subst.
    change (String c (s0 +:+ t)) with (String c s0 +:+ t). apply MStarS; auto.
Qed.

Lemma deriv_complete (c : byte) (r : Regexp) (s : string) :
  Matches r (String c s) -> Matches (deriv (byteZ c) r) s.
Proof.
  intros H. remember (String c s) as t eqn:Ht. revert c s Ht.
  induction H as [| ranges c' Hc | a b s1 t1 Ha IHa Hb IHb | a b s1 Ha IHa
                  | a b s1 Hb IHb | a | a s1 t1 Ha IHa Hs IHs]; intros c s Ht.
  - discriminate.
  - injection Ht as -> <-. simpl. rewrite Hc. constructor.
  - simpl. destruct s1 as [|c1 s1].
    + simpl in Ht. subst t1.
      apply nullable_spec in Ha. rewrite Ha. apply MAltR. now apply IHb.
    + simpl in Ht. injection Ht as -> <-.
      assert (Hc : Matches (OpConcat (deriv (byteZ c) a) b) (s1 +:+ t1))
        by (constructor; auto).
      destruct (nullable a); [now apply MAltL | exact Hc].
  - simpl. apply MAltL. now apply IHa.
  - simpl. apply MAltR. now apply IHb.
  - discriminate.
  - destruct s1 as [|c1 s1].
    + simpl in Ht. now apply IHs.
    + simpl in Ht. injection Ht as -> <-. simpl. constructor; auto.
Qed.

Theorem matchb_spec (r : Regexp) (s : string) : matchb r s = true <-> Matches r s.
Proof.
  revert r. induction s as [|c s IH]; intros r; simpl.
  - apply nullable_spec.
  - rewrite IH. split; [apply deriv_sound | apply deriv_complete].
Qed.

End RegexpFacts.

(** ** Registration: [Validate] *)

(** The case table is sorted, as the search in [unicode.to] expects. *)
Example CaseRanges_sorted : ranges_sorted (-1) unicode.CaseRanges = true.
Proof. vm_compute. reflexivity. Qed.

Lemma byteZ_range (c : byte) : 0 <= byteZ c < 256.
Proof.
  unfold byteZ. pose proof (N_ascii_bounded c) as H. lia.
Qed.

Lemma byteZ_Zbyte (z : Z) : 0 <= z < 256 -> byteZ (Zbyte z) = z.
Proof.
  intros H. unfold byteZ, Zbyte. rewrite N_ascii_embedding by lia. lia.
Qed.

Lemma Zbyte_byteZ (c : byte) : Zbyte (byteZ c) = c.
Proof. unfold byteZ, Zbyte. rewrite N2Z.id. apply ascii_N_embedding. Qed.

Lemma existsb_bytes (f : byte -> bool) (s : string) :
  existsb f (bytes s) = true <-> exists c, In c (bytes s) /\ f c = true.
Proof. apply existsb_exists. Qed.

(** Lower-casing byte by byte leaves the string alone only when it has
    no upper-case byte; the same for upper-casing. *)
Lemma map_bytes_lower_fixed (s : string) :
  strings.map_bytes (fun c => if strings.is_upper_byte c then c + 32 else c) s = s ->
  existsb is_upper (bytes s) = false.
Proof.
  induction s as [|c s IH]; simpl; intros H; [reflexivity|].
  injection H as Hc Hs. rewrite (IH Hs), orb_false_r.
  unfold is_upper. destruct (strings.is_upper_byte (byteZ c)) eqn:E; [|reflexivity].
  exfalso. apply (f_equal byteZ) in Hc.
  unfold strings.is_upper_byte in E. pose proof (byteZ_range c).
  rewrite byteZ_Zbyte in Hc; lia.
Qed.

Lemma map_bytes_upper_fixed (s : string) :
  strings.map_bytes (fun c => if strings.is_lower_byte c then c - 32 else c) s = s ->
  existsb is_lower (bytes s) = false.
Proof.
  induction s as [|c s IH]; simpl; intros H; [reflexivity|].
  injection H as Hc Hs. rewrite (IH Hs), orb_false_r.
  unfold is_lower. destruct (strings.is_lower_byte (byteZ c)) eqn:E; [|reflexivity].
  exfalso. apply (f_equal byteZ) in Hc.
  unfold strings.is_lower_byte in E. pose proof (byteZ_range c).
  rewrite byteZ_Zbyte in Hc; lia.
Qed.

Lemma containsUppercase_ascii (s : string) :
  strings.isASCII s = true -> user.containsUppercase s = existsb is_upper (bytes s).
Proof.
  intros Ha. unfold user.containsUppercase, strings.ToLower. rewrite Ha.
  fold is_upper. change (fun c => strings.is_upper_byte (byteZ c)) with is_upper.
  destruct (existsb is_upper (bytes s)) eqn:E; cbn [negb].
  - destruct (String.eqb_spec
      (strings.map_bytes (fun c => if strings.is_upper_byte c then c + 32 else c) s) s)
      as [Heq|Hne]; [|reflexivity].
    apply map_bytes_lower_fixed in Heq. congruence.
  - now rewrite String.eqb_refl.
Qed.

Lemma containsLowercase_ascii (s : string) :
  strings.isASCII s = true -> user.containsLowercase s = existsb is_lower (bytes s).
Proof.
  intros Ha. unfold user.containsLowercase, strings.ToUpper. rewrite Ha.
  change (fun c => strings.is_lower_byte (byteZ c)) with is_lower.
  destruct (existsb is_lower (bytes s)) eqn:E; cbn [negb].
  - destruct (String.eqb_spec
      (strings.map_bytes (fun c => if strings.is_lower_byte c then c - 32 else c) s) s)
      as [Heq|Hne]; [|reflexivity].
    apply map_bytes_upper_fixed in Heq. congruence.
  - now rewrite String.eqb_refl.
Qed.

(** An ASCII byte decodes to itself, with width 1. *)
Lemma DecodeRuneInString_ascii (c : byte) (s : string) :
  byteZ c < utf8.RuneSelf -> utf8.DecodeRuneInString (String c s) = (byteZ c, 1).
Proof.
  intros H. unfold utf8.RuneSelf in H. pose proof (byteZ_range c).
  unfold utf8.DecodeRuneInString, utf8.first.
  replace (byteZ c <? 128) with true by lia. reflexivity.
Qed.

Lemma containsNumber_ascii (s : string) :
  strings.isASCII s = true -> user.containsNumber s = existsb is_digit (bytes s).
Proof.
  unfold user.containsNumber, strings.isASCII.
  induction s as [|c s IH]; intros Ha; [reflexivity|].
  simpl in Ha. apply andb_true_iff in Ha as [Hc Hs].
  cbn [String.length user.containsNumber_loop].
  rewrite DecodeRuneInString_ascii by lia.
  change (slice_from (String c s) 1) with s.
  cbn [bytes list_ascii_of_string existsb]. fold (bytes s).
  unfold is_digit at 1. destruct ((48 <=? byteZ c) && (byteZ c <=? 57)); [reflexivity|].
  now apply IH.
Qed.

(** [TrimSpace] on a string of ASCII characters: the result is empty
    exactly when the string is blank. *)
Lemma byte_at_ascii (s : string) (i : Z) :
  strings.isASCII s = true -> utf8.byte_at s i < utf8.RuneSelf.
Proof.
  unfold utf8.byte_at, strings.isASCII. generalize (Z.to_nat i). clear i.
  induction s as [|c s IH]; intros n Ha; [now destruct n|].
  cbn [bytes list_ascii_of_string forallb] in Ha. apply andb_true_iff in Ha as [Hc Hs].
  destruct n as [|n]; cbn [String.get]; [lia|]. now apply IH.
Qed.

Lemma TrimSpace_stop_nonempty (fuel : nat) (c0 : byte) (rest : string) (stop : Z) :
  strings.isASCII (String c0 rest) = true ->
  strings.asciiSpace (byteZ c0) = false ->
  1 <= stop ->
  strings.TrimSpace_stop fuel (String c0 rest) stop <> "".
Proof.
  intros Ha H0. revert stop.
  assert (Hslice : forall stop, 1 <= stop -> slice_to (String c0 rest) stop <> "").
  { intros stop Hs. unfold slice_to.
    destruct (Z.to_nat stop) as [|n] eqn:En; [lia|]. discriminate. }
  induction fuel as [|fuel IH]; intros stop Hs; cbn [strings.TrimSpace_stop].
  - now apply Hslice.
  - replace (0 <? stop) with true by lia.
    pose proof (byte_at_ascii (String c0 rest) (stop - 1) Ha) as Hlt.
    replace (utf8.RuneSelf <=? utf8.byte_at (String c0 rest) (stop - 1)) with false by lia.
    destruct (strings.asciiSpace (utf8.byte_at (String c0 rest) (stop - 1))) eqn:Es.
    + apply IH. destruct (Z.eq_dec stop 1) as [->|]; [|lia].
      change (utf8.byte_at (String c0 rest) (1 - 1)) with (byteZ c0) in Es. congruence.
    + now apply Hslice.
Qed.

Lemma TrimSpace_ascii_blank (s : string) :
  strings.isASCII s = true -> (strings.TrimSpace s = "" <-> blank s).
Proof.
  unfold strings.isASCII, blank.
  induction s as [|c s IH]; intros Ha.
  - split; [intros _ c []|reflexivity].
  - pose proof Ha as Ha'.
    cbn [bytes list_ascii_of_string forallb] in Ha. apply andb_true_iff in Ha as [Hc Hs].
    specialize (IH Hs).
    unfold strings.TrimSpace in *. cbn [strings.TrimSpace_start].
    replace (utf8.RuneSelf <=? byteZ c) with false by lia.
    destruct (strings.asciiSpace (byteZ c)) eqn:Ec.
    + rewrite IH. cbn [bytes list_ascii_of_string In]. fold (bytes s). split.
      * intros H c' [<-|Hin]; auto.
      * intros H c' Hin. apply H. now right.
    + split.
      * intros H. exfalso. revert H. apply TrimSpace_stop_nonempty; auto.
        rewrite len_String. pose proof (len_nonneg s). lia.
      * intros H. specialize (H c (or_introl eq_refl)). congruence.
Qed.

(** On passwords and names of ASCII characters [Validate] succeeds
    exactly on the accounts the specification calls valid. *)
Theorem Validate_ascii (u : user.User.t) :
  strings.isASCII (user.User.Password u) = true ->
  strings.isASCII (user.User.Name u) = true ->
  (user.Validate u = nil <-> valid_account u).
Proof.
  intros Ha Hn. unfold user.Validate, valid_account, email_shape, regexp.MatchString.
  rewrite containsUppercase_ascii, containsLowercase_ascii, containsNumber_ascii by assumption.
  rewrite <- matchb_spec, <- !existsb_bytes, <- (TrimSpace_ascii_blank _ Hn).
  destruct (regexp.matchb user.emailRegex (user.User.Email u)); cbn [negb];
    [|split; [discriminate | intros [H _]; discriminate]].
  destruct (len (user.User.Password u) <? 8) eqn:El;
    [split; [discriminate | intros (_ & H & _); lia]|].
  destruct (existsb is_upper (bytes (user.User.Password u))); cbn [negb orb];
    [|split; [discriminate | intros (_ & _ & H & _); discriminate]].
  destruct (existsb is_lower (bytes (user.User.Password u))); cbn [negb orb];
    [|split; [discriminate | intros (_ & _ & _ & H & _); discriminate]].
  destruct (existsb is_digit (bytes (user.User.Password u))); cbn [negb orb];
    [|split; [discriminate | intros (_ & _ & _ & _ & H & _); discriminate]].
  destruct (String.eqb_spec (strings.TrimSpace (user.User.Name u)) "") as [He|Hne].
  - split; [discriminate | intros (_ & _ & _ & _ & _ & H); contradiction].
  - split; [intros _; repeat split; auto; lia | reflexivity].
Qed.

(** The examples of the specification. *)
Example email_user_example_com : regexp.MatchString user.emailRegex "user@example.com" = true.
Proof. vm_compute. reflexivity. Qed.

Example email_foo_bar : regexp.MatchString user.emailRegex "foo@bar" = false.
Proof. vm_compute. reflexivity. Qed.

Example email_toolong : regexp.MatchString user.emailRegex "a@b.toolong" = false.
Proof. vm_compute. reflexivity. Qed.

Example Validate_scenario :
  user.Validate {| user.User.ID := ""; user.User.Email := "a@b.com";
                   user.User.Password := "Passw0rd"; user.User.Name := "Ada" |} = nil.
Proof. vm_compute. reflexivity. Qed.

(** C1: the password of [marked_account] is made of the runes P A S S W
    0 R D and the combining mark U+0345: it holds no lower-case letter.
    [Validate] accepts the account all the same, because upper-casing
    maps the mark to U+0399 and so changes the string, which is all that
    [containsLowercase] looks at. *)
Theorem Validate_accepts_no_lowercase_letter :
  runes (user.User.Password marked_account) = [80; 65; 83; 83; 87; 48; 82; 68; 0x0345]
  /\ unicode.ToUpper 0x0345 = 0x0399
  /\ strings.ToUpper (user.User.Password marked_account)
     = "PASSW0RD" +:+ utf8.EncodeRune 0x0399
  /\ user.containsLowercase (user.User.Password marked_account) = true
  /\ user.Validate marked_account = nil.
Proof. vm_compute. repeat split; reflexivity. Qed.

(** The same slip lets one letter count for two: seven digits and the
    single letter U+01C5 pass both case tests, since lower-casing and
    upper-casing both change that letter. *)
Example Validate_one_letter_account :
  runes (user.User.Password one_letter_account) = [49; 50; 51; 52; 53; 54; 55; 0x01C5]
  /\ unicode.ToLower 0x01C5 = 0x01C6
  /\ unicode.ToUpper 0x01C5 = 0x01C4
  /\ user.containsUppercase (user.User.Password one_letter_account) = true
  /\ user.containsLowercase (user.User.Password one_letter_account) = true
  /\ user.Validate one_letter_account = nil.
Proof. vm_compute. repeat split; reflexivity. Qed.

(** In the other direction a lower-case letter without an upper-case
    mapping is not seen: "PASSW0RD" followed by U+00DF (bytes C3 9F) is
    refused for its character classes. *)
Example Validate_sharp_s :
  user.Validate {| user.User.ID := ""; user.User.Email := "user@example.com";
                   user.User.Password := "PASSW0RD" +:+ String "195" (String "159" EmptyString);
                   user.User.Name := "Ada" |}
  = errors.New "password must contain at least one uppercase letter, one lowercase letter, and one number".
Proof. vm_compute. reflexivity. Qed.

(** ** Registration: the handler *)

(** Unfold the state-passing combinators. *)
Ltac step := cbn beta iota zeta delta [negb fst snd resp calls].
Ltac exec :=
  unfold run, call, bind, ret, return_, respond, record; unfold modify, start; step.

(** The parameters the handler hands to the provider for an account. *)
Lemma RegisterUser_result (fb : user.Firebase) (u : user.User.t) (s : HState user.Call) :
  fst (run (user.RegisterUser fb u) s) =
  match user.NewApp fb, user.Auth fb with
  | Some err, _ => ("", Some err)
  | None, Some err => ("", Some err)
  | None, None =>
      match user.CreateUser fb {| user.pEmail := user.User.Email u;
                                  user.pPassword := user.User.Password u;
                                  user.pDisplayName := user.User.Name u |} with
      | inl err => ("", Some err)
      | inr uid => (uid, nil)
      end
  end.
Proof.
  unfold user.RegisterUser. exec.
  destruct (user.NewApp fb); [reflexivity|].
  destruct (user.Auth fb); [reflexivity|].
  cbn. destruct (user.CreateUser fb _); reflexivity.
Qed.

(** C6: a request that passes validation is answered 201 with exactly the
    fields id, email and name when the provider creates the account: the
    id is the provider's (non-empty as the provider issues it), email and
    name are those of the request, and the password is not in the body.
    When account creation fails the answer is 500 with a fixed message. *)
Theorem UserRegistration_created_or_500
    (fb : user.Firebase) (r : http.Request user.User.t) (u : user.User.t) :
  http.Body r = inr u ->
  user.Validate u = nil ->
  (forall p id, user.CreateUser fb p = inr id -> id <> "") ->
  let w := resp (snd (run (user.UserRegistration fb r) start)) in
  match fst (run (user.RegisterUser fb u) start) with
  | (uid, None) =>
      http.StatusCode w = http.StatusCreated
      /\ http.body w = [http.JSON (json.Object [("id", json.String_ uid);
                                                ("email", json.String_ (user.User.Email u));
                                                ("name", json.String_ (user.User.Name u))])]
      /\ uid <> ""
  | (_, Some _) =>
      http.StatusCode w = http.StatusInternalServerError
      /\ http.body w = [http.Text ("Failed to register user" +:+ String "010" EmptyString)]
  end.
Proof.
  intros Hbody Hvalid Hprov. rewrite RegisterUser_result.
  unfold user.UserRegistration, user.RegisterUser. exec.
  rewrite Hbody, Hvalid. step.
  destruct (user.NewApp fb) as [e|]; [split; reflexivity|].
  destruct (user.Auth fb) as [e|]; [split; reflexivity|].
  step.
  destruct (user.CreateUser fb _) as [e|uid] eqn:Hc; [split; reflexivity|].
  repeat split. now apply (Hprov _ _ Hc).
Qed.

Lemma UserRegistration_created_or_500_witness :
  let fb := {| user.NewApp := None; user.Auth := None;
               user.CreateUser := fun _ => inr "uid-1" |} in
  let u := {| user.User.ID := ""; user.User.Email := "a@b.com";
              user.User.Password := "Passw0rd"; user.User.Name := "Ada" |} in
  let r := {| http.Method := "POST"; http.ReqHeader := ∅; http.Body := inr u |} in
  let w := resp (snd (run (user.UserRegistration fb r) start)) in
  http.StatusCode w = http.StatusCreated
  /\ http.body w = [http.JSON (json.Object [("id", json.String_ "uid-1");
                                            ("email", json.String_ "a@b.com");
                                            ("name", json.String_ "Ada")])]
  /\ "uid-1" <> "".
Proof.
  intros fb u r.
  apply (UserRegistration_created_or_500 fb r u).
  - reflexivity.
  - vm_compute. reflexivity.
  - intros p id H. injection H as <-. discriminate.
Defined.

(** ** Authentication *)

(** C5: when the sign-in endpoint answers with a status other than 200
    the handler answers 401; and an answer 200 is given only if the
    sign-in call succeeded and the token it returned was verified by the
    identity provider, and then it carries that very token. *)
Theorem UserAuthentication_sign_in_then_verify
    (W : userauthentication.World) (r : http.Request userauthentication.LoginRequest.t) :
  let s := snd (run (userauthentication.UserAuthentication W r) start) in
  (forall url body code read,
      In (userauthentication.CallPost url body (userauthentication.PostResponse code read))
         (calls s) ->
      code <> http.StatusOK ->
      http.StatusCode (resp s) = http.StatusUnauthorized)
  /\ (http.StatusCode (resp s) = http.StatusOK ->
      exists url body raw fr uid,
        In (userauthentication.CallPost url body
              (userauthentication.PostResponse http.StatusOK (inr raw))) (calls s)
        /\ userauthentication.Unmarshal W raw = inr fr
        /\ In (userauthentication.CallVerifyIDToken
                 (userauthentication.FirebaseSignInResponse.IDToken fr) (inr uid)) (calls s)
        /\ userauthentication.VerifyIDToken W
             (userauthentication.FirebaseSignInResponse.IDToken fr) = inr uid
        /\ http.body (resp s) =
           [http.JSON (json.Object
              [("idToken", json.String_ (userauthentication.FirebaseSignInResponse.IDToken fr));
               ("user", json.Object
                  [("id", json.String_ uid);
                   ("email", json.String_ (userauthentication.FirebaseSignInResponse.Email fr));
                   ("name", json.String_
                              (userauthentication.FirebaseSignInResponse.DisplayName fr))])])]).
Proof.
  unfold userauthentication.UserAuthentication, userauthentication.authenticateWithFirebase.
  exec.
  destruct (http.Body r) as [e|q]; step.
  { split; [intros ? ? ? ? []|discriminate]. }
  destruct (String.eqb (os.Getenv (userauthentication.environ W) "FIREBASE_API_KEY") "");
    step.
  { split; [intros ? ? ? ? []|discriminate]. }
  destruct (userauthentication.Post W _ _ _) as [e|code read] eqn:HP; step.
  { split; [intros ? ? ? ? [H|[]]; discriminate H|discriminate]. }
  destruct read as [e|raw]; step.
  { split; [reflexivity|discriminate]. }
  destruct (code =? http.StatusOK) eqn:Hcode; step.
  2:{ split; [reflexivity|discriminate]. }
  assert (code = http.StatusOK) as -> by lia.
  destruct (userauthentication.Unmarshal W raw) as [e|fr] eqn:HU; step.
  { split; [reflexivity|discriminate]. }
  destruct (userauthentication.NewApp W); step.
  { split; [|discriminate]. intros ? ? ? ? [H|[]] Hne. inversion H; subst. congruence. }
  destruct (userauthentication.Auth W); step.
  { split; [|discriminate]. intros ? ? ? ? [H|[]] Hne. inversion H; subst. congruence. }
  destruct (userauthentication.VerifyIDToken W _) as [e|uid] eqn:HV; step.
  { split; [reflexivity|discriminate]. }
  split.
  - intros ? ? ? ? [H|[H|[]]] Hne; [|discriminate H].
    inversion H; subst. congruence.
  - intros _. eexists _, _, raw, fr, uid. cbn.
    split; [left; reflexivity|]. split; [exact HU|].
    split; [right; left; reflexivity|]. split; [exact HV|reflexivity].
Qed.

Lemma UserAuthentication_sign_in_then_verify_witness :
  http.StatusCode (resp (snd (run (userauthentication.UserAuthentication
                                     sign_in_refused login_request) start)))
  = http.StatusUnauthorized
  /\ exists url body raw fr uid,
       In (userauthentication.CallPost url body
             (userauthentication.PostResponse http.StatusOK (inr raw)))
          (calls (snd (run (userauthentication.UserAuthentication
                              sign_in_accepted login_request) start)))
       /\ userauthentication.Unmarshal sign_in_accepted raw = inr fr
       /\ In (userauthentication.CallVerifyIDToken
                (userauthentication.FirebaseSignInResponse.IDToken fr) (inr uid))
             (calls (snd (run (userauthentication.UserAuthentication
                                 sign_in_accepted login_request) start)))
       /\ userauthentication.VerifyIDToken sign_in_accepted
            (userauthentication.FirebaseSignInResponse.IDToken fr) = inr uid
       /\ http.body (resp (snd (run (userauthentication.UserAuthentication
                                       sign_in_accepted login_request) start))) =
          [http.JSON (json.Object
             [("idToken", json.String_ (userauthentication.FirebaseSignInResponse.IDToken fr));
              ("user", json.Object
                 [("id", json.String_ uid);
                  ("email", json.String_ (userauthentication.FirebaseSignInResponse.Email fr));
                  ("name", json.String_
                             (userauthentication.FirebaseSignInResponse.DisplayName fr))])])].
Proof.
  split.
  - apply (proj1 (UserAuthentication_sign_in_then_verify sign_in_refused login_request)
                 (userauthentication.signInURL "k")
                 (json.Object [("email", json.String_ "a@b.com");
                               ("password", json.String_ "Passw0rd");
                               ("returnSecureToken", json.Bool true)])
                 400 (inr "INVALID_PASSWORD")).
    + vm_compute. left. reflexivity.
    + vm_compute. discriminate.
  - apply (proj2 (UserAuthentication_sign_in_then_verify sign_in_accepted login_request)).
    vm_compute. reflexivity.
Defined.

(** ** Profile management *)

Lemma extractToken_no_bearer (r : http.Request userprofilemanagement.UserProfileUpdate.t) :
  no_bearer r -> userprofilemanagement.extractToken r = "".
Proof.
  unfold no_bearer, authorization, userprofilemanagement.extractToken, http.Header_Get.
  intros [H | [H | (v & vs & H & Hv)]]; rewrite H; try reflexivity.
  destruct (strings.HasPrefix v "Bearer ") eqn:E.
  - apply HasPrefix_spec in E. contradiction.
  - now rewrite andb_false_r.
Qed.

(** The handler up to the method dispatch. *)
Lemma profile_unauthorized (W : userprofilemanagement.World)
    (r : http.Request userprofilemanagement.UserProfileUpdate.t) :
  client_ready W -> missing_or_invalid_token W r ->
  profile_status W r = http.StatusUnauthorized
  /\ (forall c, In c (profile_calls W r) -> exists t res, c = userprofilemanagement.CallVerify t res).
Proof.
  intros [Happ Hauth] Htok. unfold profile_status, profile_calls.
  unfold userprofilemanagement.UserProfileManagement. exec.
  rewrite Happ, Hauth. step.
  destruct (String.eqb (userprofilemanagement.extractToken r) "") eqn:E; step.
  - split; [reflexivity | intros c []].
  - destruct Htok as [Htok | [err Htok]].
    + rewrite Htok in E. discriminate.
    + rewrite Htok. step. split; [reflexivity|].
      intros c [<- | []]. eauto.
Qed.

(** C4 fails as stated: without any header the answer is 500, not 401,
    when the Firebase app cannot be initialised. *)
Lemma profile_no_bearer_not_always_401 :
  no_bearer get_without_header
  /\ profile_status provider_down get_without_header = http.StatusInternalServerError
  /\ ~ (forall W r, http.Method r = http.MethodGet \/ http.Method r = http.MethodPut ->
                    no_bearer r -> profile_status W r = http.StatusUnauthorized).
Proof.
  assert (Hno : no_bearer get_without_header) by (left; reflexivity).
  assert (Hst : profile_status provider_down get_without_header
                = http.StatusInternalServerError) by (vm_compute; reflexivity).
  repeat split; auto.
  intros H. specialize (H provider_down get_without_header (or_introl eq_refl) Hno).
  rewrite Hst in H. discriminate.
Qed.

(** C4, amended: once the Firebase app and the Auth client are set up, a
    request whose forwarded-authorization header is absent or does not
    start with "Bearer " is answered 401, whatever its method and its
    other headers; its token is the empty one, and the provider is not
    asked to verify anything. *)
Theorem profile_no_bearer_401 (W : userprofilemanagement.World)
    (r : http.Request userprofilemanagement.UserProfileUpdate.t) :
  client_ready W -> no_bearer r ->
  profile_status W r = http.StatusUnauthorized
  /\ userprofilemanagement.extractToken r = ""
  /\ profile_calls W r = [].
Proof.
  intros [Happ Hauth] Hno. pose proof (extractToken_no_bearer r Hno) as Htok.
  unfold profile_status, profile_calls, userprofilemanagement.UserProfileManagement. exec.
  rewrite Happ, Hauth, Htok. step. repeat split; reflexivity.
Qed.

Lemma profile_no_bearer_401_witness :
  profile_status provider_refusing get_without_header = http.StatusUnauthorized
  /\ userprofilemanagement.extractToken get_without_header = ""
  /\ profile_calls provider_refusing get_without_header = [].
Proof.
  apply (profile_no_bearer_401 provider_refusing get_without_header).
  - split; reflexivity.
  - left. reflexivity.
Defined.

(** C9 fails as stated: a DELETE with a token the provider would refuse
    is answered 500, not 401, when the Auth client cannot be obtained. *)
Lemma profile_invalid_token_not_always_401 :
  missing_or_invalid_token auth_client_down delete_with_token
  /\ profile_status auth_client_down delete_with_token = http.StatusInternalServerError
  /\ ~ (forall W r, missing_or_invalid_token W r ->
                    profile_status W r = http.StatusUnauthorized).
Proof.
  assert (Hbad : missing_or_invalid_token auth_client_down delete_with_token)
    by (right; exists "invalid"; reflexivity).
  assert (Hst : profile_status auth_client_down delete_with_token
                = http.StatusInternalServerError) by (vm_compute; reflexivity).
  repeat split; auto.
  intros H. specialize (H auth_client_down delete_with_token Hbad).
  rewrite Hst in H. discriminate.
Qed.

(** C9, amended: the token is verified before the method is looked at.
    Once the Firebase app and the Auth client are set up, every request
    with a missing or refused token is answered 401, whatever its method,
    and no user record is read or updated; and in every case an answer
    405 means that the request carried a token that the provider
    verified, with a method other than GET and PUT. *)
Theorem profile_verify_before_dispatch (W : userprofilemanagement.World)
    (r : http.Request userprofilemanagement.UserProfileUpdate.t) :
  (client_ready W -> missing_or_invalid_token W r ->
   profile_status W r = http.StatusUnauthorized
   /\ forall c, In c (profile_calls W r) ->
                exists t res, c = userprofilemanagement.CallVerify t res)
  /\ (profile_status W r = http.StatusMethodNotAllowed ->
      userprofilemanagement.extractToken r <> ""
      /\ (exists uid, userprofilemanagement.VerifyIDTokenAndCheckRevoked W
                        (userprofilemanagement.extractToken r) = inr uid)
      /\ http.Method r <> http.MethodGet /\ http.Method r <> http.MethodPut).
Proof.
  split; [apply profile_unauthorized|].
  unfold profile_status, userprofilemanagement.UserProfileManagement,
    userprofilemanagement.handleGetProfile, userprofilemanagement.handleUpdateProfile.
  exec.
  destruct (userprofilemanagement.NewApp W); step; [discriminate|].
  destruct (userprofilemanagement.Auth W); step; [discriminate|].
  destruct (String.eqb_spec (userprofilemanagement.extractToken r) "") as [E|E]; step;
    [discriminate|].
  destruct (userprofilemanagement.VerifyIDTokenAndCheckRevoked W _) as [e|uid] eqn:HV; step;
    [discriminate|].
  destruct (String.eqb_spec (http.Method r) http.MethodGet) as [Hg|Hg]; step.
  { destruct (userprofilemanagement.GetUser W uid); step; discriminate. }
  destruct (String.eqb_spec (http.Method r) http.MethodPut) as [Hp|Hp]; step.
  { destruct (http.Body r); step; [discriminate|].
    destruct (userprofilemanagement.UpdateUser W uid _); step; discriminate. }
  intros _. repeat split; eauto.
Qed.

Lemma profile_verify_before_dispatch_witness :
  (profile_status provider_refusing delete_with_token = http.StatusUnauthorized
   /\ forall c, In c (profile_calls provider_refusing delete_with_token) ->
                exists t res, c = userprofilemanagement.CallVerify t res)
  /\ (userprofilemanagement.extractToken delete_with_token <> ""
      /\ (exists uid, userprofilemanagement.VerifyIDTokenAndCheckRevoked provider_accepting
                        (userprofilemanagement.extractToken delete_with_token) = inr uid)
      /\ http.Method delete_with_token <> http.MethodGet
      /\ http.Method delete_with_token <> http.MethodPut).
Proof.
  split.
  - apply (proj1 (profile_verify_before_dispatch provider_refusing delete_with_token)).
    + split; reflexivity.
    + right. exists "invalid". reflexivity.
  - apply (proj2 (profile_verify_before_dispatch provider_accepting delete_with_token)).
    vm_compute. reflexivity.
Defined.

(** ** Media upload *)

Lemma getFileType_classify (filename : string) :
  mediaupload.getFileType filename
  = default "" (classify (strings.ToLower (filepath.Ext filename))).
Proof.
  unfold mediaupload.getFileType, classify, allow_list.
  generalize (strings.ToLower (filepath.Ext filename)). intros ext.
  cbn [find fst].
  repeat match goal with
         | |- context [String.eqb ext ?k] =>
             destruct (String.eqb ext k); cbn [orb default]; try reflexivity
         end.
Qed.

Lemma classify_types (ext ty : string) :
  classify ext = Some ty -> ty = "audio" \/ ty = "video" \/ ty = "image".
Proof.
  unfold classify, allow_list. cbn [find fst].
  repeat match goal with
         | |- context [String.eqb ext ?k] => destruct (String.eqb ext k)
         end;
    cbn beta iota; intros H; try discriminate H; injection H as <-; auto.
Qed.

Lemma classify_nonempty (ext ty : string) : classify ext = Some ty -> ty <> "".
Proof. intros H. destruct (classify_types _ _ H) as [-> | [-> | ->]]; discriminate. Qed.

(** C3 fails as stated: the extension of "clip.MP4" is not in the
    allow-list, yet the upload is not refused: it is stored as a video. *)
Lemma upload_extension_case_insensitive :
  uploaded (upload_of "clip.MP4" 1000)
    {| mediaupload.Filename := "clip.MP4"; mediaupload.Size := 1000;
       mediaupload.tmpfile := false |}
  /\ ~ In (filepath.Ext "clip.MP4") (map fst allow_list)
  /\ upload_status store_ok (upload_of "clip.MP4" 1000) = http.StatusOK
  /\ ~ (forall W r header, uploaded r header ->
          (upload_status W r = http.StatusBadRequest
           <-> ~ In (filepath.Ext (mediaupload.Filename header)) (map fst allow_list))).
Proof.
  assert (Hup : uploaded (upload_of "clip.MP4" 1000)
                  {| mediaupload.Filename := "clip.MP4"; mediaupload.Size := 1000;
                     mediaupload.tmpfile := false |}).
  { eexists. split; vm_compute; reflexivity. }
  assert (Hext : ~ In (filepath.Ext "clip.MP4") (map fst allow_list)).
  { vm_compute. intuition discriminate. }
  assert (Hst : upload_status store_ok (upload_of "clip.MP4" 1000) = http.StatusOK)
    by (vm_compute; reflexivity).
  repeat split; auto.
  intros H. apply (H store_ok _ _ Hup) in Hext. rewrite Hst in Hext. discriminate.
Qed.

(** C3, amended: for an uploaded file the handler answers 400 exactly
    when the lower-cased extension of its name is not in the allow-list.
    Otherwise the name has exactly one type among audio, video and image,
    and unless the storage client cannot be created (500, nothing stored)
    the file is written under the key <type>/<original-filename> of the
    media bucket, and under no other key. *)
Theorem MediaUpload_allow_list (W : mediaupload.World)
    (r : http.Request (list mediaupload.Part)) (header : mediaupload.FileHeader) :
  uploaded r header ->
  let ext := strings.ToLower (filepath.Ext (mediaupload.Filename header)) in
  (upload_status W r = http.StatusBadRequest <-> classify ext = None)
  /\ (forall ty, classify ext = Some ty ->
        mediaupload.getFileType (mediaupload.Filename header) = ty
        /\ (ty = "audio" \/ ty = "video" \/ ty = "image")
        /\ match mediaupload.NewClient W with
           | Some _ => upload_status W r = http.StatusInternalServerError
                       /\ upload_calls W r = []
           | None =>
               let key := ty +:+ "/" +:+ mediaupload.Filename header in
               exists rest,
                 upload_calls W r
                 = mediaupload.CallNewWriter mediaupload.bucketName key
                   :: mediaupload.CallCopy mediaupload.bucketName key header :: rest
                 /\ (rest = [] \/ rest = [mediaupload.CallClose mediaupload.bucketName key])
           end).
Proof.
  intros (form & Hparse & Hfile) ext.
  unfold upload_status, upload_calls, mediaupload.MediaUpload. exec.
  rewrite Hparse. step. rewrite Hfile. step.
  rewrite getFileType_classify. fold ext.
  destruct (classify ext) as [ty|] eqn:Hc; cbn [default from_option id].
  - pose proof (classify_nonempty _ _ Hc) as Hne.
    destruct (String.eqb_spec ty "") as [E|_]; [contradiction|]. step.
    split.
    + split; [|discriminate]. 
      destruct (mediaupload.NewClient W); step; [discriminate|].
      destruct (mediaupload.Copy W _ _ _); step; [discriminate|].
      destruct (mediaupload.Close W _ _); step; discriminate.
    + intros ty' H. injection H as <-.
      split; [reflexivity|]. split; [now apply classify_types with ext|].
      destruct (mediaupload.NewClient W); step; [split; reflexivity|].
      destruct (mediaupload.Copy W _ _ _); step; [eexists; split; [reflexivity|now left]|].
      destruct (mediaupload.Close W _ _); step; eexists; split; try reflexivity; now right.
  - change (String.eqb "" "") with true. step.
    split; [split; reflexivity | discriminate].
Qed.

Lemma MediaUpload_allow_list_witness :
  let header := {| mediaupload.Filename := "clip.mp4"; mediaupload.Size := 1000;
                   mediaupload.tmpfile := false |} in
  let r := upload_of "clip.mp4" 1000 in
  (upload_status store_ok r = http.StatusBadRequest <-> classify ".mp4" = None)
  /\ (forall ty, classify ".mp4" = Some ty ->
        mediaupload.getFileType "clip.mp4" = ty
        /\ (ty = "audio" \/ ty = "video" \/ ty = "image")
        /\ exists rest,
             upload_calls store_ok r
             = mediaupload.CallNewWriter mediaupload.bucketName (ty +:+ "/" +:+ "clip.mp4")
               :: mediaupload.CallCopy mediaupload.bucketName (ty +:+ "/" +:+ "clip.mp4") header
               :: rest
             /\ (rest = []
                 \/ rest = [mediaupload.CallClose mediaupload.bucketName
                              (ty +:+ "/" +:+ "clip.mp4")])).
Proof.
  intros header r.
  apply (MediaUpload_allow_list store_ok r header).
  eexists. split; vm_compute; reflexivity.
Defined.

(** The scenarios of the specification. *)
Example getFileType_clip_mp4 : mediaupload.getFileType "clip.mp4" = "video".
Proof. vm_compute. reflexivity. Qed.

Example getFileType_song_mp3 : mediaupload.getFileType "song.mp3" = "audio".
Proof. vm_compute. reflexivity. Qed.

Example upload_x_pdf : upload_status store_ok (upload_of "x.pdf" 1000) = http.StatusBadRequest.
Proof. vm_compute. reflexivity. Qed.

Example upload_clip_mp4 :
  upload_calls store_ok (upload_of "clip.mp4" 1000)
  = [mediaupload.CallNewWriter "synapscribe-media" "video/clip.mp4";
     mediaupload.CallCopy "synapscribe-media" "video/clip.mp4"
       {| mediaupload.Filename := "clip.mp4"; mediaupload.Size := 1000;
          mediaupload.tmpfile := false |};
     mediaupload.CallClose "synapscribe-media" "video/clip.mp4"].
Proof. vm_compute. reflexivity. Qed.

(** The size of the file plays no part in the answer: [maxFileSize] only
    decides whether the content is kept in memory or in a temporary file. *)
Lemma upload_status_any_size (W : mediaupload.World) (name : string) (n m : Z) :
  (forall b o f g, mediaupload.Copy W b o f = mediaupload.Copy W b o g) ->
  upload_status W (upload_of name n) = upload_status W (upload_of name m).
Proof.
  intros Hcopy. unfold upload_status, mediaupload.MediaUpload, upload_of. exec.
  unfold mediaupload.ParseMultipartForm, mediaupload.ReadForm. cbn [http.Body].
  cbn [mediaupload.FormName mediaupload.PartFileName mediaupload.PartSize].
  change (String.eqb "file" "") with false. cbn [orb].
  destruct (String.eqb name ""); step.
  { reflexivity. }
  unfold mediaupload.FormFile. rewrite !lookup_insert_eq. rewrite lookup_empty.
  cbn [default app]. step. cbn [mediaupload.Filename].
  destruct (String.eqb (mediaupload.getFileType name) ""); step; [reflexivity|].
  destruct (mediaupload.NewClient W); step; [reflexivity|].
  rewrite (Hcopy _ _ _ {| mediaupload.Filename := name; mediaupload.Size := m;
                          mediaupload.tmpfile := mediaupload.maxFileSize <? m |}).
  destruct (mediaupload.Copy W _ _ _); step; [reflexivity|].
  destruct (mediaupload.Close W _ _); reflexivity.
Qed.

(** C8: a file of one byte more than [maxFileSize] is parsed into the
    form (on disk), passes the handler and is stored: the answer is 200
    and the whole file is copied to the bucket. *)
Theorem MediaUpload_stores_file_over_maxFileSize :
  let size := mediaupload.maxFileSize + 1 in
  let header := {| mediaupload.Filename := "big.mp4"; mediaupload.Size := size;
                   mediaupload.tmpfile := true |} in
  mediaupload.maxFileSize = 52428800
  /\ uploaded (upload_of "big.mp4" size) header
  /\ upload_status store_ok (upload_of "big.mp4" size) = http.StatusOK
  /\ upload_calls store_ok (upload_of "big.mp4" size)
     = [mediaupload.CallNewWriter "synapscribe-media" "video/big.mp4";
        mediaupload.CallCopy "synapscribe-media" "video/big.mp4" header;
        mediaupload.CallClose "synapscribe-media" "video/big.mp4"].
Proof.
  intros size header. split; [reflexivity|]. split.
  - eexists. split; vm_compute; reflexivity.
  - split; vm_compute; reflexivity.
Qed.

(** ** Audio transcription *)

Ltac texec :=
  unfold run, call, bind, ret, return_, modify;
  cbn beta iota zeta delta [fst snd].

(** What [transcribeAudio] does: it returns without touching the
    destination bucket. *)
Lemma transcribeAudio_no_destination_call (W : audiotranscription.World)
    (url : string) (t : list audiotranscription.Call) :
  destination_calls (snd (run (audiotranscription.transcribeAudio W url) t))
  = destination_calls t.
Proof.
  unfold audiotranscription.transcribeAudio, destination_calls.
  destruct (audiotranscription.parseGCSURL url) as [[bucket object] [e|]]; texec;
    [reflexivity|].
  destruct (audiotranscription.storage_NewClient W true); texec; [reflexivity|].
  destruct (audiotranscription.NewReader W bucket object) as [e|reader]; texec.
  { rewrite filter_app. cbn. apply app_nil_r. }
  destruct (audiotranscription.UploadFile W reader) as [e|uri]; texec.
  { rewrite !filter_app. cbn. now rewrite !app_nil_r. }
  assert (Hf : filter is_destination_call
                 (((t ++ [audiotranscription.CallNewReader bucket object])
                     ++ [audiotranscription.CallUploadFile reader])
                    ++ [audiotranscription.CallGenerateContent uri audiotranscription.prompt])
               = filter is_destination_call t).
  { rewrite !filter_app. cbn. now rewrite !app_nil_r. }
  destruct (audiotranscription.GenerateContent W uri audiotranscription.prompt) as [e|res];
    texec; [exact Hf|].
  destruct (genai.Candidates res) as [|c cs]; texec; [exact Hf|].
  destruct (genai.Content_ c) as [content|]; texec; [|exact Hf].
  destruct (genai.Parts content); texec; exact Hf.
Qed.

(** An empty answer of the model makes [transcribeAudio] return an error. *)
Lemma transcribeAudio_empty_response (W : audiotranscription.World)
    (url : string) (t : list audiotranscription.Call) :
  (forall uri p res, audiotranscription.GenerateContent W uri p = inr res ->
                     empty_response res) ->
  exists err, fst (run (audiotranscription.transcribeAudio W url) t) = Returned ("", Some err).
Proof.
  intros Hempty. unfold audiotranscription.transcribeAudio.
  destruct (audiotranscription.parseGCSURL url) as [[bucket object] [e|]]; texec;
    [eauto|].
  destruct (audiotranscription.storage_NewClient W true); texec; [eauto|].
  destruct (audiotranscription.NewReader W bucket object) as [e|reader]; texec; [eauto|].
  destruct (audiotranscription.UploadFile W reader) as [e|uri]; texec; [eauto|].
  destruct (audiotranscription.GenerateContent W uri audiotranscription.prompt)
    as [e|res] eqn:HG; texec; [eauto|].
  destruct (Hempty _ _ _ HG) as [Hc | (c & cs & content & Hc & Hct & Hp)]; rewrite Hc; texec.
  - eauto.
  - rewrite Hct. texec. rewrite Hp. eauto.
Qed.

(** The handler, split at the call of [transcribeAudio]. *)
Lemma AudioTranscription_unfold (W : audiotranscription.World) (e : audiotranscription.Event) :
  run (audiotranscription.AudioTranscription W e) [] =
  match audiotranscription.DataAs e with
  | inl err => (Returned (Some ("event.DataAs: " +:+ err)), [])
  | inr data =>
      match audiotranscription.genai_NewClient W
              (os.Getenv (audiotranscription.environ W) "GEMINI_API_KEY") with
      | Some err => (Returned (Some ("failed to create Gemini client: " +:+ err)), [])
      | None =>
          let '(res, t) := run (audiotranscription.transcribeAudio W (gcsURL_of data)) [] in
          match res with
          | Panicked msg => (Panicked msg, t)
          | Returned (_, Some err) =>
              (Returned (Some ("failed to transcribe audio: " +:+ err)), t)
          | Returned (transcription, None) =>
              match audiotranscription.storage_NewClient W false with
              | Some err => (Returned (Some ("failed to create GCS client: " +:+ err)), t)
              | None =>
                  let b := destination_bucket W in
                  let o := destination_object data in
                  let t := (t ++ [audiotranscription.CallNewWriter b o])
                             ++ [audiotranscription.CallWrite b o transcription] in
                  match audiotranscription.Write W b o transcription with
                  | Some err =>
                      (Returned (Some ("failed to write transcription to GCS: " +:+ err)),
                       t ++ [audiotranscription.CallWriterClose b o])
                  | None => (Returned None, t ++ [audiotranscription.CallWriterClose b o])
                  end
              end
          end
      end
  end.
Proof.
  unfold audiotranscription.AudioTranscription, gcsURL_of, destination_bucket,
    destination_object.
  destruct (audiotranscription.DataAs e) as [err|data]; texec; [reflexivity|].
  destruct (audiotranscription.genai_NewClient W _); texec; [reflexivity|].
  unfold run.
  destruct (audiotranscription.transcribeAudio W _ []) as [[res|res] t];
    cbn beta iota zeta;
    (destruct res as [[tr [err|]]|msg]; cbn beta iota zeta; [reflexivity| |reflexivity];
     destruct (audiotranscription.storage_NewClient W false); cbn beta iota zeta;
     [reflexivity|];
     destruct (audiotranscription.Write W _ _ tr); reflexivity).
Qed.

(** C2: when the model answers with no candidates or no content parts,
    the handler returns a non-nil error and makes no call on the
    destination bucket. *)
Theorem AudioTranscription_empty_response (W : audiotranscription.World)
    (e : audiotranscription.Event) :
  (forall uri p res, audiotranscription.GenerateContent W uri p = inr res ->
                     empty_response res) ->
  (exists err, fst (run (audiotranscription.AudioTranscription W e) []) = Returned (Some err))
  /\ destination_calls (snd (run (audiotranscription.AudioTranscription W e) [])) = [].
Proof.
  intros Hempty. rewrite AudioTranscription_unfold.
  destruct (audiotranscription.DataAs e) as [err|data]; [split; eauto|].
  destruct (audiotranscription.genai_NewClient W _); [split; eauto|].
  pose proof (transcribeAudio_empty_response W (gcsURL_of data) [] Hempty) as [err Herr].
  pose proof (transcribeAudio_no_destination_call W (gcsURL_of data) []) as Hno.
  destruct (run (audiotranscription.transcribeAudio W (gcsURL_of data)) []) as [res t].
  cbn [fst snd] in Herr, Hno. subst res. cbn beta iota. split; eauto.
Qed.

Lemma AudioTranscription_empty_response_witness :
  (exists err, fst (run (audiotranscription.AudioTranscription
                           (world_answering no_candidates) interview_event) [])
               = Returned (Some err))
  /\ destination_calls (snd (run (audiotranscription.AudioTranscription
                                    (world_answering no_candidates) interview_event) [])) = [].
Proof.
  apply (AudioTranscription_empty_response (world_answering no_candidates) interview_event).
  intros uri p res H. injection H as <-. left. reflexivity.
Defined.

(** X24: whenever [transcribeAudio] does not return a text,
    whatever the reason (an error or a panic), the destination bucket is
    not touched. *)
Lemma AudioTranscription_no_destination_call_unless_transcribed
    (W : audiotranscription.World) (e : audiotranscription.Event) :
  (forall data text,
      audiotranscription.DataAs e = inr data ->
      fst (run (audiotranscription.transcribeAudio W (gcsURL_of data)) [])
      <> Returned (text, None)) ->
  destination_calls (snd (run (audiotranscription.AudioTranscription W e) [])) = [].
Proof.
  intros Hfail. rewrite AudioTranscription_unfold.
  destruct (audiotranscription.DataAs e) as [err|data]; [reflexivity|].
  destruct (audiotranscription.genai_NewClient W _); [reflexivity|].
  specialize (Hfail data).
  pose proof (transcribeAudio_no_destination_call W (gcsURL_of data) []) as Hno.
  destruct (run (audiotranscription.transcribeAudio W (gcsURL_of data)) []) as [res t].
  cbn [fst snd] in Hfail, Hno.
  destruct res as [[tr [err|]]|msg]; cbn beta iota; try exact Hno.
  exfalso. now apply (Hfail tr).
Qed.

(** C7: when the handler succeeds for an object named N, the text that
    [transcribeAudio] returned is written once, to the object
    transcription-N.txt of the bucket named by TRANSCRIPTION_BUCKET, and
    no other object of the destination is touched.  In every run, failed
    or not, the destination calls are none or those of that one object. *)
Theorem AudioTranscription_writes_one_object (W : audiotranscription.World)
    (e : audiotranscription.Event) :
  let out := run (audiotranscription.AudioTranscription W e) [] in
  (fst out = Returned None ->
   exists data text,
     audiotranscription.DataAs e = inr data
     /\ fst (run (audiotranscription.transcribeAudio W (gcsURL_of data)) [])
        = Returned (text, None)
     /\ destination_calls (snd out)
        = [audiotranscription.CallNewWriter (destination_bucket W) (destination_object data);
           audiotranscription.CallWrite (destination_bucket W) (destination_object data) text;
           audiotranscription.CallWriterClose (destination_bucket W) (destination_object data)])
  /\ (destination_calls (snd out) = []
      \/ exists data text,
           audiotranscription.DataAs e = inr data
           /\ destination_calls (snd out)
              = [audiotranscription.CallNewWriter (destination_bucket W) (destination_object data);
                 audiotranscription.CallWrite (destination_bucket W) (destination_object data) text;
                 audiotranscription.CallWriterClose (destination_bucket W)
                   (destination_object data)]).
Proof.
  cbv zeta. rewrite AudioTranscription_unfold.
  destruct (audiotranscription.DataAs e) as [err|data];
    [split; [discriminate | now left]|].
  destruct (audiotranscription.genai_NewClient W _);
    [split; [discriminate | now left]|].
  pose proof (transcribeAudio_no_destination_call W (gcsURL_of data) []) as Hno.
  destruct (run (audiotranscription.transcribeAudio W (gcsURL_of data)) [])
    as [res t] eqn:Hrun.
  cbn [fst snd] in Hno |- *. change (destination_calls []) with (@Datatypes.nil audiotranscription.Call) in Hno.
  destruct res as [[tr [err|]]|msg]; cbn beta iota zeta;
    try (split; [discriminate | now left]).
  destruct (audiotranscription.storage_NewClient W false);
    [split; [discriminate | now left]|].
  assert (Hd : destination_calls
                 (((t ++ [audiotranscription.CallNewWriter (destination_bucket W)
                            (destination_object data)])
                     ++ [audiotranscription.CallWrite (destination_bucket W)
                           (destination_object data) tr])
                    ++ [audiotranscription.CallWriterClose (destination_bucket W)
                          (destination_object data)])
               = [audiotranscription.CallNewWriter (destination_bucket W) (destination_object data);
                  audiotranscription.CallWrite (destination_bucket W) (destination_object data) tr;
                  audiotranscription.CallWriterClose (destination_bucket W)
                    (destination_object data)]).
  { unfold destination_calls in *. rewrite !filter_app, Hno. reflexivity. }
  destruct (audiotranscription.Write W _ _ tr); cbn [fst snd].
  - split; [discriminate|]. right. exists data, tr. auto.
  - split; [intros _; exists data, tr; rewrite Hrun; auto | right; exists data, tr; auto].
Qed.

Lemma AudioTranscription_writes_one_object_witness :
  exists data text,
    audiotranscription.DataAs interview_event = inr data
    /\ fst (run (audiotranscription.transcribeAudio (world_answering (one_text "hello"))
                   (gcsURL_of data)) []) = Returned (text, None)
    /\ destination_calls (snd (run (audiotranscription.AudioTranscription
                                      (world_answering (one_text "hello")) interview_event) []))
       = [audiotranscription.CallNewWriter (destination_bucket (world_answering (one_text "hello")))
            (destination_object data);
          audiotranscription.CallWrite (destination_bucket (world_answering (one_text "hello")))
            (destination_object data) text;
          audiotranscription.CallWriterClose
            (destination_bucket (world_answering (one_text "hello"))) (destination_object data)].
Proof.
  apply (proj1 (AudioTranscription_writes_one_object
                  (world_answering (one_text "hello")) interview_event)).
  vm_compute. reflexivity.
Defined.

(** A first candidate whose [Content] is nil is not caught by the test
    for an empty answer: reading its parts panics.  The destination bucket
    is not touched either. *)
Example interview_nil_content :
  run (audiotranscription.AudioTranscription
         (world_answering {| genai.Candidates := [{| genai.Content_ := None |}] |})
         interview_event) []
  = (Panicked "invalid memory address or nil pointer dereference",
     [audiotranscription.CallNewReader "b" "interview.mp3";
      audiotranscription.CallUploadFile "reader";
      audiotranscription.CallGenerateContent "files/1" audiotranscription.prompt]).
Proof. vm_compute. reflexivity. Qed.

(** The scenario of the specification, and a successful run. *)
Example interview_empty_response :
  run (audiotranscription.AudioTranscription (world_answering no_candidates) interview_event) []
  = (Returned (Some "failed to transcribe audio: empty response from model"),
     [audiotranscription.CallNewReader "b" "interview.mp3";
      audiotranscription.CallUploadFile "reader";
      audiotranscription.CallGenerateContent "files/1" audiotranscription.prompt]).
Proof. vm_compute. reflexivity. Qed.

Example interview_transcribed :
  destination_calls
    (snd (run (audiotranscription.AudioTranscription (world_answering (one_text "hello"))
                 interview_event) []))
  = [audiotranscription.CallNewWriter "transcripts" "transcription-interview.mp3.txt";
     audiotranscription.CallWrite "transcripts" "transcription-interview.mp3.txt" "hello";
     audiotranscription.CallWriterClose "transcripts" "transcription-interview.mp3.txt"].
Proof. vm_compute. reflexivity. Qed.

(** * Further properties of the handlers *)

Lemma lor_ge_l (a b : Z) : 0 <= b -> a <= Z.lor a b.
Proof.
  intros Hb.
  assert (H1 : Z.lor a (Z.ldiff b a) = Z.lor a b).
  { apply Z.bits_inj'. intros n Hn. rewrite !Z.lor_spec, Z.ldiff_spec.
    destruct (Z.testbit a n), (Z.testbit b n); reflexivity. }
  assert (H2 : Z.land a (Z.ldiff b a) = 0).
  { apply Z.bits_inj'. intros n Hn. rewrite Z.land_spec, Z.ldiff_spec, Z.bits_0.
    destruct (Z.testbit a n), (Z.testbit b n); reflexivity. }
  rewrite <- H1, <- (Z.add_nocarry_lor _ _ H2).
  assert (0 <= Z.ldiff b a) by (apply Z.ldiff_nonneg; now left). lia.
Qed.

Lemma lor_ge_r (a b : Z) : 0 <= a -> b <= Z.lor a b.
Proof. intros. rewrite Z.lor_comm. now apply lor_ge_l. Qed.

Lemma land_mask_nonneg (a m : Z) : 0 <= m -> 0 <= Z.land a m.
Proof. intros. apply Z.land_nonneg. now right. Qed.

Lemma land_31 (a : Z) : Z.land a 31 = a mod 32.
Proof. exact (Z.land_ones a 5 ltac:(lia)). Qed.
Lemma land_15 (a : Z) : Z.land a 15 = a mod 16.
Proof. exact (Z.land_ones a 4 ltac:(lia)). Qed.
Lemma land_7 (a : Z) : Z.land a 7 = a mod 8.
Proof. exact (Z.land_ones a 3 ltac:(lia)). Qed.
Lemma land_63 (a : Z) : Z.land a 63 = a mod 64.
Proof. exact (Z.land_ones a 6 ltac:(lia)). Qed.

Lemma rune2_ge (A B : Z) : 2 <= A -> 0 <= B -> 128 <= Z.lor (A * 2 ^ 6) B.
Proof. intros. pose proof (lor_ge_l (A * 2 ^ 6) B). lia. Qed.

Lemma rune3_ge (A B C : Z) :
  0 <= A -> 0 <= B -> 0 <= C -> 1 <= A \/ 32 <= B ->
  128 <= Z.lor (Z.lor (A * 2 ^ 12) (B * 2 ^ 6)) C.
Proof.
  intros. pose proof (lor_ge_l (Z.lor (A * 2 ^ 12) (B * 2 ^ 6)) C).
  pose proof (lor_ge_l (A * 2 ^ 12) (B * 2 ^ 6)).
  pose proof (lor_ge_r (A * 2 ^ 12) (B * 2 ^ 6)). lia.
Qed.

Lemma rune4_ge (A B C D : Z) :
  0 <= A -> 0 <= B -> 0 <= C -> 0 <= D -> 1 <= A \/ 16 <= B ->
  128 <= Z.lor (Z.lor (Z.lor (A * 2 ^ 18) (B * 2 ^ 12)) (C * 2 ^ 6)) D.
Proof.
  intros.
  pose proof (lor_ge_l (Z.lor (Z.lor (A * 2 ^ 18) (B * 2 ^ 12)) (C * 2 ^ 6)) D).
  pose proof (lor_ge_l (Z.lor (A * 2 ^ 18) (B * 2 ^ 12)) (C * 2 ^ 6)).
  pose proof (lor_ge_l (A * 2 ^ 18) (B * 2 ^ 12)).
  pose proof (lor_ge_r (A * 2 ^ 18) (B * 2 ^ 12)). lia.
Qed.

Lemma first_cases (b : Z) :
  128 <= b < 256 ->
  utf8.first b = utf8.xx
  \/ (utf8.first b = 0x02 /\ 0xC2 <= b <= 0xDF)
  \/ (utf8.first b = 0x13 /\ b = 0xE0)
  \/ (utf8.first b = 0x03 /\ 0xE1 <= b <= 0xEF /\ b <> 0xED)
  \/ (utf8.first b = 0x23 /\ b = 0xED)
  \/ (utf8.first b = 0x34 /\ b = 0xF0)
  \/ (utf8.first b = 0x04 /\ 0xF1 <= b <= 0xF3)
  \/ (utf8.first b = 0x44 /\ b = 0xF4).
Proof.
  intros Hb. unfold utf8.first.
  repeat match goal with
         | |- context [if ?c then _ else _] => destruct c eqn:?
         end; try lia.
  all: first [ left; reflexivity
             | right; left; split; [reflexivity|lia]
             | right; right; left; split; [reflexivity|lia]
             | right; right; right; left; split; [reflexivity|lia]
             | right; right; right; right; left; split; [reflexivity|lia]
             | right; right; right; right; right; left; split; [reflexivity|lia]
             | right; right; right; right; right; right; left; split; [reflexivity|lia]
             | right; right; right; right; right; right; right; split; [reflexivity|lia] ].
Qed.

#[local] Arguments byteZ : simpl never.
#[local] Arguments len : simpl never.

Ltac decode_split :=
  repeat first
    [ progress cbn
    | match goal with
      | |- context [match ?s with EmptyString => _ | String _ _ => _ end] =>
          is_var s; destruct s
      | |- context [if ?c then _ else _] => destruct c eqn:?
      end ].

Ltac decode_leaf :=
  unfold utf8.RuneError, utf8.mask2, utf8.mask3, utf8.mask4, utf8.maskx,
    utf8.locb, utf8.hicb in *;
  rewrite ?len_String in *;
  repeat match goal with
         | c : byte |- _ => lazymatch goal with
                            | H : 0 <= byteZ c < 256 |- _ => fail
                            | _ => pose proof (byteZ_range c)
                            end
         | s : string |- _ => lazymatch goal with
                            | H : 0 <= len s |- _ => fail
                            | _ => pose proof (len_nonneg s)
                            end
         end;
  change (len "") with 0 in *;
  split; [| split; [try lia |
    match goal with
    | |- forallb _ ?l = true =>
        let v := eval vm_compute in l in change l with v
    end; cbn [forallb]; try lia]].

Lemma DecodeRuneInString_non_ascii (c0 : byte) (q : string) :
  utf8.RuneSelf <= byteZ c0 ->
  let '(r, w) := utf8.DecodeRuneInString (String c0 q) in
  utf8.RuneSelf <= r
  /\ 1 <= w <= len (String c0 q)
  /\ forallb (fun c => utf8.RuneSelf <=? byteZ c) (bytes (slice_to (String c0 q) w)) = true.
Proof.
  intros H0. pose proof (byteZ_range c0) as R0.
  unfold utf8.RuneSelf in *.
  unfold utf8.DecodeRuneInString.
  destruct (first_cases (byteZ c0) ltac:(lia)) as
    [Hx | [[Hx Hr] | [[Hx Hr] | [[Hx Hr] | [[Hx Hr] | [[Hx Hr] | [[Hx Hr] | [Hx Hr]]]]]]]];
    rewrite Hx;
    repeat match goal with
           | |- context [utf8.acceptRanges ?a] =>
               let v := eval vm_compute in (utf8.acceptRanges a) in
               change (utf8.acceptRanges a) with v
           | |- context [Z.land ?a 7] =>
               let v := eval vm_compute in (Z.land a 7) in
               change (Z.land a 7) with v
           end;
    decode_split; decode_leaf; try lia.
  all: rewrite ?land_31, ?land_15, ?land_7, ?land_63, ?Z.shiftl_mul_pow2 by lia.
  all: first [ apply rune2_ge | apply rune3_ge | apply rune4_ge ];
    try (apply Z.mod_pos_bound; lia); Z.div_mod_to_equations; lia.
Qed.

Lemma bytes_app (a b : string) : bytes (a +:+ b) = bytes a ++ bytes b.
Proof. unfold bytes. induction a as [|c a IH]; cbn; [reflexivity | now f_equal]. Qed.

Lemma sdrop_length (n : nat) (s : string) :
  String.length (sdrop n s) = (String.length s - n)%nat.
Proof. revert s. induction n as [|n IH]; intros [|c s]; cbn; auto. Qed.

Lemma no_digit_beyond_ascii (l : list byte) :
  forallb (fun c => utf8.RuneSelf <=? byteZ c) l = true -> existsb is_digit l = false.
Proof.
  induction l as [|c l IH]; cbn; intros H; [reflexivity|].
  apply andb_true_iff in H as [Hc Hl]. rewrite (IH Hl), orb_false_r.
  unfold is_digit, utf8.RuneSelf in *. lia.
Qed.

Lemma containsNumber_loop_bytes (fuel : nat) (s : string) :
  (String.length s <= fuel)%nat ->
  user.containsNumber_loop fuel s = existsb is_digit (bytes s).
Proof.
  revert s. induction fuel as [|fuel IH]; intros s Hlen.
  - destruct s; [reflexivity | cbn in Hlen; lia].
  - destruct s as [|c0 q]; [reflexivity|].
    cbn [user.containsNumber_loop].
    destruct (Z_lt_le_dec (byteZ c0) utf8.RuneSelf) as [Hlt|Hge].
    + rewrite DecodeRuneInString_ascii by assumption.
      change (slice_from (String c0 q) 1) with q.
      change (bytes (String c0 q)) with (c0 :: bytes q). cbn [existsb].
      unfold is_digit at 1. destruct ((48 <=? byteZ c0) && (byteZ c0 <=? 57)); [reflexivity|].
      apply IH. cbn in Hlen. lia.
    + pose proof (DecodeRuneInString_non_ascii c0 q Hge) as H.
      destruct (utf8.DecodeRuneInString (String c0 q)) as [r w].
      destruct H as (Hr & Hw & Hb).
      unfold utf8.RuneSelf in Hr.
      replace ((48 <=? r) && (r <=? 57)) with false by lia.
      rewrite IH.
      * rewrite <- (stake_sdrop (Z.to_nat w) (String c0 q)) at 2.
        rewrite bytes_app, existsb_app.
        unfold slice_to in Hb. rewrite (no_digit_beyond_ascii _ Hb). reflexivity.
      * unfold slice_from. rewrite sdrop_length. cbn [String.length] in *. lia.
Qed.

(** X1: [containsNumber] is true exactly when the string holds one of
    the bytes '0'..'9': its rune loop and [unicode.IsDigit] see no digit
    in a multi-byte or malformed sequence, on any string, valid UTF-8 or
    not. *)
Theorem containsNumber_bytes (s : string) :
  user.containsNumber s = existsb is_digit (bytes s).
Proof. apply containsNumber_loop_bytes. lia. Qed.

Section EmailFacts.
Import regexp.

Lemma Matches_concat_inv (a b : Regexp) (s : string) :
  Matches (OpConcat a b) s -> exists s1 s2, s = s1 +:+ s2 /\ Matches a s1 /\ Matches b s2.
Proof. intros H. inversion H; subst. eauto. Qed.

Lemma Matches_class_inv (ranges : list (Z * Z)) (s : string) :
  Matches (OpCharClass ranges) s ->
  exists c, s = String c EmptyString /\ in_class ranges (byteZ c) = true.
Proof. intros H. inversion H; subst. eauto. Qed.

Lemma Matches_class_iff (ranges : list (Z * Z)) (s : string) :
  Matches (OpCharClass ranges) s <-> len s = 1 /\ all_in ranges s = true.
Proof.
  split.
  - intros H. apply Matches_class_inv in H as (c & -> & Hc).
    split; [reflexivity|]. unfold all_in. cbn. now rewrite Hc.
  - intros [Hl Ha]. destruct s as [|c [|c' s]].
    + discriminate.
    + constructor. unfold all_in in Ha. cbn in Ha. now rewrite andb_true_r in Ha.
    + rewrite !len_String in Hl. pose proof (len_nonneg s). lia.
Qed.

Lemma all_in_app (ranges : list (Z * Z)) (s t : string) :
  all_in ranges (s +:+ t) = all_in ranges s && all_in ranges t.
Proof. unfold all_in. now rewrite bytes_app, forallb_app. Qed.

Lemma Matches_class_star (ranges : list (Z * Z)) (s : string) :
  Matches (OpStar (OpCharClass ranges)) s <-> all_in ranges s = true.
Proof.
  split.
  - intros H. remember (OpStar (OpCharClass ranges)) as r eqn:Hr.
    induction H; try discriminate.
    + reflexivity.
    + injection Hr as ->. rewrite all_in_app.
      apply Matches_class_iff in H as [_ ->]. now apply IHMatches2.
  - induction s as [|c s IH]; intros H; [constructor|].
    unfold all_in in H. cbn in H. apply andb_true_iff in H as [Hc Hs].
    change (String c s) with (String c EmptyString +:+ s).
    apply MStarS; [now constructor | now apply IH].
Qed.

Lemma Matches_class_plus (ranges : list (Z * Z)) (s : string) :
  Matches (OpPlus (OpCharClass ranges)) s <-> s <> "" /\ all_in ranges s = true.
Proof.
  unfold OpPlus. split.
  - intros H. apply Matches_concat_inv in H as (s1 & s2 & -> & H1 & H2).
    apply Matches_class_inv in H1 as (c & -> & Hc). apply Matches_class_star in H2.
    split; [discriminate|]. rewrite all_in_app, H2. unfold all_in. cbn. now rewrite Hc.
  - intros [Hne H]. destruct s as [|c s]; [contradiction|].
    unfold all_in in H. cbn in H. apply andb_true_iff in H as [Hc Hs].
    change (String c s) with (String c EmptyString +:+ s).
    constructor; [now constructor | now apply Matches_class_star].
Qed.

Lemma Matches_class_repeat0 (ranges : list (Z * Z)) (n : nat) (s : string) :
  Matches (OpRepeat0 (OpCharClass ranges) n) s
  <-> (String.length s <= n)%nat /\ all_in ranges s = true.
Proof.
  revert s. induction n as [|n IH]; intros s; cbn [OpRepeat0].
  - split.
    + intros H. inversion H; subst. split; [cbn; lia | reflexivity].
    + intros [Hl _]. destruct s; [constructor | cbn in Hl; lia].
  - unfold OpQuest. split.
    + intros H. inversion H; subst.
      * apply Matches_concat_inv in H3 as (s1 & s2 & -> & H1 & H2).
        apply Matches_class_inv in H1 as (c & -> & Hc). apply IH in H2 as [Hl Ha].
        split; [cbn; lia|]. rewrite all_in_app, Ha. unfold all_in. cbn. now rewrite Hc.
      * inversion H3; subst. split; [cbn; lia | reflexivity].
    + intros [Hl Ha]. destruct s as [|c s]; [apply MAltR; constructor|].
      apply MAltL. unfold all_in in Ha. cbn in Ha. apply andb_true_iff in Ha as [Hc Hs].
      change (String c s) with (String c EmptyString +:+ s).
      constructor; [now constructor|]. apply IH. split; [cbn in Hl; lia | exact Hs].
Qed.

Lemma Matches_class_repeat (ranges : list (Z * Z)) (m n : nat) (s : string) :
  Matches (OpRepeat (OpCharClass ranges) m n) s
  <-> (m <= String.length s <= m + n)%nat /\ all_in ranges s = true.
Proof.
  revert s. induction m as [|m IH]; intros s; cbn [OpRepeat].
  - rewrite Matches_class_repeat0. cbn. intuition lia.
  - split.
    + intros H. apply Matches_concat_inv in H as (s1 & s2 & -> & H1 & H2).
      apply Matches_class_inv in H1 as (c & -> & Hc). apply IH in H2 as [Hl Ha].
      split; [cbn; lia|]. rewrite all_in_app, Ha. unfold all_in. cbn. now rewrite Hc.
    + intros [Hl Ha]. destruct s as [|c s]; [cbn in Hl; lia|].
      unfold all_in in Ha. cbn in Ha. apply andb_true_iff in Ha as [Hc Hs].
      change (String c s) with (String c EmptyString +:+ s).
      constructor; [now constructor|]. apply IH. split; [cbn in Hl; lia | exact Hs].
Qed.

Lemma Matches_literal (c : Z) (s : string) :
  0 <= c < 256 -> (Matches (OpLiteral c) s <-> s = utf8.str1 c).
Proof.
  intros Hc. unfold OpLiteral, utf8.str1. split.
  - intros H. apply Matches_class_inv in H as (b & -> & Hb).
    cbn in Hb. rewrite orb_false_r in Hb.
    assert (byteZ b = c) by lia. subst c. now rewrite Zbyte_byteZ.
  - intros ->. constructor. cbn. rewrite byteZ_Zbyte by lia. lia.
Qed.

Lemma emailRegex_Matches (s : string) :
  Matches user.emailRegex s <-> email_parts s.
Proof.
  unfold user.emailRegex, email_parts.
  unfold user.local_class, user.domain_class, user.alpha_class.
  fold local_chars domain_chars alpha_chars.
  split.
  - intros H.
    apply Matches_concat_inv in H as (l & s1 & -> & Hl & H).
    apply Matches_concat_inv in H as (a & s2 & -> & Ha & H).
    apply Matches_concat_inv in H as (d & s3 & -> & Hd & H).
    apply Matches_concat_inv in H as (p & t & -> & Hp & Ht).
    apply Matches_class_plus in Hl as [Hl1 Hl2]. apply Matches_class_plus in Hd as [Hd1 Hd2].
    apply Matches_literal in Ha; [|lia]. apply Matches_literal in Hp; [|lia]. subst a p.
    apply Matches_class_repeat in Ht as [Ht1 Ht2].
    exists l, d, t. repeat split; auto; unfold len; lia.
  - intros (l & d & t & -> & Hl1 & Hl2 & Hd1 & Hd2 & Ht1 & Ht2).
    constructor; [now apply Matches_class_plus|].
    change ("@" +:+ d +:+ "." +:+ t) with (utf8.str1 64 +:+ d +:+ "." +:+ t).
    constructor; [apply Matches_literal; [lia|reflexivity]|].
    constructor; [now apply Matches_class_plus|].
    change ("." +:+ t) with (utf8.str1 46 +:+ t).
    constructor; [apply Matches_literal; [lia|reflexivity]|].
    apply Matches_class_repeat. split; [unfold len in Ht1; lia | exact Ht2].
Qed.

(** X2: [emailRegex] matches a string exactly when it is
    local@domain.tld with a non-empty local part over a-z 0-9 . _ % + -,
    a non-empty domain over a-z 0-9 . -, and a last label of 2 to 4
    letters a-z; upper-case letters are refused everywhere. *)
Theorem emailRegex_parts (s : string) :
  MatchString user.emailRegex s = true <-> email_parts s.
Proof. unfold MatchString. rewrite matchb_spec. apply emailRegex_Matches. Qed.

End EmailFacts.

(** ** Registration *)

(** X3: what an account accepted by [Validate] satisfies: the e-mail
    has the shape of the pattern, the password has at least 8 bytes and an
    ASCII digit, it has an ASCII upper-case and an ASCII lower-case letter
    unless it holds a non-ASCII byte, and the name is not blank. *)
Theorem Validate_accepted (u : user.User.t) :
  user.Validate u = None ->
  email_parts (user.User.Email u)
  /\ 8 <= len (user.User.Password u)
  /\ (exists c, In c (bytes (user.User.Password u)) /\ is_digit c = true)
  /\ ((exists c, In c (bytes (user.User.Password u)) /\ is_upper c = true)
      \/ strings.isASCII (user.User.Password u) = false)
  /\ ((exists c, In c (bytes (user.User.Password u)) /\ is_lower c = true)
      \/ strings.isASCII (user.User.Password u) = false)
  /\ strings.TrimSpace (user.User.Name u) <> "".
Proof.
  unfold user.Validate.
  destruct (regexp.MatchString user.emailRegex (user.User.Email u)) eqn:He;
    cbn [negb]; [|discriminate].
  destruct (len (user.User.Password u) <? 8) eqn:El; [discriminate|].
  destruct (user.containsUppercase (user.User.Password u)) eqn:Eu; cbn [negb orb];
    [|discriminate].
  destruct (user.containsLowercase (user.User.Password u)) eqn:Elo; cbn [negb orb];
    [|discriminate].
  destruct (user.containsNumber (user.User.Password u)) eqn:En; cbn [negb orb];
    [|discriminate].
  destruct (String.eqb_spec (strings.TrimSpace (user.User.Name u)) "") as [Hn|Hn];
    [discriminate|].
  intros _. unfold user.containsNumber in En.
  rewrite containsNumber_loop_bytes in En by lia.
  unfold regexp.MatchString in He. rewrite matchb_spec in He.
  split; [now apply emailRegex_Matches|]. split; [lia|].
  split; [now apply existsb_bytes|].
  destruct (strings.isASCII (user.User.Password u)) eqn:Ea.
  - rewrite containsUppercase_ascii in Eu by assumption.
    rewrite containsLowercase_ascii in Elo by assumption.
    repeat split; auto; left; now apply existsb_bytes.
  - repeat split; auto.
Qed.

(** X4: a registration whose body does not decode, or whose account
    [Validate] refuses, is answered 400 with the fixed text, respectively
    the validation message, and the identity provider is not called. *)
Theorem UserRegistration_refuses (fb : user.Firebase) (r : http.Request user.User.t) :
  let s := snd (run (user.UserRegistration fb r) start) in
  (forall err, http.Body r = inl err ->
     http.StatusCode (resp s) = http.StatusBadRequest
     /\ http.body (resp s) = [http.Text ("Invalid request body" +:+ String "010" EmptyString)]
     /\ calls s = [])
  /\ (forall u msg, http.Body r = inr u -> user.Validate u = Some msg ->
     http.StatusCode (resp s) = http.StatusBadRequest
     /\ http.body (resp s) = [http.Text (msg +:+ String "010" EmptyString)]
     /\ calls s = []).
Proof.
  unfold user.UserRegistration. exec. split.
  - intros err ->. step. repeat split.
  - intros u msg -> Hv. step. rewrite Hv. step. repeat split.
Qed.

(** X5: [UserRegistration] calls the identity provider at most once,
    only for a validated account, with exactly the e-mail, password and
    name of the request; its status is 201, 400 or 500. *)
Theorem UserRegistration_provider_calls (fb : user.Firebase) (r : http.Request user.User.t) :
  let s := snd (run (user.UserRegistration fb r) start) in
  (calls s = []
   \/ exists u, http.Body r = inr u /\ user.Validate u = None
                /\ calls s = [user.CallCreateUser
                                {| user.pEmail := user.User.Email u;
                                   user.pPassword := user.User.Password u;
                                   user.pDisplayName := user.User.Name u |}])
  /\ (http.StatusCode (resp s) = http.StatusCreated
      \/ http.StatusCode (resp s) = http.StatusBadRequest
      \/ http.StatusCode (resp s) = http.StatusInternalServerError).
Proof.
  unfold user.UserRegistration, user.RegisterUser. exec.
  destruct (http.Body r) as [e|u]; step; [split; auto|].
  destruct (user.Validate u) as [msg|] eqn:Hv; step; [split; auto|].
  destruct (user.NewApp fb); step; [split; auto|].
  destruct (user.Auth fb); step; [split; auto|].
  destruct (user.CreateUser fb _); step; (split; [right; exists u; auto | auto]).
Qed.

(** ** Authentication *)

(** X6: [authenticateWithFirebase] returns either a response and no
    error, or an error and no response, on every path. *)
Theorem authenticateWithFirebase_response_xor_error (W : userauthentication.World)
    (email password : string) (s : HState userauthentication.Call) :
  (exists fr, fst (run (userauthentication.authenticateWithFirebase W email password) s)
              = (Some fr, None))
  \/ (exists err, fst (run (userauthentication.authenticateWithFirebase W email password) s)
                  = (None, Some err)).
Proof.
  unfold userauthentication.authenticateWithFirebase. exec.
  destruct (String.eqb _ ""); step; [eauto|].
  destruct (userauthentication.Post W _ _ _) as [e|code [e|raw]]; step; eauto.
  destruct (code =? http.StatusOK); step; eauto.
  destruct (userauthentication.Unmarshal W raw); step; eauto.
Qed.

(** X7: without FIREBASE_API_KEY (unset or empty) a decoded login
    is answered 401 with the configuration error in the body, and no
    request is sent to the identity provider. *)
Theorem UserAuthentication_without_api_key (W : userauthentication.World)
    (r : http.Request userauthentication.LoginRequest.t) (q : userauthentication.LoginRequest.t) :
  http.Body r = inr q -> api_key W = "" ->
  http.StatusCode (resp (auth_state W r)) = http.StatusUnauthorized
  /\ http.body (resp (auth_state W r))
     = [http.Text ("Authentication failed: FIREBASE_API_KEY environment variable is not set"
                   +:+ String "010" EmptyString)]
  /\ calls (auth_state W r) = [].
Proof.
  unfold auth_state, api_key. intros Hb Hk.
  unfold userauthentication.UserAuthentication, userauthentication.authenticateWithFirebase.
  exec. rewrite Hb. step. rewrite Hk. repeat split.
Qed.

(** X8: the outside calls of [UserAuthentication] are none, or one
    POST to the sign-in URL built from the API key, carrying the e-mail,
    the password and returnSecureToken = true of the request, followed at
    most by one verification of the idToken decoded from a 200 answer. *)
Theorem UserAuthentication_calls (W : userauthentication.World)
    (r : http.Request userauthentication.LoginRequest.t) :
  calls (auth_state W r) = []
  \/ exists q, http.Body r = inr q /\ api_key W <> ""
     /\ let post := userauthentication.CallPost (userauthentication.signInURL (api_key W))
                      (sign_in_request q)
                      (userauthentication.Post W (userauthentication.signInURL (api_key W))
                         "application/json" (sign_in_request q)) in
        calls (auth_state W r) = [post]
        \/ exists raw fr,
             userauthentication.Post W (userauthentication.signInURL (api_key W))
               "application/json" (sign_in_request q)
             = userauthentication.PostResponse http.StatusOK (inr raw)
             /\ userauthentication.Unmarshal W raw = inr fr
             /\ calls (auth_state W r)
                = [post;
                   userauthentication.CallVerifyIDToken
                     (userauthentication.FirebaseSignInResponse.IDToken fr)
                     (userauthentication.VerifyIDToken W
                        (userauthentication.FirebaseSignInResponse.IDToken fr))].
Proof.
  unfold auth_state, api_key, sign_in_request.
  unfold userauthentication.UserAuthentication, userauthentication.authenticateWithFirebase.
  exec.
  destruct (http.Body r) as [e|q]; step; [now left|].
  destruct (String.eqb_spec (os.Getenv (userauthentication.environ W) "FIREBASE_API_KEY") "")
    as [Hk|Hk]; step; [now left|].
  right. exists q. split; [reflexivity|]. split; [exact Hk|].
  destruct (userauthentication.Post W _ _ _) as [e|code [e|raw]] eqn:HP; step;
    try (left; reflexivity).
  destruct (code =? http.StatusOK) eqn:Hc; step; [|left; reflexivity].
  assert (code = http.StatusOK) as -> by lia.
  destruct (userauthentication.Unmarshal W raw) as [e|fr] eqn:HU; step; [left; reflexivity|].
  destruct (userauthentication.NewApp W); step; [left; reflexivity|].
  destruct (userauthentication.Auth W); step; [left; reflexivity|].
  right. exists raw, fr. split; [reflexivity|]. split; [exact HU|].
  destruct (userauthentication.VerifyIDToken W _); reflexivity.
Qed.

(** X9: when the identity provider answers the sign-in with a
    status other than 200, the handler answers 401 and copies the
    provider's raw answer body into its own. *)
Theorem UserAuthentication_passes_provider_detail (W : userauthentication.World)
    (r : http.Request userauthentication.LoginRequest.t) (q : userauthentication.LoginRequest.t)
    (code : Z) (raw : string) :
  http.Body r = inr q -> api_key W <> "" ->
  userauthentication.Post W (userauthentication.signInURL (api_key W))
    "application/json" (sign_in_request q)
  = userauthentication.PostResponse code (inr raw) ->
  code <> http.StatusOK ->
  http.StatusCode (resp (auth_state W r)) = http.StatusUnauthorized
  /\ http.body (resp (auth_state W r))
     = [http.Text ("Authentication failed: authentication failed: " +:+ raw
                   +:+ String "010" EmptyString)].
Proof.
  unfold auth_state, api_key, sign_in_request. intros Hb Hk HP Hc.
  unfold userauthentication.UserAuthentication, userauthentication.authenticateWithFirebase.
  exec. rewrite Hb. step.
  destruct (String.eqb_spec (os.Getenv (userauthentication.environ W) "FIREBASE_API_KEY") "")
    as [E|_]; [contradiction|]. step.
  rewrite HP. step. replace (code =? http.StatusOK) with false by lia. step.
  split; reflexivity.
Qed.

(** X10: after a successful sign-in: 500 with a fixed text when the
    Firebase app or the Auth client cannot be set up, 401 "Invalid ID
    token" when the token verification fails, else 200 with Content-Type
    application/json. *)
Theorem UserAuthentication_after_sign_in (W : userauthentication.World)
    (r : http.Request userauthentication.LoginRequest.t) (q : userauthentication.LoginRequest.t)
    (fr : userauthentication.FirebaseSignInResponse.t) :
  http.Body r = inr q ->
  fst (run (userauthentication.authenticateWithFirebase W
              (userauthentication.LoginRequest.Email q)
              (userauthentication.LoginRequest.Password q)) start) = (Some fr, None) ->
  let w := resp (auth_state W r) in
  match userauthentication.NewApp W, userauthentication.Auth W,
        userauthentication.VerifyIDToken W (userauthentication.FirebaseSignInResponse.IDToken fr)
  with
  | Some _, _, _ =>
      http.StatusCode w = http.StatusInternalServerError
      /\ http.body w = [http.Text ("Failed to initialize Firebase app" +:+ String "010" EmptyString)]
  | None, Some _, _ =>
      http.StatusCode w = http.StatusInternalServerError
      /\ http.body w = [http.Text ("Failed to get Firebase Auth client" +:+ String "010" EmptyString)]
  | None, None, inl _ =>
      http.StatusCode w = http.StatusUnauthorized
      /\ http.body w = [http.Text ("Invalid ID token" +:+ String "010" EmptyString)]
  | None, None, inr uid =>
      http.StatusCode w = http.StatusOK
      /\ http.Header w !! "Content-Type" = Some "application/json"
  end.
Proof.
  unfold auth_state. intros Hb.
  unfold userauthentication.UserAuthentication, userauthentication.authenticateWithFirebase.
  exec. rewrite Hb. step.
  destruct (String.eqb _ ""); step; [discriminate|].
  destruct (userauthentication.Post W _ _ _) as [e|code [e|raw]]; step; try discriminate.
  destruct (code =? http.StatusOK); step; [|discriminate].
  destruct (userauthentication.Unmarshal W raw) as [e|fr']; step; [discriminate|].
  intros H. injection H as ->.
  destruct (userauthentication.NewApp W); step; [split; reflexivity|].
  destruct (userauthentication.Auth W); step; [split; reflexivity|].
  destruct (userauthentication.VerifyIDToken W _); step; split; reflexivity.
Qed.

(** ** Profile management *)

(** X11: [extractToken] returns a non-empty token [t] exactly when
    the X-Forwarded-Authorization header is "Bearer " followed by [t]; the
    prefix is case-sensitive and nothing is trimmed. *)
Theorem extractToken_bearer (r : http.Request userprofilemanagement.UserProfileUpdate.t)
    (t : string) :
  t <> "" ->
  (userprofilemanagement.extractToken r = t
   <-> forwarded_authorization r = "Bearer " +:+ t).
Proof.
  intros Ht. unfold userprofilemanagement.extractToken, forwarded_authorization.
  set (h := http.Header_Get (http.ReqHeader r) "X-Forwarded-Authorization").
  split.
  - destruct (negb (String.eqb h "") && strings.HasPrefix h "Bearer ") eqn:E.
    + apply andb_true_iff in E as [_ E]. apply HasPrefix_spec in E as [t' ->].
      rewrite TrimPrefix_app. now intros ->.
    + intros <-. contradiction.
  - intros ->. rewrite HasPrefix_app, TrimPrefix_app. reflexivity.
Qed.

(** X12: a GET with a verified token reads the record of the verified
    UID, and of no other; it answers 200 with id, email, name and the
    creation time as RFC 3339 of the millisecond timestamp divided by
    1000, or 500 with the provider's error. *)
Theorem profile_get (W : userprofilemanagement.World)
    (r : http.Request userprofilemanagement.UserProfileUpdate.t) (uid : string) :
  verified_as W r uid -> http.Method r = http.MethodGet ->
  profile_calls W r
  = [userprofilemanagement.CallVerify (userprofilemanagement.extractToken r) (inr uid);
     userprofilemanagement.CallGetUser uid]
  /\ match userprofilemanagement.GetUser W uid with
     | inr user => profile_status W r = http.StatusOK
                   /\ profile_body W r = [http.JSON (profile_json W user)]
     | inl err => profile_status W r = http.StatusInternalServerError
                  /\ profile_body W r
                     = [http.Text ("Error getting user: " +:+ err +:+ String "010" EmptyString)]
     end.
Proof.
  intros ([Happ Hauth] & Htok & Hv) Hm.
  unfold profile_calls, profile_status, profile_body,
    userprofilemanagement.UserProfileManagement, userprofilemanagement.handleGetProfile.
  exec. rewrite Happ, Hauth. step.
  destruct (String.eqb_spec (userprofilemanagement.extractToken r) "") as [E|_];
    [contradiction|]. step.
  rewrite Hv, Hm. step. change (String.eqb http.MethodGet http.MethodGet) with true. step.
  destruct (userprofilemanagement.GetUser W uid); step; repeat split.
Qed.

(** X13: a PUT with a verified token and an undecodable body is
    answered 400 without an update; otherwise the display name of the
    verified UID, and only it, is set to the name of the body (also when
    empty), answered 200 with the updated record or 500. *)
Theorem profile_put (W : userprofilemanagement.World)
    (r : http.Request userprofilemanagement.UserProfileUpdate.t) (uid : string) :
  verified_as W r uid -> http.Method r = http.MethodPut ->
  match http.Body r with
  | inl err =>
      profile_status W r = http.StatusBadRequest
      /\ profile_body W r
         = [http.Text ("Invalid request body: " +:+ err +:+ String "010" EmptyString)]
      /\ profile_calls W r
         = [userprofilemanagement.CallVerify (userprofilemanagement.extractToken r) (inr uid)]
  | inr update =>
      let name := userprofilemanagement.UserProfileUpdate.Name update in
      profile_calls W r
      = [userprofilemanagement.CallVerify (userprofilemanagement.extractToken r) (inr uid);
         userprofilemanagement.CallUpdateUser uid name]
      /\ match userprofilemanagement.UpdateUser W uid name with
         | inr user => profile_status W r = http.StatusOK
                       /\ profile_body W r = [http.JSON (profile_json W user)]
         | inl err => profile_status W r = http.StatusInternalServerError
                      /\ profile_body W r
                         = [http.Text ("Error updating user: " +:+ err
                                       +:+ String "010" EmptyString)]
         end
  end.
Proof.
  intros ([Happ Hauth] & Htok & Hv) Hm.
  unfold profile_calls, profile_status, profile_body,
    userprofilemanagement.UserProfileManagement, userprofilemanagement.handleUpdateProfile.
  exec. rewrite Happ, Hauth. step.
  destruct (String.eqb_spec (userprofilemanagement.extractToken r) "") as [E|_];
    [contradiction|]. step.
  rewrite Hv, Hm. step.
  change (String.eqb http.MethodPut http.MethodGet) with false.
  change (String.eqb http.MethodPut http.MethodPut) with true. step.
  destruct (http.Body r) as [err|update]; step; [repeat split|].
  destruct (userprofilemanagement.UpdateUser W uid _); step; repeat split.
Qed.

(** X14: the provider calls of [UserProfileManagement] are, in order:
    none; one token verification; or a successful verification followed by
    one GetUser (GET) or one UpdateUser (PUT with a decoded body) for the
    verified UID. No request does both, and none touches a user before
    the verification. *)
Theorem profile_calls_cases (W : userprofilemanagement.World)
    (r : http.Request userprofilemanagement.UserProfileUpdate.t) :
  let token := userprofilemanagement.extractToken r in
  profile_calls W r = []
  \/ (exists err, userprofilemanagement.VerifyIDTokenAndCheckRevoked W token = inl err
                  /\ profile_calls W r = [userprofilemanagement.CallVerify token (inl err)])
  \/ (exists uid, verified_as W r uid
        /\ http.Method r <> http.MethodGet /\ http.Method r <> http.MethodPut
        /\ profile_calls W r = [userprofilemanagement.CallVerify token (inr uid)])
  \/ (exists uid, verified_as W r uid /\ http.Method r = http.MethodGet
        /\ profile_calls W r = [userprofilemanagement.CallVerify token (inr uid);
                                userprofilemanagement.CallGetUser uid])
  \/ (exists uid err, verified_as W r uid /\ http.Method r = http.MethodPut
        /\ http.Body r = inl err
        /\ profile_calls W r = [userprofilemanagement.CallVerify token (inr uid)])
  \/ (exists uid update, verified_as W r uid /\ http.Method r = http.MethodPut
        /\ http.Body r = inr update
        /\ profile_calls W r
           = [userprofilemanagement.CallVerify token (inr uid);
              userprofilemanagement.CallUpdateUser uid
                (userprofilemanagement.UserProfileUpdate.Name update)]).
Proof.
  unfold verified_as, client_ready, profile_calls,
    userprofilemanagement.UserProfileManagement, userprofilemanagement.handleGetProfile,
    userprofilemanagement.handleUpdateProfile.
  exec.
  destruct (userprofilemanagement.NewApp W) eqn:Happ; step; [now left|].
  destruct (userprofilemanagement.Auth W) eqn:Hauth; step; [now left|].
  destruct (String.eqb_spec (userprofilemanagement.extractToken r) "") as [E|E]; step;
    [now left|].
  destruct (userprofilemanagement.VerifyIDTokenAndCheckRevoked W _) as [e|uid] eqn:HV; step.
  { right; left. exists e. split; reflexivity. }
  destruct (String.eqb_spec (http.Method r) http.MethodGet) as [Hg|Hg]; step.
  { do 3 right; left. exists uid. split; [auto|]. split; [assumption|].
    destruct (userprofilemanagement.GetUser W uid); reflexivity. }
  destruct (String.eqb_spec (http.Method r) http.MethodPut) as [Hp|Hp]; step.
  2:{ do 2 right; left. exists uid. auto 10. }
  destruct (http.Body r) as [err|update] eqn:Hb; step.
  { do 4 right; left. exists uid, err. auto 10. }
  do 5 right. exists uid, update. split; [auto|]. split; [assumption|]. split; [reflexivity|].
  destruct (userprofilemanagement.UpdateUser W uid _); reflexivity.
Qed.

(** ** Media upload *)

(** X15: every answer of [MediaUpload] other than 200 is 400 or 500,
    has Content-Type application/json, and its body is the object
    {code, message} whose code is the HTTP status. *)
Theorem MediaUpload_error_body (W : mediaupload.World)
    (r : http.Request (list mediaupload.Part)) :
  http.StatusCode (upload_response W r) <> http.StatusOK ->
  (http.StatusCode (upload_response W r) = http.StatusBadRequest
   \/ http.StatusCode (upload_response W r) = http.StatusInternalServerError)
  /\ http.Header (upload_response W r) !! "Content-Type" = Some "application/json"
  /\ exists message,
       http.body (upload_response W r)
       = [http.JSON (error_json (http.StatusCode (upload_response W r)) message)].
Proof.
  unfold upload_response, mediaupload.MediaUpload. exec.
  destruct (mediaupload.ParseMultipartForm r mediaupload.maxFileSize) as [e|form]; step.
  { intros _. split; [now left|]. split; [reflexivity|]. eexists. reflexivity. }
  destruct (mediaupload.FormFile form "file") as [e|header]; step.
  { intros _. split; [now left|]. split; [reflexivity|]. eexists. reflexivity. }
  destruct (String.eqb (mediaupload.getFileType (mediaupload.Filename header)) ""); step.
  { intros _. split; [now left|]. split; [reflexivity|]. eexists. reflexivity. }
  destruct (mediaupload.NewClient W); step.
  { intros _. split; [now right|]. split; [reflexivity|]. eexists. reflexivity. }
  destruct (mediaupload.Copy W _ _ _); step.
  { intros _. split; [now right|]. split; [reflexivity|]. eexists. reflexivity. }
  destruct (mediaupload.Close W _ _); step.
  { intros _. split; [now right|]. split; [reflexivity|]. eexists. reflexivity. }
  intros H. exfalso. apply H. reflexivity.
Qed.

(** X16: a 200 answer of [MediaUpload] means the file was written:
    the storage client was created, the copy and the close of the writer
    for <type>/<filename> in bucket synapscribe-media both succeeded, in
    that order, and the body gives fileUrl, fileName, fileType and
    uploadedAt for that object. *)
Theorem MediaUpload_ok (W : mediaupload.World) (r : http.Request (list mediaupload.Part)) :
  http.StatusCode (upload_response W r) = http.StatusOK ->
  exists header ty,
    uploaded r header
    /\ classify (strings.ToLower (filepath.Ext (mediaupload.Filename header))) = Some ty
    /\ let key := ty +:+ "/" +:+ mediaupload.Filename header in
       mediaupload.NewClient W = None
       /\ mediaupload.Copy W mediaupload.bucketName key header = None
       /\ mediaupload.Close W mediaupload.bucketName key = None
       /\ upload_calls W r
          = [mediaupload.CallNewWriter mediaupload.bucketName key;
             mediaupload.CallCopy mediaupload.bucketName key header;
             mediaupload.CallClose mediaupload.bucketName key]
       /\ http.body (upload_response W r)
          = [http.JSON (json.Object
               [("fileUrl", json.String_ ("https://storage.cloud.google.com/synapscribe-media/"
                                          +:+ key));
                ("fileName", json.String_ (mediaupload.Filename header));
                ("fileType", json.String_ ty);
                ("uploadedAt", json.Time (mediaupload.Now W))])].
Proof.
  unfold upload_response, upload_calls, uploaded, mediaupload.MediaUpload. exec.
  destruct (mediaupload.ParseMultipartForm r mediaupload.maxFileSize) as [e|form] eqn:Hp; step;
    [discriminate|].
  destruct (mediaupload.FormFile form "file") as [e|header] eqn:Hf; step; [discriminate|].
  rewrite getFileType_classify.
  destruct (classify (strings.ToLower (filepath.Ext (mediaupload.Filename header))))
    as [ty|] eqn:Hc; cbn [default from_option id].
  2:{ change (String.eqb "" "") with true. step. discriminate. }
  pose proof (classify_nonempty _ _ Hc) as Hne.
  destruct (String.eqb_spec ty "") as [E|_]; [contradiction|]. step.
  destruct (mediaupload.NewClient W) eqn:Hn; step; [discriminate|].
  destruct (mediaupload.Copy W _ _ _) eqn:Hcp; step; [discriminate|].
  destruct (mediaupload.Close W _ _) eqn:Hcl; step; [discriminate|].
  intros _. exists header, ty. split; [eauto|]. split; [exact Hc|].
  repeat split; auto.
Qed.

(** [filepath.Ext] on a name without a dot, and on a name that ends with
    a dot and a text that has no dot and no separator. *)
Lemma byte_at_cases (s : string) (i : Z) :
  utf8.byte_at s i = 0 \/ exists c, In c (bytes s) /\ utf8.byte_at s i = byteZ c.
Proof.
  unfold utf8.byte_at. generalize (Z.to_nat i). clear i.
  induction s as [|c s IH]; intros n; [left; now destruct n|].
  destruct n as [|n]; cbn [String.get].
  - right. exists c. split; [now left | reflexivity].
  - destruct (IH n) as [H | (c' & Hin & H)]; [now left|].
    right. exists c'. split; [now right | exact H].
Qed.

Lemma byteZ_inj (a b : byte) : byteZ a = byteZ b -> a = b.
Proof. intros H. rewrite <- (Zbyte_byteZ a), <- (Zbyte_byteZ b). now rewrite H. Qed.

Lemma Ext_loop_no_dot (fuel : nat) (path : string) (i : Z) :
  no_dot path -> filepath.Ext_loop fuel path i = "".
Proof.
  intros Hno. revert i. induction fuel as [|fuel IH]; intros i; cbn [filepath.Ext_loop];
    [reflexivity|].
  destruct ((0 <=? i) && negb (filepath.IsPathSeparator (utf8.byte_at path i)));
    [|reflexivity].
  destruct (utf8.byte_at path i =? 46) eqn:E; [|apply IH].
  exfalso. destruct (byte_at_cases path i) as [H | (c & Hin & H)]; [lia|].
  apply Hno. replace "."%char with c; [exact Hin|].
  apply byteZ_inj. rewrite <- H. change (byteZ "."%char) with 46. lia.
Qed.

(** X17: a filename without a dot has no type ([getFileType] gives
    the empty string, which the handler answers with 400). *)
Theorem getFileType_no_dot (filename : string) :
  no_dot filename -> mediaupload.getFileType filename = "".
Proof.
  intros H. unfold mediaupload.getFileType, filepath.Ext.
  rewrite Ext_loop_no_dot by assumption. reflexivity.
Qed.

Lemma get_app (p s : string) (n : nat) :
  String.get (String.length p + n) (p +:+ s) = String.get n s.
Proof. induction p as [|c p IH]; cbn; auto. Qed.

Lemma byte_at_app (p s : string) (k : Z) :
  0 <= k -> utf8.byte_at (p +:+ s) (len p + k) = utf8.byte_at s k.
Proof.
  intros Hk. unfold utf8.byte_at, len.
  replace (Z.to_nat (Z.of_nat (String.length p) + k))
    with (String.length p + Z.to_nat k)%nat by lia.
  now rewrite get_app.
Qed.

Lemma byte_at_tail (c : byte) (s : string) (k : Z) :
  0 <= k -> utf8.byte_at (String c s) (k + 1) = utf8.byte_at s k.
Proof.
  intros Hk. unfold utf8.byte_at.
  replace (Z.to_nat (k + 1)) with (S (Z.to_nat k)) by lia. reflexivity.
Qed.

Lemma Ext_loop_last_dot (p e : string) (k fuel : nat) :
  no_dot e -> no_slash e -> (k < fuel)%nat ->
  filepath.Ext_loop fuel (p +:+ "." +:+ e) (len p + Z.of_nat k) = "." +:+ e.
Proof.
  intros Hd Hs. revert fuel. induction k as [|k IH]; intros [|fuel] Hf; try lia;
    cbn [filepath.Ext_loop].
  - pose proof (len_nonneg p).
    rewrite byte_at_app by lia.
    change (utf8.byte_at ("." +:+ e) (Z.of_nat 0)) with 46.
    replace (0 <=? len p + Z.of_nat 0) with true by lia.
    cbn [filepath.IsPathSeparator negb andb Z.eqb Pos.eqb].
    change (46 =? 47) with false. change (46 =? 46) with true. cbn [negb andb].
    replace (len p + Z.of_nat 0) with (len p) by lia. apply slice_from_app.
  - pose proof (len_nonneg p).
    rewrite byte_at_app by lia.
    replace (Z.of_nat (S k)) with (Z.of_nat k + 1) by lia.
    change ("." +:+ e) with (String "."%char e). rewrite byte_at_tail by lia.
    replace (0 <=? len p + (Z.of_nat k + 1)) with true by lia.
    assert (Hb : utf8.byte_at e (Z.of_nat k) <> 46 /\ utf8.byte_at e (Z.of_nat k) <> 47).
    { destruct (byte_at_cases e (Z.of_nat k)) as [-> | (c & Hin & ->)]; [lia|].
      split; intros Hc.
      - apply Hd. replace "."%char with c; [exact Hin|]. now apply byteZ_inj.
      - apply Hs. unfold slash. replace "/"%char with c; [exact Hin|]. now apply byteZ_inj. }
    unfold filepath.IsPathSeparator.
    replace (utf8.byte_at e (Z.of_nat k) =? 47) with false by lia.
    replace (utf8.byte_at e (Z.of_nat k) =? 46) with false by lia.
    cbn [negb andb].
    replace (len p + (Z.of_nat k + 1) - 1) with (len p + Z.of_nat k) by lia.
    apply IH. lia.
Qed.

Lemma length_app_str (a b : string) :
  String.length (a +:+ b) = (String.length a + String.length b)%nat.
Proof. induction a as [|c a IH]; cbn; auto. Qed.

Lemma Ext_last_dot (p e : string) :
  no_dot e -> no_slash e -> filepath.Ext (p +:+ "." +:+ e) = "." +:+ e.
Proof.
  intros Hd Hs. unfold filepath.Ext.
  replace (len (p +:+ "." +:+ e) - 1) with (len p + Z.of_nat (String.length e)).
  2:{ rewrite len_app. change ("." +:+ e) with (String "."%char e).
      rewrite len_String. unfold len. lia. }
  apply Ext_loop_last_dot; auto.
  rewrite length_app_str. change ("." +:+ e) with (String "."%char e). cbn. lia.
Qed.

(** X18: [getFileType] looks at the text after the last dot only:
    for any prefix [p] and any [e] without dot or slash, the type of
    p.e is the one of the lower-cased ".e" (so archive.tar.MP3 is
    audio, and song.mp3.exe has no type). *)
Theorem getFileType_last_dot (p e : string) :
  no_dot e -> no_slash e ->
  mediaupload.getFileType (p +:+ "." +:+ e)
  = default "" (classify (strings.ToLower ("." +:+ e))).
Proof.
  intros Hd Hs. rewrite getFileType_classify, Ext_last_dot by assumption. reflexivity.
Qed.

Lemma ReadForm_keeps_head (key : string) (parts : list mediaupload.Part) :
  forall (m : Z) (form : gmap string (list mediaupload.FileHeader)) fh l,
    form !! key = Some (fh :: l) ->
    exists l', mediaupload.ReadForm parts m form !! key = Some (fh :: l').
Proof.
  induction parts as [|p parts IH]; intros m form fh l H; cbn [mediaupload.ReadForm].
  - eauto.
  - destruct (String.eqb (mediaupload.FormName p) "" || String.eqb (mediaupload.PartFileName p) "");
      [now apply IH with l|].
    destruct (decide (mediaupload.FormName p = key)) as [->|Hne].
    + eapply IH. rewrite lookup_insert_eq, H. cbn. reflexivity.
    + eapply IH. rewrite lookup_insert_ne by assumption. exact H.
Qed.

Lemma ReadForm_skip (key : string) (pre rest : list mediaupload.Part) :
  (forall q, In q pre -> file_of key q = false) ->
  forall (m : Z) (form : gmap string (list mediaupload.FileHeader)),
  exists m' form', mediaupload.ReadForm (pre ++ rest) m form = mediaupload.ReadForm rest m' form'
                   /\ form' !! key = form !! key.
Proof.
  induction pre as [|p pre IH]; intros Hpre m form; cbn [app mediaupload.ReadForm].
  - eauto.
  - assert (Hp : file_of key p = false) by (apply Hpre; now left).
    assert (Hrest : forall q, In q pre -> file_of key q = false)
      by (intros q Hq; apply Hpre; now right).
    unfold file_of in Hp.
    destruct (String.eqb (mediaupload.FormName p) "") eqn:E1; cbn [orb]; [now apply IH|].
    destruct (String.eqb (mediaupload.PartFileName p) "") eqn:E2; cbn [orb]; [now apply IH|].
    cbn [negb andb] in Hp. rewrite !andb_true_r in Hp. apply String.eqb_neq in Hp.
    match goal with
    | |- context [mediaupload.ReadForm (pre ++ rest) ?m1 ?f1] =>
        destruct (IH Hrest m1 f1) as (m' & form' & Heq & Hl)
    end.
    exists m', form'. split; [exact Heq|].
    rewrite Hl. now apply lookup_insert_ne.
Qed.

Lemma FormFile_first (key : string) (pre post : list mediaupload.Part)
    (p : mediaupload.Part) (m : Z) :
  (forall q, In q pre -> file_of key q = false) -> file_of key p = true ->
  exists fh, mediaupload.FormFile (mediaupload.ReadForm (pre ++ p :: post) m ∅) key = inr fh
             /\ mediaupload.Filename fh = mediaupload.PartFileName p
             /\ mediaupload.Size fh = mediaupload.PartSize p.
Proof.
  intros Hpre Hp.
  destruct (ReadForm_skip key pre (p :: post) Hpre m ∅) as (m' & form' & -> & Hl).
  rewrite lookup_empty in Hl. cbn [mediaupload.ReadForm].
  unfold file_of in Hp. apply andb_true_iff in Hp as [Hp H3].
  apply andb_true_iff in Hp as [H1 H2]. apply String.eqb_eq in H1.
  apply negb_true_iff in H2, H3. rewrite H2, H3. cbn [orb]. rewrite H1.
  match goal with
  | |- context [mediaupload.ReadForm post ?m1 (<[key := ?v]> form')] =>
      destruct (ReadForm_keeps_head key post m1 (<[key := v]> form')
                  {| mediaupload.Filename := mediaupload.PartFileName p;
                     mediaupload.Size := mediaupload.PartSize p;
                     mediaupload.tmpfile := m' <? mediaupload.PartSize p |} [])
        as [l' Hl']
  end.
  { rewrite lookup_insert_eq, Hl. reflexivity. }
  eexists. unfold mediaupload.FormFile. rewrite Hl'. repeat split.
Qed.

Lemma FormFile_none (key : string) (parts : list mediaupload.Part) (m : Z) :
  (forall q, In q parts -> file_of key q = false) ->
  mediaupload.FormFile (mediaupload.ReadForm parts m ∅) key = inl "http: no such file".
Proof.
  intros H.
  destruct (ReadForm_skip key parts [] H m ∅) as (m' & form' & Heq & Hl).
  rewrite app_nil_r in Heq. rewrite Heq. cbn [mediaupload.ReadForm].
  unfold mediaupload.FormFile. rewrite Hl, lookup_empty. reflexivity.
Qed.

(** X19: [MediaUpload] takes the first file part of the form field
    "file", skipping plain values and files of other fields; with no
    such part it answers 400 "No file uploaded" and stores nothing. *)
Theorem MediaUpload_first_file_part (W : mediaupload.World)
    (r : http.Request (list mediaupload.Part)) :
  (forall parts,
     http.Body r = inr parts ->
     (forall q, In q parts -> file_of "file" q = false) ->
     http.StatusCode (upload_response W r) = http.StatusBadRequest
     /\ http.body (upload_response W r)
        = [http.JSON (error_json http.StatusBadRequest "No file uploaded")]
     /\ upload_calls W r = [])
  /\ (forall pre p post,
        http.Body r = inr (pre ++ p :: post) ->
        (forall q, In q pre -> file_of "file" q = false) ->
        file_of "file" p = true ->
        exists header, uploaded r header
                       /\ mediaupload.Filename header = mediaupload.PartFileName p
                       /\ mediaupload.Size header = mediaupload.PartSize p).
Proof.
  split.
  - intros parts Hb Hnone.
    unfold upload_response, upload_calls, mediaupload.MediaUpload. exec.
    unfold mediaupload.ParseMultipartForm. rewrite Hb. step.
    rewrite FormFile_none by assumption. step. repeat split.
  - intros pre p post Hb Hpre Hp.
    destruct (FormFile_first "file" pre post p mediaupload.maxFileSize Hpre Hp)
      as (fh & Hf & Hn & Hs).
    exists fh. split; [|auto]. unfold uploaded, mediaupload.ParseMultipartForm.
    rewrite Hb. eauto.
Qed.

(** ** Audio transcription *)

Lemma Index_slash_split (s : string) (m : Z) :
  strings.Index s "/" = m -> 0 <= m ->
  s = slice_to s m +:+ "/" +:+ slice_from s (m + 1) /\ no_slash (slice_to s m).
Proof.
  revert m. induction s as [|c s IH]; intros m Hm Hpos.
  - change (strings.Index "" "/") with (-1) in Hm. lia.
  - cbn [strings.Index] in Hm. rewrite HasPrefix_slash in Hm.
    destruct (Ascii.eqb c slash) eqn:E.
    + subst m. apply Ascii.eqb_eq in E. subst c. split; [reflexivity|].
      unfold no_slash. cbn. tauto.
    + destruct (strings.Index s "/" <? 0) eqn:El; [lia|].
      assert (Hi : 0 <= strings.Index s "/") by lia.
      destruct (IH _ eq_refl Hi) as [Heq Hno]. subst m.
      set (i := strings.Index s "/") in *.
      assert (H1 : slice_to (String c s) (i + 1) = String c (slice_to s i)).
      { unfold slice_to. replace (Z.to_nat (i + 1)) with (S (Z.to_nat i)) by lia. reflexivity. }
      assert (H2 : slice_from (String c s) (i + 1 + 1) = slice_from s (i + 1)).
      { unfold slice_from. replace (Z.to_nat (i + 1 + 1)) with (S (Z.to_nat (i + 1))) by lia.
        reflexivity. }
      rewrite H1, H2. split.
      * rewrite Heq at 1. reflexivity.
      * unfold no_slash in *. cbn [bytes list_ascii_of_string In]. fold (bytes (slice_to s i)).
        intros [Hc | Hin]; [|now apply Hno].
        subst c. unfold slash in E. now rewrite Ascii.eqb_refl in E.
Qed.

(** X20: whatever [parseGCSURL] accepts is gs://bucket/object for the
    bucket and object it returns, and the bucket holds no slash (the
    converse of the round trip). *)
Theorem parseGCSURL_inverse (url bucket object : string) :
  audiotranscription.parseGCSURL url = (bucket, object, None) ->
  url = "gs://" +:+ bucket +:+ "/" +:+ object /\ no_slash bucket.
Proof.
  unfold audiotranscription.parseGCSURL.
  destruct (strings.HasPrefix url "gs://") eqn:Hp; cbn [negb]; [|discriminate].
  apply HasPrefix_spec in Hp as [path ->]. rewrite TrimPrefix_app.
  unfold strings.SplitN, strings.genSplit.
  change (2 =? 0) with false. change (String.eqb "/" "") with false.
  change (2 <? 0) with false. cbv iota.
  destruct (len path + 1 <? 2) eqn:El.
  - replace (Z.to_nat (len path + 1 - 1)) with (Z.to_nat (len path)) by lia.
    destruct path as [|c path]; [intros H; discriminate H|].
    rewrite len_String in El. pose proof (len_nonneg path). lia.
  - change (Z.to_nat (2 - 1)) with 1%nat. cbn [strings.genSplit_loop].
    destruct (strings.Index path "/" <? 0) eqn:Ei; [discriminate|].
    intros H. injection H as <- <-.
    destruct (Index_slash_split path _ eq_refl ltac:(lia)) as [Heq Hno].
    rewrite Z.add_0_r. split; [|exact Hno].
    change (len "/") with 1. now rewrite <- Heq.
Qed.

(** [transcribeAudio] run from a trace [t]: its result and the calls it adds. *)
Lemma transcribeAudio_run (W : audiotranscription.World) (url : string)
    (t : list audiotranscription.Call) :
  run (audiotranscription.transcribeAudio W url) t =
  match audiotranscription.parseGCSURL url with
  | (_, _, Some e) => (Returned ("", Some ("invalid GCS URL: " +:+ e)), t)
  | (bucket, object, None) =>
      match audiotranscription.storage_NewClient W true with
      | Some e => (Returned ("", Some ("failed to create GCS client: " +:+ e)), t)
      | None =>
          match audiotranscription.NewReader W bucket object with
          | inl e => (Returned ("", Some ("failed to create reader for GCS object: " +:+ e)),
                      t ++ [audiotranscription.CallNewReader bucket object])
          | inr reader =>
              match audiotranscription.UploadFile W reader with
              | inl e => (Returned ("", Some ("unable to upload file: " +:+ e)),
                          t ++ [audiotranscription.CallNewReader bucket object;
                                audiotranscription.CallUploadFile reader])
              | inr uri =>
                  (match audiotranscription.GenerateContent W uri audiotranscription.prompt with
                   | inl e => Returned ("", Some ("unable to generate contents: " +:+ e))
                   | inr res =>
                       match genai.Candidates res with
                       | [] => Returned ("", Some "empty response from model")
                       | c :: _ =>
                           match genai.Content_ c with
                           | None => Panicked "invalid memory address or nil pointer dereference"
                           | Some content =>
                               match genai.Parts content with
                               | [] => Returned ("", Some "empty response from model")
                               | part :: _ => Returned (genai.format_v part, None)
                               end
                           end
                       end
                   end,
                   t ++ read_calls bucket object reader uri)
              end
          end
      end
  end.
Proof.
  unfold audiotranscription.transcribeAudio, read_calls.
  destruct (audiotranscription.parseGCSURL url) as [[bucket object] [e|]]; texec;
    [reflexivity|].
  destruct (audiotranscription.storage_NewClient W true); texec; [reflexivity|].
  destruct (audiotranscription.NewReader W bucket object) as [e|reader]; texec;
    [reflexivity|].
  destruct (audiotranscription.UploadFile W reader) as [e|uri]; texec.
  { now rewrite <- app_assoc. }
  rewrite <- !app_assoc. cbn [app].
  destruct (audiotranscription.GenerateContent W uri audiotranscription.prompt) as [e|res];
    texec; [reflexivity|].
  destruct (genai.Candidates res) as [|c cs]; texec; [reflexivity|].
  destruct (genai.Content_ c) as [content|]; texec; [|reflexivity].
  destruct (genai.Parts content); reflexivity.
Qed.

(** X21: when [transcribeAudio] returns a text, the bucket and object
    parsed from the URL were opened, the content uploaded and the model
    asked with the fixed prompt, in that order and nothing else; the text
    is the first part of the first candidate, formatted with %v. *)
Theorem transcribeAudio_text (W : audiotranscription.World) (url text : string)
    (t : list audiotranscription.Call) :
  fst (run (audiotranscription.transcribeAudio W url) t) = Returned (text, None) ->
  exists bucket object reader uri res c cs content part parts,
    audiotranscription.parseGCSURL url = (bucket, object, None)
    /\ audiotranscription.NewReader W bucket object = inr reader
    /\ audiotranscription.UploadFile W reader = inr uri
    /\ audiotranscription.GenerateContent W uri audiotranscription.prompt = inr res
    /\ genai.Candidates res = c :: cs
    /\ genai.Content_ c = Some content
    /\ genai.Parts content = part :: parts
    /\ text = genai.format_v part
    /\ snd (run (audiotranscription.transcribeAudio W url) t)
       = t ++ read_calls bucket object reader uri.
Proof.
  rewrite transcribeAudio_run.
  destruct (audiotranscription.parseGCSURL url) as [[bucket object] [e|]] eqn:Hp;
    [discriminate|].
  destruct (audiotranscription.storage_NewClient W true); [discriminate|].
  destruct (audiotranscription.NewReader W bucket object) as [e|reader] eqn:Hr;
    [discriminate|].
  destruct (audiotranscription.UploadFile W reader) as [e|uri] eqn:Hu; [discriminate|].
  cbn [fst snd].
  destruct (audiotranscription.GenerateContent W uri audiotranscription.prompt)
    as [e|res] eqn:Hg; [discriminate|].
  destruct (genai.Candidates res) as [|c cs] eqn:Hc; [discriminate|].
  destruct (genai.Content_ c) as [content|] eqn:Hct; [|discriminate].
  destruct (genai.Parts content) as [|part parts] eqn:Hpt; [discriminate|].
  intros H. injection H as <-.
  exists bucket, object, reader, uri, res, c, cs, content, part, parts. repeat split; auto.
Qed.

(** X22: the calls of [AudioTranscription] are a prefix of the read
    sequence (open, upload, generate), or the whole read sequence
    followed by the writer's creation, one write of the text and the
    writer's close on the destination object; the deferred close runs
    also when the write fails. *)
Theorem AudioTranscription_call_order (W : audiotranscription.World)
    (e : audiotranscription.Event) :
  exists bucket object reader uri,
    transcription_trace W e `prefix_of` read_calls bucket object reader uri
    \/ exists data text,
         audiotranscription.DataAs e = inr data
         /\ transcription_trace W e
            = read_calls bucket object reader uri
              ++ write_calls (destination_bucket W) (destination_object data) text.
Proof.
  unfold transcription_trace. rewrite AudioTranscription_unfold.
  destruct (audiotranscription.DataAs e) as [err|data].
  { exists "", "", "", "". left. apply prefix_nil. }
  destruct (audiotranscription.genai_NewClient W _).
  { exists "", "", "", "". left. apply prefix_nil. }
  rewrite transcribeAudio_run.
  destruct (audiotranscription.parseGCSURL (gcsURL_of data)) as [[bucket object] [err|]].
  { exists "", "", "", "". left. apply prefix_nil. }
  destruct (audiotranscription.storage_NewClient W true).
  { exists "", "", "", "". left. apply prefix_nil. }
  destruct (audiotranscription.NewReader W bucket object) as [err|reader].
  { exists bucket, object, "", "". left. cbn. exists
      [audiotranscription.CallUploadFile "";
       audiotranscription.CallGenerateContent "" audiotranscription.prompt]. reflexivity. }
  destruct (audiotranscription.UploadFile W reader) as [err|uri].
  { exists bucket, object, reader, "". left. cbn.
    exists [audiotranscription.CallGenerateContent "" audiotranscription.prompt].
    reflexivity. }
  exists bucket, object, reader, uri. cbn [app].
  destruct (audiotranscription.GenerateContent W uri audiotranscription.prompt) as [err|res];
    [left; reflexivity|].
  destruct (genai.Candidates res) as [|c cs]; [left; reflexivity|].
  destruct (genai.Content_ c) as [content|]; [|left; reflexivity].
  destruct (genai.Parts content) as [|part parts]; [left; reflexivity|].
  destruct (audiotranscription.storage_NewClient W false); [left; reflexivity|].
  right. exists data, (genai.format_v part). split; [reflexivity|].
  destruct (audiotranscription.Write W _ _ _); cbn [snd]; unfold read_calls, write_calls;
    cbn [app]; reflexivity.
Qed.

Lemma parseGCSURL_built (bucket object : string) :
  no_slash bucket ->
  audiotranscription.parseGCSURL ("gs://" +:+ bucket +:+ "/" +:+ object)
  = (bucket, object, None).
Proof.
  intros Hb. unfold audiotranscription.parseGCSURL.
  rewrite HasPrefix_app, TrimPrefix_app. cbn [negb].
  change ("/" +:+ object) with (String slash object).
  now rewrite SplitN_slash_2_found.
Qed.

(** X23: the only object [AudioTranscription] opens for reading is
    the one named by the event (bucket without slash). *)
Theorem AudioTranscription_reads_event_object (W : audiotranscription.World)
    (e : audiotranscription.Event) (data : audiotranscription.StorageObjectData)
    (bucket object : string) :
  audiotranscription.DataAs e = inr data ->
  no_slash (audiotranscription.Bucket data) ->
  In (audiotranscription.CallNewReader bucket object) (transcription_trace W e) ->
  bucket = audiotranscription.Bucket data /\ object = audiotranscription.Name data.
Proof.
  intros Hd Hb. unfold transcription_trace. rewrite AudioTranscription_unfold, Hd.
  destruct (audiotranscription.genai_NewClient W _); [intros []|].
  rewrite transcribeAudio_run. unfold gcsURL_of. rewrite parseGCSURL_built by assumption.
  destruct (audiotranscription.storage_NewClient W true); [intros []|].
  destruct (audiotranscription.NewReader W _ _) as [err|reader].
  { cbn. intros [H|[]]. now injection H as -> ->. }
  destruct (audiotranscription.UploadFile W reader) as [err|uri].
  { cbn. intros [H|[H|[]]]; [now injection H as -> -> | discriminate H]. }
  cbn [app read_calls].
  set (rd := [audiotranscription.CallNewReader (audiotranscription.Bucket data)
                (audiotranscription.Name data);
              audiotranscription.CallUploadFile reader;
              audiotranscription.CallGenerateContent uri audiotranscription.prompt]).
  assert (Hrd : In (audiotranscription.CallNewReader bucket object) rd ->
                bucket = audiotranscription.Bucket data
                /\ object = audiotranscription.Name data).
  { cbn. intros [H|[H|[H|[]]]]; [now injection H as -> -> | discriminate H | discriminate H]. }
  destruct (match audiotranscription.GenerateContent W uri audiotranscription.prompt with
            | inl e0 => _ | inr res => _ end) as [[text [err|]]|msg]; cbn beta iota;
    try exact Hrd.
  destruct (audiotranscription.storage_NewClient W false); [exact Hrd|].
  destruct (audiotranscription.Write W _ _ _); cbn [snd];
    (intros [H|[H|[H|[H|[H|[H|[]]]]]]]; try discriminate H; now injection H as -> ->).
Qed.

Lemma Validate_accepted_witness :
  email_parts "a@b.com" /\ 8 <= len "Passw0rd".
Proof.
  destruct (Validate_accepted ada_account) as (H1 & H2 & _).
  - vm_compute. reflexivity.
  - split; [exact H1 | exact H2].
Defined.

Lemma UserRegistration_refuses_witness :
  http.StatusCode (resp (snd (run (user.UserRegistration firebase_ok
                                     (registration_of (inl "EOF"))) start)))
  = http.StatusBadRequest
  /\ calls (snd (run (user.UserRegistration firebase_ok
                        (registration_of (inr short_password_account))) start)) = [].
Proof.
  split.
  - apply (proj1 (UserRegistration_refuses firebase_ok (registration_of (inl "EOF"))) "EOF").
    reflexivity.
  - apply (proj2 (UserRegistration_refuses firebase_ok
                    (registration_of (inr short_password_account)))
                 short_password_account "password must be at least 8 characters long").
    + reflexivity.
    + vm_compute. reflexivity.
Defined.

Lemma UserAuthentication_without_api_key_witness :
  calls (auth_state sign_in_unconfigured login_request) = [].
Proof.
  apply (UserAuthentication_without_api_key sign_in_unconfigured login_request
           {| userauthentication.LoginRequest.Email := "a@b.com";
              userauthentication.LoginRequest.Password := "Passw0rd" |}).
  - reflexivity.
  - vm_compute. reflexivity.
Defined.

Lemma UserAuthentication_passes_provider_detail_witness :
  http.body (resp (auth_state sign_in_refused login_request))
  = [http.Text ("Authentication failed: authentication failed: INVALID_PASSWORD"
                +:+ String "010" EmptyString)].
Proof.
  apply (UserAuthentication_passes_provider_detail sign_in_refused login_request
           {| userauthentication.LoginRequest.Email := "a@b.com";
              userauthentication.LoginRequest.Password := "Passw0rd" |}
           400 "INVALID_PASSWORD").
  - reflexivity.
  - vm_compute. discriminate.
  - reflexivity.
  - vm_compute. discriminate.
Defined.

Lemma UserAuthentication_after_sign_in_witness :
  http.StatusCode (resp (auth_state sign_in_unverified login_request))
  = http.StatusUnauthorized
  /\ http.body (resp (auth_state sign_in_unverified login_request))
     = [http.Text ("Invalid ID token" +:+ String "010" EmptyString)].
Proof.
  apply (UserAuthentication_after_sign_in sign_in_unverified login_request
           {| userauthentication.LoginRequest.Email := "a@b.com";
              userauthentication.LoginRequest.Password := "Passw0rd" |}
           {| userauthentication.FirebaseSignInResponse.IDToken := "tok";
              userauthentication.FirebaseSignInResponse.Email := "a@b.com";
              userauthentication.FirebaseSignInResponse.RefreshToken := "r";
              userauthentication.FirebaseSignInResponse.ExpiresIn := "3600";
              userauthentication.FirebaseSignInResponse.LocalID := "uid-1";
              userauthentication.FirebaseSignInResponse.DisplayName := "Ada" |}).
  - reflexivity.
  - vm_compute. reflexivity.
Defined.

Lemma extractToken_bearer_witness :
  userprofilemanagement.extractToken (profile_request "GET" (inl "EOF")) = "tok".
Proof.
  apply (extractToken_bearer (profile_request "GET" (inl "EOF")) "tok").
  - discriminate.
  - vm_compute. reflexivity.
Defined.

Lemma verified_as_provider_with_user (method : string)
    (body : string + userprofilemanagement.UserProfileUpdate.t) :
  verified_as provider_with_user (profile_request method body) "uid-1".
Proof.
  split; [split; reflexivity|]. split; [vm_compute; discriminate | reflexivity].
Defined.

Lemma profile_get_witness :
  profile_status provider_with_user (profile_request "GET" (inl "EOF")) = http.StatusOK
  /\ profile_body provider_with_user (profile_request "GET" (inl "EOF"))
     = [http.JSON (json.Object [("id", json.String_ "uid-1");
                                ("email", json.String_ "a@b.com");
                                ("name", json.String_ "Ada");
                                ("createdAt", json.String_ "2023-11-14T22:13:20Z")])].
Proof.
  apply (proj2 (profile_get provider_with_user (profile_request "GET" (inl "EOF")) "uid-1"
                  (verified_as_provider_with_user _ _) eq_refl)).
Defined.

Lemma profile_put_witness :
  profile_calls provider_with_user
    (profile_request "PUT" (inr {| userprofilemanagement.UserProfileUpdate.Name := "Grace" |}))
  = [userprofilemanagement.CallVerify "tok" (inr "uid-1");
     userprofilemanagement.CallUpdateUser "uid-1" "Grace"].
Proof.
  apply (proj1 (profile_put provider_with_user
                  (profile_request "PUT"
                     (inr {| userprofilemanagement.UserProfileUpdate.Name := "Grace" |}))
                  "uid-1" (verified_as_provider_with_user _ _) eq_refl)).
Defined.

Lemma MediaUpload_error_body_witness :
  exists message,
    http.body (upload_response store_down (upload_of "clip.mp4" 1000))
    = [http.JSON (error_json 500 message)].
Proof.
  destruct (MediaUpload_error_body store_down (upload_of "clip.mp4" 1000))
    as (_ & _ & message & H).
  - vm_compute. discriminate.
  - exists message. exact H.
Defined.

Lemma MediaUpload_ok_witness :
  exists header ty,
    uploaded (upload_of "clip.mp4" 1000) header
    /\ classify (strings.ToLower (filepath.Ext (mediaupload.Filename header))) = Some ty.
Proof.
  destruct (MediaUpload_ok store_ok (upload_of "clip.mp4" 1000)) as (header & ty & H1 & H2 & _).
  - vm_compute. reflexivity.
  - exists header, ty. split; assumption.
Defined.

Lemma getFileType_no_dot_witness : mediaupload.getFileType "README" = "".
Proof.
  apply (getFileType_no_dot "README"). unfold no_dot. vm_compute. intuition discriminate.
Defined.

Lemma getFileType_last_dot_witness :
  mediaupload.getFileType ("archive.tar" +:+ "." +:+ "MP3") = "audio".
Proof.
  rewrite (getFileType_last_dot "archive.tar" "MP3").
  - vm_compute. reflexivity.
  - unfold no_dot. vm_compute. intuition discriminate.
  - unfold no_slash. vm_compute. intuition discriminate.
Defined.

Lemma MediaUpload_first_file_part_witness :
  (http.StatusCode (upload_response store_ok
                      (upload_parts [{| mediaupload.FormName := "cover";
                                        mediaupload.PartFileName := "cover.png";
                                        mediaupload.PartSize := 10 |}]))
   = http.StatusBadRequest)
  /\ exists header, uploaded (upload_parts mixed_parts) header
                    /\ mediaupload.Filename header = "first.mp3"
                    /\ mediaupload.Size header = 20.
Proof.
  split.
  - apply (proj1 (MediaUpload_first_file_part store_ok
                    (upload_parts [{| mediaupload.FormName := "cover";
                                      mediaupload.PartFileName := "cover.png";
                                      mediaupload.PartSize := 10 |}])) _ eq_refl).
    intros q [<-|[]]. reflexivity.
  - apply (proj2 (MediaUpload_first_file_part store_ok (upload_parts mixed_parts))
                 [{| mediaupload.FormName := "title"; mediaupload.PartFileName := "";
                     mediaupload.PartSize := 5 |};
                  {| mediaupload.FormName := "cover"; mediaupload.PartFileName := "cover.png";
                     mediaupload.PartSize := 10 |}]
                 {| mediaupload.FormName := "file"; mediaupload.PartFileName := "first.mp3";
                    mediaupload.PartSize := 20 |}
                 [{| mediaupload.FormName := "file"; mediaupload.PartFileName := "second.mp3";
                     mediaupload.PartSize := 30 |}]).
    + reflexivity.
    + intros q [<-|[<-|[]]]; reflexivity.
    + reflexivity.
Defined.

Lemma parseGCSURL_inverse_witness :
  "gs://b/dir/interview.mp3" = "gs://" +:+ "b" +:+ "/" +:+ "dir/interview.mp3" /\ no_slash "b".
Proof.
  apply (parseGCSURL_inverse "gs://b/dir/interview.mp3" "b" "dir/interview.mp3").
  vm_compute. reflexivity.
Defined.

Lemma transcribeAudio_text_witness :
  exists bucket object reader uri res c cs content part parts,
    audiotranscription.parseGCSURL "gs://b/interview.mp3" = (bucket, object, None)
    /\ audiotranscription.NewReader (world_answering (one_text "hello")) bucket object
       = inr reader
    /\ audiotranscription.UploadFile (world_answering (one_text "hello")) reader = inr uri
    /\ audiotranscription.GenerateContent (world_answering (one_text "hello")) uri
         audiotranscription.prompt = inr res
    /\ genai.Candidates res = c :: cs
    /\ genai.Content_ c = Some content
    /\ genai.Parts content = part :: parts
    /\ "hello" = genai.format_v part
    /\ snd (run (audiotranscription.transcribeAudio (world_answering (one_text "hello"))
                   "gs://b/interview.mp3") [])
       = [] ++ read_calls bucket object reader uri.
Proof.
  apply (transcribeAudio_text (world_answering (one_text "hello")) "gs://b/interview.mp3"
           "hello" []).
  vm_compute. reflexivity.
Defined.

Lemma AudioTranscription_reads_event_object_witness :
  "b" = "b" /\ "interview.mp3" = "interview.mp3".
Proof.
  apply (AudioTranscription_reads_event_object (world_answering no_candidates) interview_event
           {| audiotranscription.Bucket := "b"; audiotranscription.Name := "interview.mp3";
              audiotranscription.Metageneration := 1; audiotranscription.TimeCreated := 0;
              audiotranscription.Updated := 0 |} "b" "interview.mp3").
  - reflexivity.
  - unfold no_slash. vm_compute. intuition discriminate.
  - vm_compute. left. reflexivity.
Defined.

Lemma AudioTranscription_no_destination_call_unless_transcribed_witness :
  destination_calls (transcription_trace (world_answering nil_content) interview_event) = [].
Proof.
  apply (AudioTranscription_no_destination_call_unless_transcribed
           (world_answering nil_content) interview_event).
  intros data text H. injection H as <-. vm_compute. discriminate.
Defined.
